(** * DenseNet-BC acoustic model (asr/densenet/network.py)

    A shallow embedding of the module tree built by [DenseNet.__init__] and of
    the forward pass that threads a tensor through it.

    - Construction and the initialisation pass run in a state monad over the
      random generator, in the order in which the Python code creates the
      sub-modules; [add_module] is assignment into an ordered dictionary.
    - A module keeps its constructor arguments and the storage of its
      parameters and buffers.  [forward] returns the output (or the fact that
      the framework raised), the module tree afterwards and the generator
      afterwards.
    - The tensor framework (torch / pyro) is not part of the repository.  Its
      size rules are written out as the framework documents them; the
      numeric kernels (convolution, normalisation, pooling, the affine map,
      the samplers, the clipped softmax) are fields of the [Framework] class
      and stay uninterpreted.
    - Channel, layer and label counts are natural numbers.  Module names may
      contain dots, as in the framework release this code was written for.
    - Tensors are contiguous, and the size rule of a convolution does not
      look at the number of output channels: non-contiguous inputs are not
      represented, and a layer without channels or an empty batch is outside
      what the size rules decide.
    - Definitions named [spec_...] restate the architecture as the
      specification describes it; the theorems compare the embedding with
      them. *)

From Stdlib Require Import String Ascii List Arith Lia ZArith QArith Bool.
From Stdlib Require Import DecimalString DecimalNat.
Import ListNotations.

Local Open Scope string_scope.
Local Open Scope list_scope.
Local Open Scope nat_scope.

Set Implicit Arguments.
Set Warnings "-notation-for-abbreviation,-register-all".

(* ------------------------------------------------------------------ *)
(** ** Tensors *)

(** A contiguous tensor: its sizes and its storage, read by flat row-major
    offset.  Offsets at or beyond the element count are never read.  There
    are no strides: a transposed or otherwise non-contiguous input of the
    framework has no counterpart here, and nothing below speaks about
    one. *)
Record tensor (scalar : Type) : Type := mkTensor {
  size : list nat;
  data : nat -> scalar
}.

Definition prod (l : list nat) : nat := fold_right Nat.mul 1 l.

Definition numel {scalar} (t : tensor scalar) : nat := prod (size t).

(** Row-major offset of a multi-index. *)
Definition offset (sz idx : list nat) : nat :=
  fold_left (fun acc ni => acc * fst ni + snd ni) (combine sz idx) 0.

Definition get {scalar} (t : tensor scalar) (idx : list nat) : scalar :=
  data t (offset (size t) idx).

(** The entries of a tensor in storage order. *)
Definition entries {scalar} (t : tensor scalar) : list scalar :=
  map (data t) (seq 0 (numel t)).

Fixpoint list_eqb (a b : list nat) : bool :=
  match a, b with
  | [], [] => true
  | x :: a', y :: b' => (x =? y) && list_eqb a' b'
  | _, _ => false
  end.

(** [int -> (int, int)] expansion applied by the framework to [kernel_size],
    [stride] and [padding]. *)
Definition _pair (n : nat) : nat * nat := (n, n).

(** Python's [str] on a non-negative integer, as used by the f-strings that
    name the generated sub-modules. *)
Definition str (n : nat) : string := NilEmpty.string_of_uint (Nat.to_uint n).

(* ------------------------------------------------------------------ *)
(** ** Size rules of the framework *)

(** Output extent of a convolution window (dilation 1):
    [floor((n + 2p - k) / s) + 1]; the framework rejects a kernel larger than
    the padded input and a zero stride. *)
Definition conv_out (n k s p : nat) : option nat :=
  if (s =? 0) || (n + 2 * p <? k) then None
  else Some ((n + 2 * p - k) / s + 1).

(** Pooling windows (floor mode) obey the same formula and additionally need
    the padding to be at most half of the kernel. *)
Definition pool_out (n k s p : nat) : option nat :=
  if (k =? 0) || (k <? 2 * p) then None else conv_out n k s p.

(** [Conv2d] wants a 4-D input with [in_channels] channels and windows that
    fit.  The rule does not look at [out_channels]: the framework rejects a
    convolution without output channels, so what a layer does when
    [growth_rate], [bn_size] or a halved channel count is 0 lies outside
    what this rule decides. *)
Definition conv2d_size (in_channels out_channels : nat)
    (kernel_size stride padding : nat * nat) (sz : list nat) : option (list nat) :=
  match sz with
  | [B; C; H; W] =>
      if C =? in_channels then
        match conv_out H (fst kernel_size) (fst stride) (fst padding),
              conv_out W (snd kernel_size) (snd stride) (snd padding) with
        | Some H', Some W' => Some [B; out_channels; H'; W']
        | _, _ => None
        end
      else None
  | _ => None
  end.

Definition pool2d_size (kernel_size stride padding : nat * nat) (sz : list nat)
  : option (list nat) :=
  let out H W :=
    match pool_out H (fst kernel_size) (fst stride) (fst padding),
          pool_out W (snd kernel_size) (snd stride) (snd padding) with
    | Some H', Some W' => Some (H', W')
    | _, _ => None
    end in
  match sz with
  | [B; C; H; W] =>
      match out H W with Some (H', W') => Some [B; C; H'; W'] | None => None end
  | [C; H; W] =>
      match out H W with Some (H', W') => Some [C; H'; W'] | None => None end
  | _ => None
  end.

(** [BatchNorm2d] wants a 4-D input with [num_features] channels and, in
    training mode, more than one value per channel. *)
Definition batch_norm_size (training : bool) (num_features : nat) (sz : list nat)
  : option (list nat) :=
  match sz with
  | [B; C; H; W] =>
      if (C =? num_features) && negb (training && (B * H * W =? 1))
      then Some sz else None
  | _ => None
  end.

Definition linear_size (in_features out_features : nat) (sz : list nat)
  : option (list nat) :=
  match rev sz with
  | [] => None
  | d :: lead =>
      if d =? in_features then Some (rev lead ++ [out_features]) else None
  end.

(** Size inference of [Tensor.view] called as [x.view( *dim )]: a call
    without a size ([dim] empty) is a [TypeError]; at most one [-1]; the
    other entries must be non-negative; the wildcard is resolved by exact
    division. *)
Definition infer_size (dim : list Z) (n : nat) : option (list nat) :=
  match dim with
  | [] => None
  | _ :: _ =>
      if existsb (fun d => (d <? -1)%Z) dim then None
      else
        match count_occ Z.eq_dec dim (-1)%Z with
        | 0 =>
            let sz := map Z.to_nat dim in
            if prod sz =? n then Some sz else None
        | 1 =>
            let newsize :=
              prod (map Z.to_nat (filter (fun d => negb (d =? -1)%Z) dim)) in
            if (0 <? newsize) && (n mod newsize =? 0)
            then Some (map (fun d => if (d =? -1)%Z then n / newsize
                                     else Z.to_nat d) dim)
            else None
        | _ => None
        end
  end.

(** Result size of [torch.cat] of two tensors along [dim]: equal rank and
    equal extents everywhere but at [dim]. *)
Definition cat_size (sa sb : list nat) (dim : nat) : option (list nat) :=
  if (length sa =? length sb) && (dim <? length sa)
     && list_eqb (firstn dim sa) (firstn dim sb)
     && list_eqb (skipn (S dim) sa) (skipn (S dim) sb)
  then Some (firstn dim sa ++ [nth dim sa 0 + nth dim sb 0] ++ skipn (S dim) sa)
  else None.

(* ------------------------------------------------------------------ *)
(** ** The framework interface *)

(** Which random fill a sampler call performs. *)
Inductive init_scheme : Type :=
| reset_conv_weight      (* Conv2d.reset_parameters *)
| reset_linear_weight    (* Linear.reset_parameters, weight *)
| reset_linear_bias      (* Linear.reset_parameters, bias *)
| reset_bn_weight        (* BatchNorm2d.reset_parameters, weight *)
| kaiming_normal_fill.   (* nn.init.kaiming_normal *)

Class Framework (scalar rng : Type) : Type := {
  s_zero : scalar;
  s_one : scalar;
  s_mul : scalar -> scalar -> scalar;
  s_sigmoid : scalar -> scalar;
  (** random fill of a tensor of the given size, advancing the generator *)
  sample : init_scheme -> list nat -> rng -> (nat -> scalar) * rng;
  (** [F.conv2d input weight bias stride padding] *)
  conv2d_data : tensor scalar -> tensor scalar -> option (tensor scalar) ->
                nat * nat -> nat * nat -> nat -> scalar;
  (** [F.batch_norm input running_mean running_var weight bias training] *)
  batch_norm_data : tensor scalar -> tensor scalar -> tensor scalar ->
                    tensor scalar -> tensor scalar -> bool -> nat -> scalar;
  (** running statistics after a training-mode batch *)
  running_mean_data : tensor scalar -> tensor scalar -> nat -> scalar;
  running_var_data : tensor scalar -> tensor scalar -> nat -> scalar;
  max_pool2d_data : tensor scalar -> nat * nat -> nat * nat -> nat * nat ->
                    nat -> scalar;
  avg_pool2d_data : tensor scalar -> nat * nat -> nat * nat -> nat * nat ->
                    nat -> scalar;
  (** [F.linear input weight bias] *)
  linear_data : tensor scalar -> tensor scalar -> tensor scalar -> nat -> scalar;
  (** the Bernoulli mask of [F.dropout], already applied and rescaled *)
  dropout_data : tensor scalar -> Q -> rng -> (nat -> scalar) * rng;
  (** [pyro.nn.ClippedSoftmax(epsilon, dim)(input)] *)
  ClippedSoftmax : scalar -> nat -> tensor scalar -> option (tensor scalar)
}.

(** The sampler behind [torch.randn], used by [DenseNet.test] only. *)
Class Randn (scalar rng : Type) : Type := {
  randn_data : list nat -> rng -> (nat -> scalar) * rng
}.

(* ------------------------------------------------------------------ *)
(** ** The construction monad *)

(** State monad over the random generator: construction and the
    initialisation pass draw from it. *)
Definition M (rng A : Type) : Type := rng -> A * rng.

Definition ret {rng A} (a : A) : M rng A := fun r => (a, r).

Definition bind {rng A B} (c : M rng A) (k : A -> M rng B) : M rng B :=
  fun r => let ar := c r in k (fst ar) (snd ar).

Declare Scope model_scope.
Delimit Scope model_scope with model.
Notation "x <- c ;; k" := (bind c (fun x => k))
  (at level 61, c at next level, right associativity) : model_scope.

(* ------------------------------------------------------------------ *)
(** ** Modules *)

Section Model.

Context {scalar rng : Type} {F : Framework scalar rng}.

Local Notation tensor := (tensor scalar).
Local Notation storage := (nat -> scalar).
Local Notation M := (M rng).

Local Open Scope model_scope.

(** The [nn.Sequential] family: the plain container and its three
    subclasses.  Only [_DenseLayer] carries an attribute and overrides
    [forward]. *)
Inductive Class : Type :=
| cSequential
| c_DenseLayer (drop_rate : Q)
| c_DenseBlock
| c_Transition.

(** A module object.  A leaf keeps its construction arguments and the
    storage of its parameters and buffers; the sizes of those tensors are
    fixed by the arguments.  [modules] is the ordered dictionary
    [self._modules]. *)
Inductive Module : Type :=
| View (dim : list Z)
| Swish
| Conv2dM (in_channels out_channels : nat) (kernel_size stride padding : nat * nat)
          (weight : storage) (bias : option storage)
| BatchNorm2dM (num_features : nat) (weight bias running_mean running_var : storage)
| MaxPool2d (kernel_size stride padding : nat * nat)
| AvgPool2d (kernel_size stride padding : nat * nat)
| LinearM (in_features out_features : nat) (weight bias : storage)
| Container (cls : Class) (modules : list (string * Module)).

(** Sizes of parameter tensors. *)
Definition conv_weight_size (in_channels out_channels : nat) (kernel_size : nat * nat)
  : list nat := [out_channels; in_channels; fst kernel_size; snd kernel_size].

Definition linear_weight_size (in_features out_features : nat) : list nat :=
  [out_features; in_features].

(** [tensor.fill_(v)] and [tensor.zero_()] on a storage. *)
Definition fill_ (w : storage) (v : scalar) : storage := fun _ => v.
Definition zero_ (w : storage) : storage := fun _ => s_zero.

(** *** Framework constructors *)

(** [nn.Conv2d(in, out, kernel_size, stride, padding, bias=False)] *)
Definition Conv2d (in_channels out_channels kernel_size stride padding : nat)
  : M Module :=
  w <- sample reset_conv_weight
         (conv_weight_size in_channels out_channels (_pair kernel_size)) ;;
  ret (Conv2dM in_channels out_channels (_pair kernel_size) (_pair stride)
               (_pair padding) w None).

(** [nn.BatchNorm2d(num_features)] *)
Definition BatchNorm2d (num_features : nat) : M Module :=
  w <- sample reset_bn_weight [num_features] ;;
  ret (BatchNorm2dM num_features w (fun _ => s_zero)
                    (fun _ => s_zero) (fun _ => s_one)).

(** [nn.Linear(in_features, out_features)] *)
Definition Linear (in_features out_features : nat) : M Module :=
  w <- sample reset_linear_weight (linear_weight_size in_features out_features) ;;
  b <- sample reset_linear_bias [out_features] ;;
  ret (LinearM in_features out_features w b).

(** [Module.add_module]: assignment into the ordered dictionary.  A new
    name goes to the end; an existing name keeps its place and gets the new
    module. *)
Fixpoint add_module (self : list (string * Module)) (name : string) (m : Module)
  : list (string * Module) :=
  match self with
  | [] => [(name, m)]
  | (n, c) :: rest =>
      if String.eqb n name then (n, m) :: rest
      else (n, c) :: add_module rest name m
  end.

(** *** The classes of network.py *)

(** [_DenseLayer.__init__] *)
Definition _DenseLayer (num_input_features growth_rate bn_size : nat) (drop_rate : Q)
  : M Module :=
  let self := [] in
  m <- BatchNorm2d num_input_features ;;
  let self := add_module self "norm.1" m in
  let self := add_module self "swish.1" Swish in
  m <- Conv2d num_input_features (bn_size * growth_rate) 1 1 0 ;;
  let self := add_module self "conv.1" m in
  m <- BatchNorm2d (bn_size * growth_rate) ;;
  let self := add_module self "norm.2" m in
  let self := add_module self "swish.2" Swish in
  m <- Conv2d (bn_size * growth_rate) growth_rate 3 1 1 ;;
  let self := add_module self "conv.2" m in
  ret (Container (c_DenseLayer drop_rate) self).

(** The loop [for i in range(num_layers)] of [_DenseBlock.__init__], run over
    the remaining indices. *)
Fixpoint _DenseBlock_loop (num_input_features bn_size growth_rate : nat)
    (drop_rate : Q) (range : list nat) (self : list (string * Module))
  : M (list (string * Module)) :=
  match range with
  | [] => ret self
  | i :: range' =>
      layer <- _DenseLayer (num_input_features + i * growth_rate) growth_rate
                           bn_size drop_rate ;;
      _DenseBlock_loop num_input_features bn_size growth_rate drop_rate range'
                       (add_module self ("denselayer" ++ str (i + 1))%string layer)
  end.

(** [_DenseBlock.__init__] *)
Definition _DenseBlock (num_layers num_input_features bn_size growth_rate : nat)
    (drop_rate : Q) : M Module :=
  self <- _DenseBlock_loop num_input_features bn_size growth_rate drop_rate
                           (seq 0 num_layers) [] ;;
  ret (Container c_DenseBlock self).

(** [_Transition.__init__] *)
Definition _Transition (num_input_features num_output_features : nat) : M Module :=
  let self := [] in
  m <- BatchNorm2d num_input_features ;;
  let self := add_module self "norm" m in
  let self := add_module self "swish" Swish in
  m <- Conv2d num_input_features num_output_features 1 1 0 ;;
  let self := add_module self "conv" m in
  let self := add_module self "pool" (AvgPool2d (_pair 3) (_pair 2) (_pair 1)) in
  ret (Container c_Transition self).

(** The network object: its three attributes and its one child. *)
Record DenseNetT : Type := mkDenseNet {
  x_dim : nat;
  y_dim : nat;
  eps : scalar;
  hidden : Module
}.

(** The loop [for i, num_layers in enumerate(block_config)] of
    [DenseNet.__init__]; [len_block_config] is [len(block_config)] and the
    state is the children of [self.hidden] with the running [num_features]. *)
Fixpoint DenseNet_loop (growth_rate bn_size : nat) (drop_rate : Q)
    (len_block_config : nat) (enumerate : list (nat * nat))
    (hidden : list (string * Module)) (num_features : nat)
  : M (list (string * Module) * nat) :=
  match enumerate with
  | [] => ret (hidden, num_features)
  | (i, num_layers) :: enumerate' =>
      block <- _DenseBlock num_layers num_features bn_size growth_rate drop_rate ;;
      let hidden := add_module hidden ("denseblock" ++ str (i + 1))%string block in
      let num_features := num_features + num_layers * growth_rate in
      if negb (i =? len_block_config - 1) then
        trans <- _Transition num_features (num_features / 2) ;;
        let hidden := add_module hidden ("transition" ++ str (i + 1))%string trans in
        let num_features := num_features / 2 in
        DenseNet_loop growth_rate bn_size drop_rate len_block_config enumerate'
                      hidden num_features
      else
        DenseNet_loop growth_rate bn_size drop_rate len_block_config enumerate'
                      hidden num_features
  end.

(** Lines 85-115 of [DenseNet.__init__]: the assembly of [self.hidden]. *)
Definition DenseNet_assemble (y_dim growth_rate : nat) (block_config : list nat)
    (num_init_features bn_size : nat) (drop_rate : Q) : M Module :=
  (* First convolution *)
  conv_i <- Conv2d 2 num_init_features 3 1 1 ;;
  norm_i <- BatchNorm2d num_init_features ;;
  let hidden :=
    [ ("view.i", View [-1; 2; 129; 21]%Z);
      ("conv.i", conv_i);
      ("norm.i", norm_i);
      ("swish.i", Swish);
      ("pool.i", MaxPool2d (_pair 3) (2, 1) (_pair 1)) ] in
  (* Each denseblock *)
  st <- DenseNet_loop growth_rate bn_size drop_rate (length block_config)
          (combine (seq 0 (length block_config)) block_config)
          hidden num_init_features ;;
  let hidden := fst st in
  let num_features := snd st in
  (* Final layer *)
  m <- BatchNorm2d num_features ;;
  let hidden := add_module hidden "norm.f" m in
  let hidden := add_module hidden "swish.f" Swish in
  let hidden := add_module hidden "pool.f" (AvgPool2d (_pair 2) (_pair 1) (_pair 0)) in
  let hidden := add_module hidden "view.f" (View [-1; Z.of_nat (195 * 4)]%Z) in
  m <- Linear (195 * 4) y_dim ;;
  let hidden := add_module hidden "class.f" m in
  ret (Container cSequential hidden).

(** [nn.init.kaiming_normal(m.weight.data)] on a convolution weight. *)
Definition kaiming_normal (sz : list nat) (w : storage) : M storage :=
  sample kaiming_normal_fill sz.

(** Lines 118-125: the loop [for m in self.modules()], a pre-order walk
    that dispatches on the class of each module. *)
Fixpoint init_modules (m : Module) : M Module :=
  match m with
  | Conv2dM ic oc k s p w b =>
      w' <- kaiming_normal (conv_weight_size ic oc k) w ;;
      ret (Conv2dM ic oc k s p w' b)
  | BatchNorm2dM n w b rm rv =>
      ret (BatchNorm2dM n (fill_ w s_one) (zero_ b) rm rv)
  | LinearM i o w b =>
      ret (LinearM i o w (zero_ b))
  | Container cls ms =>
      ms' <- (fix children (ms : list (string * Module))
                : M (list (string * Module)) :=
                match ms with
                | [] => ret []
                | (n, c) :: rest =>
                    c' <- init_modules c ;;
                    rest' <- children rest ;;
                    ret ((n, c') :: rest')
                end) ms ;;
      ret (Container cls ms')
  | _ => ret m
  end.

(** [DenseNet.__init__]; [x_dim], [y_dim] and [eps] default to constants of
    [utils.params], which are arguments here. *)
Definition DenseNet (x_dim y_dim growth_rate : nat) (block_config : list nat)
    (num_init_features bn_size : nat) (drop_rate : Q) (eps : scalar)
  : M DenseNetT :=
  hidden <- DenseNet_assemble y_dim growth_rate block_config num_init_features
                              bn_size drop_rate ;;
  (* Official init from torch repo. *)
  hidden <- init_modules hidden ;;
  ret (mkDenseNet x_dim y_dim eps hidden).

(* ------------------------------------------------------------------ *)
(** ** The forward pass *)

(** [View.forward]: [x.view( *self.dim )]; the storage is shared, only the
    sizes change. *)
Definition View_forward (dim : list Z) (x : tensor) : option tensor :=
  match infer_size dim (numel x) with
  | Some sz => Some (mkTensor sz (data x))
  | None => None
  end.

Definition F_sigmoid (x : tensor) : tensor :=
  mkTensor (size x) (fun i => s_sigmoid (data x i)).

(** Element-wise product of two tensors of the same size. *)
Definition torch_mul (a b : tensor) : tensor :=
  mkTensor (size a) (fun i => s_mul (data a i) (data b i)).

(** [Swish.forward]: [x * F.sigmoid(x)] *)
Definition Swish_forward (x : tensor) : tensor := torch_mul x (F_sigmoid x).

(** [torch.cat([a, b], dim)]: for every index prefix before [dim] the slab
    of [a] is followed by the slab of [b]. *)
Definition torch_cat (a b : tensor) (dim : nat) : option tensor :=
  match cat_size (size a) (size b) dim with
  | Some sz =>
      let ia := prod (skipn dim (size a)) in
      let ib := prod (skipn dim (size b)) in
      Some (mkTensor sz (fun idx =>
              let o := idx / (ia + ib) in
              let rem := idx mod (ia + ib) in
              if rem <? ia then data a (o * ia + rem)
              else data b (o * ib + (rem - ia))))
  | None => None
  end.

Definition Qlt_bool (a b : Q) : bool := negb (Qle_bool b a).

(** [F.dropout(x, p, training)]: a probability outside [0, 1] is rejected;
    outside training mode the input is returned and the generator is not
    touched. *)
Definition F_dropout (x : tensor) (p : Q) (training : bool) (r : rng)
  : option tensor * rng :=
  if Qlt_bool p 0 || Qlt_bool 1 p then (None, r)
  else if training then
    let dr := dropout_data x p r in (Some (mkTensor (size x) (fst dr)), snd dr)
  else (Some x, r).

(** One call [module(x)].  The result is the returned tensor ([None] when
    the framework raises a size error), the module afterwards (a
    normalisation layer in training mode has updated its running
    statistics, also when a later module raises) and the generator
    afterwards.  [training] is the mode flag [self.training], which
    [train()] and [eval()] set on the whole tree at once. *)
Fixpoint forward (training : bool) (m : Module) (x : tensor) (r : rng) {struct m}
  : option tensor * Module * rng :=
  match m with
  | View dim => (View_forward dim x, m, r)
  | Swish => (Some (Swish_forward x), m, r)
  | Conv2dM ic oc k s p w b =>
      match conv2d_size ic oc k s p (size x) with
      | Some sz =>
          let wt := mkTensor (conv_weight_size ic oc k) w in
          let bt := option_map (mkTensor [oc]) b in
          (Some (mkTensor sz (conv2d_data x wt bt s p)), m, r)
      | None => (None, m, r)
      end
  | BatchNorm2dM n w b rm rv =>
      match batch_norm_size training n (size x) with
      | Some sz =>
          let wt := mkTensor [n] w in
          let bt := mkTensor [n] b in
          let rmt := mkTensor [n] rm in
          let rvt := mkTensor [n] rv in
          (Some (mkTensor sz (batch_norm_data x rmt rvt wt bt training)),
           if training
           then BatchNorm2dM n w b (running_mean_data x rmt) (running_var_data x rvt)
           else m,
           r)
      | None => (None, m, r)
      end
  | MaxPool2d k s p =>
      match pool2d_size k s p (size x) with
      | Some sz => (Some (mkTensor sz (max_pool2d_data x k s p)), m, r)
      | None => (None, m, r)
      end
  | AvgPool2d k s p =>
      match pool2d_size k s p (size x) with
      | Some sz => (Some (mkTensor sz (avg_pool2d_data x k s p)), m, r)
      | None => (None, m, r)
      end
  | LinearM i o w b =>
      match linear_size i o (size x) with
      | Some sz =>
          (Some (mkTensor sz (linear_data x (mkTensor (linear_weight_size i o) w)
                                          (mkTensor [o] b))), m, r)
      | None => (None, m, r)
      end
  | Container cls ms =>
      (* nn.Sequential.forward: for module in self._modules.values() *)
      let '(out, ms', r1) :=
        (fix sequential (ms : list (string * Module)) (input : tensor) (r : rng)
           : option tensor * list (string * Module) * rng :=
           match ms with
           | [] => (Some input, [], r)
           | (n, c) :: rest =>
               let '(out, c', r1) := forward training c input r in
               match out with
               | Some input' =>
                   let '(out', rest', r2) := sequential rest input' r1 in
                   (out', (n, c') :: rest', r2)
               | None => (None, (n, c') :: rest, r1)
               end
           end) ms x r in
      match cls, out with
      | c_DenseLayer drop_rate, Some new_features =>
          (* _DenseLayer.forward *)
          if Qlt_bool 0 drop_rate then
            match F_dropout new_features drop_rate training r1 with
            | (Some new_features, r2) =>
                (torch_cat x new_features 1, Container cls ms', r2)
            | (None, r2) => (None, Container cls ms', r2)
            end
          else (torch_cat x new_features 1, Container cls ms', r1)
      | _, _ => (out, Container cls ms', r1)
      end
  end.

(** [DenseNet.forward(x, softmax)] *)
Definition DenseNet_forward (training : bool) (self : DenseNetT) (x : tensor)
    (softmax : bool) (r : rng) : option tensor * DenseNetT * rng :=
  let '(out, hidden', r') := forward training (hidden self) x r in
  let self' := mkDenseNet (x_dim self) (y_dim self) (eps self) hidden' in
  match out with
  | Some out =>
      if softmax then (ClippedSoftmax (eps self) 1 out, self', r')
      else (Some out, self', r')
  | None => (None, self', r')
  end.

(* ------------------------------------------------------------------ *)
(** ** Observations on a module tree *)

(** [Module.parameters()]: the weights and biases, in registration order,
    children after the module's own.  Running statistics are buffers and
    are not listed. *)
Fixpoint parameters (m : Module) : list tensor :=
  match m with
  | Conv2dM ic oc k s p w b =>
      mkTensor (conv_weight_size ic oc k) w ::
      match b with Some b => [mkTensor [oc] b] | None => [] end
  | BatchNorm2dM n w b rm rv => [mkTensor [n] w; mkTensor [n] b]
  | LinearM i o w b => [mkTensor (linear_weight_size i o) w; mkTensor [o] b]
  | Container cls ms =>
      (fix children (ms : list (string * Module)) : list tensor :=
         match ms with
         | [] => []
         | (n, c) :: rest => parameters c ++ children rest
         end) ms
  | _ => []
  end.

(** [Module.modules()]: the module itself, then its descendants in order. *)
Fixpoint modules_of (m : Module) : list Module :=
  m ::
  match m with
  | Container cls ms =>
      (fix children (ms : list (string * Module)) : list Module :=
         match ms with
         | [] => []
         | (n, c) :: rest => modules_of c ++ children rest
         end) ms
  | _ => []
  end.

(** The loop of [nn.Sequential.forward], named. *)
Definition Sequential_forward (training : bool)
  : list (string * Module) -> tensor -> rng ->
    option tensor * list (string * Module) * rng :=
  fix sequential ms input r :=
    match ms with
    | [] => (Some input, [], r)
    | (n, c) :: rest =>
        let '(out, c', r1) := forward training c input r in
        match out with
        | Some input' =>
            let '(out', rest', r2) := sequential rest input' r1 in
            (out', (n, c') :: rest', r2)
        | None => (None, (n, c') :: rest, r1)
        end
    end.

Definition children_parameters : list (string * Module) -> list tensor :=
  fix children ms :=
    match ms with
    | [] => []
    | (n, c) :: rest => parameters c ++ children rest
    end.

(** [DenseNet.parameters()]: the network object registers no parameter of
    its own, so these are the parameters of [self.hidden]. *)
Definition DenseNet_parameters (self : DenseNetT) : list tensor :=
  parameters (hidden self).

(** [self._modules] of a container. *)
Definition children (m : Module) : list (string * Module) :=
  match m with
  | Container _ ms => ms
  | _ => []
  end.

Definition children_modules : list (string * Module) -> list Module :=
  fix children ms :=
    match ms with
    | [] => []
    | (n, c) :: rest => modules_of c ++ children rest
    end.

(** The walk of the initialisation pass over the children of a container. *)
Definition init_children : list (string * Module) -> M (list (string * Module)) :=
  fix children ms :=
    match ms with
    | [] => ret []
    | (n, c) :: rest =>
        c' <- init_modules c ;;
        rest' <- children rest ;;
        ret ((n, c') :: rest')
    end.

(** A module tree without its storages: class, construction arguments and
    named children. *)
Inductive Signature : Type :=
| SView (dim : list Z)
| SSwish
| SConv2d (in_channels out_channels : nat) (kernel_size stride padding : nat * nat)
          (bias : bool)
| SBatchNorm2d (num_features : nat)
| SMaxPool2d (kernel_size stride padding : nat * nat)
| SAvgPool2d (kernel_size stride padding : nat * nat)
| SLinear (in_features out_features : nat)
| SContainer (cls : Class) (modules : list (string * Signature)).

Fixpoint signature (m : Module) : Signature :=
  match m with
  | View dim => SView dim
  | Swish => SSwish
  | Conv2dM ic oc k s p _ b =>
      SConv2d ic oc k s p (match b with Some _ => true | None => false end)
  | BatchNorm2dM n _ _ _ _ => SBatchNorm2d n
  | MaxPool2d k s p => SMaxPool2d k s p
  | AvgPool2d k s p => SAvgPool2d k s p
  | LinearM i o _ _ => SLinear i o
  | Container cls ms =>
      SContainer cls
        ((fix children (ms : list (string * Module)) : list (string * Signature) :=
            match ms with
            | [] => []
            | (n, c) :: rest => (n, signature c) :: children rest
            end) ms)
  end.

Definition children_signature : list (string * Module) -> list (string * Signature) :=
  fix children ms :=
    match ms with
    | [] => []
    | (n, c) :: rest => (n, signature c) :: children rest
    end.

(** The module tree with every convolution weight blanked: what is left is
    everything the tree holds besides convolution weights. *)
Fixpoint forget_conv_weights (m : Module) : Module :=
  match m with
  | Conv2dM ic oc k s p w b => Conv2dM ic oc k s p (fun _ => s_zero) b
  | Container cls ms =>
      Container cls
        ((fix children (ms : list (string * Module)) : list (string * Module) :=
            match ms with
            | [] => []
            | (n, c) :: rest => (n, forget_conv_weights c) :: children rest
            end) ms)
  | _ => m
  end.

Definition forget_children : list (string * Module) -> list (string * Module) :=
  fix children ms :=
    match ms with
    | [] => []
    | (n, c) :: rest => (n, forget_conv_weights c) :: children rest
    end.

(** What the initialisation pass establishes at one module. *)
Definition initialised (m : Module) : Prop :=
  match m with
  | BatchNorm2dM n w b _ _ => w = (fun _ => s_one) /\ b = (fun _ => s_zero)
  | LinearM _ _ _ b => b = (fun _ => s_zero)
  | _ => True
  end.

(** Weights of the linear layers of a tree, in traversal order. *)
Definition linear_weights (m : Module) : list tensor :=
  flat_map (fun m => match m with
                     | LinearM i o w _ => [mkTensor (linear_weight_size i o) w]
                     | _ => []
                     end) (modules_of m).

(** Size-level reading of [forward]: the size of the returned tensor as a
    function of the input size alone. *)
Fixpoint forward_size (training : bool) (m : Module) (sz : list nat) {struct m}
  : option (list nat) :=
  match m with
  | View dim => infer_size dim (prod sz)
  | Swish => Some sz
  | Conv2dM ic oc k s p _ _ => conv2d_size ic oc k s p sz
  | BatchNorm2dM n _ _ _ _ => batch_norm_size training n sz
  | MaxPool2d k s p => pool2d_size k s p sz
  | AvgPool2d k s p => pool2d_size k s p sz
  | LinearM i o _ _ => linear_size i o sz
  | Container cls ms =>
      let out :=
        (fix sequential (ms : list (string * Module)) (sz : list nat)
           : option (list nat) :=
           match ms with
           | [] => Some sz
           | (n, c) :: rest =>
               match forward_size training c sz with
               | Some sz' => sequential rest sz'
               | None => None
               end
           end) ms sz in
      match cls, out with
      | c_DenseLayer drop_rate, Some new_sz =>
          if Qlt_bool 0 drop_rate && (Qlt_bool drop_rate 0 || Qlt_bool 1 drop_rate)
          then None else cat_size sz new_sz 1
      | _, _ => out
      end
  end.

Definition Sequential_size (training : bool)
  : list (string * Module) -> list nat -> option (list nat) :=
  fix sequential ms sz :=
    match ms with
    | [] => Some sz
    | (n, c) :: rest =>
        match forward_size training c sz with
        | Some sz' => sequential rest sz'
        | None => None
        end
    end.

(** [forward_size] read off a signature. *)
Fixpoint signature_size (training : bool) (m : Signature) (sz : list nat) {struct m}
  : option (list nat) :=
  match m with
  | SView dim => infer_size dim (prod sz)
  | SSwish => Some sz
  | SConv2d ic oc k s p _ => conv2d_size ic oc k s p sz
  | SBatchNorm2d n => batch_norm_size training n sz
  | SMaxPool2d k s p => pool2d_size k s p sz
  | SAvgPool2d k s p => pool2d_size k s p sz
  | SLinear i o => linear_size i o sz
  | SContainer cls ms =>
      let out :=
        (fix sequential (ms : list (string * Signature)) (sz : list nat)
           : option (list nat) :=
           match ms with
           | [] => Some sz
           | (n, c) :: rest =>
               match signature_size training c sz with
               | Some sz' => sequential rest sz'
               | None => None
               end
           end) ms sz in
      match cls, out with
      | c_DenseLayer drop_rate, Some new_sz =>
          if Qlt_bool 0 drop_rate && (Qlt_bool drop_rate 0 || Qlt_bool 1 drop_rate)
          then None else cat_size sz new_sz 1
      | _, _ => out
      end
  end.

Definition signatures_size (training : bool)
  : list (string * Signature) -> list nat -> option (list nat) :=
  fix sequential ms sz :=
    match ms with
    | [] => Some sz
    | (n, c) :: rest =>
        match signature_size training c sz with
        | Some sz' => sequential rest sz'
        | None => None
        end
    end.

(** No dense layer of the tree has a positive dropout probability, so
    [_DenseLayer.forward] never reaches [F.dropout]. *)
Fixpoint dropout_free (m : Signature) : bool :=
  match m with
  | SContainer cls ms =>
      match cls with
      | c_DenseLayer drop_rate => negb (Qlt_bool 0 drop_rate)
      | _ => true
      end
      && (fix all (ms : list (string * Signature)) : bool :=
            match ms with
            | [] => true
            | (n, c) :: rest => dropout_free c && all rest
            end) ms
  | _ => true
  end.

Definition all_dropout_free : list (string * Signature) -> bool :=
  fix all ms :=
    match ms with
    | [] => true
    | (n, c) :: rest => dropout_free c && all rest
    end.

(* ------------------------------------------------------------------ *)
(** ** The architecture as the specification words it *)

(** §4.3: normalize, activate, compress to [bottleneck x growth_rate]
    channels by a 1x1 convolution, normalize, activate, produce
    [growth_rate] channels by a 3x3 convolution with unit padding. *)
Definition spec_dense_layer (channels growth_rate bottleneck : nat) (dropout : Q)
  : Signature :=
  SContainer (c_DenseLayer dropout)
    [ ("norm.1", SBatchNorm2d channels);
      ("swish.1", SSwish);
      ("conv.1", SConv2d channels (bottleneck * growth_rate) (1, 1) (1, 1) (0, 0) false);
      ("norm.2", SBatchNorm2d (bottleneck * growth_rate));
      ("swish.2", SSwish);
      ("conv.2", SConv2d (bottleneck * growth_rate) growth_rate (3, 3) (1, 1) (1, 1) false) ].

(** §4.4: a chain of [N] dense layers; layer [i] receives
    [initial_channels + i x growth_rate] channels. *)
Definition spec_dense_block (N initial_channels bottleneck growth_rate : nat)
    (dropout : Q) : Signature :=
  SContainer c_DenseBlock
    (map (fun i => (("denselayer" ++ str (i + 1))%string,
                    spec_dense_layer (initial_channels + i * growth_rate)
                                     growth_rate bottleneck dropout))
         (seq 0 N)).

(** §4.5: normalize, activate, 1x1 convolution, average pooling with
    window 3, stride 2, padding 1. *)
Definition spec_transition (channels_in channels_out : nat) : Signature :=
  SContainer c_Transition
    [ ("norm", SBatchNorm2d channels_in);
      ("swish", SSwish);
      ("conv", SConv2d channels_in channels_out (1, 1) (1, 1) (0, 0) false);
      ("pool", SAvgPool2d (3, 3) (2, 2) (1, 1)) ].

(** §4.6 step 1. *)
Definition spec_stem (stem_channels : nat) : list (string * Signature) :=
  [ ("view.i", SView [-1; 2; 129; 21]%Z);
    ("conv.i", SConv2d 2 stem_channels (3, 3) (1, 1) (1, 1) false);
    ("norm.i", SBatchNorm2d stem_channels);
    ("swish.i", SSwish);
    ("pool.i", SMaxPool2d (3, 3) (2, 1) (1, 1)) ].

(** §4.6 step 2: for each entry, a dense block on the current channel
    count, which grows by [layers x growth_rate]; if the block is not the
    last, a transition that halves the channel count.  [k] numbers the entry,
    from 1.  The result is the stages with the final channel count. *)
Fixpoint spec_stages (growth_rate bottleneck : nat) (dropout : Q)
    (block_config : list nat) (k channels : nat)
  : list (string * Signature) * nat :=
  match block_config with
  | [] => ([], channels)
  | layers :: later =>
      let block := (("denseblock" ++ str k)%string,
                    spec_dense_block layers channels bottleneck growth_rate dropout) in
      let channels := channels + layers * growth_rate in
      match later with
      | [] => ([block], channels)
      | _ :: _ =>
          let trans := (("transition" ++ str k)%string,
                        spec_transition channels (channels / 2)) in
          let more := spec_stages growth_rate bottleneck dropout later (S k)
                                  (channels / 2) in
          (block :: trans :: fst more, snd more)
      end
  end.

(** The value of [num_features] when iteration [i] (from 0) of the loop over
    [block_config] in [DenseNet.__init__] starts: every earlier iteration
    has added [num_layers * growth_rate] and then halved the sum. *)
Fixpoint num_features_at (growth_rate : nat) (block_config : list nat)
    (num_init_features i : nat) {struct i} : nat :=
  match i with
  | 0 => num_init_features
  | S j =>
      match block_config with
      | [] => num_init_features
      | num_layers :: later =>
          num_features_at growth_rate later
            ((num_init_features + num_layers * growth_rate) / 2) j
      end
  end.

(** §4.6 step 3. *)
Definition spec_head (channels flat_size label_count : nat)
  : list (string * Signature) :=
  [ ("norm.f", SBatchNorm2d channels);
    ("swish.f", SSwish);
    ("pool.f", SAvgPool2d (2, 2) (1, 1) (0, 0));
    ("view.f", SView [(-1)%Z; Z.of_nat flat_size]);
    ("class.f", SLinear flat_size label_count) ].

(* ------------------------------------------------------------------ *)
(** ** Invariant of the assembly loop *)

Definition stem_names : list string :=
  ["view.i"; "conv.i"; "norm.i"; "swish.i"; "pool.i"].

(** The names that can be in use in [self.hidden] when the loop of
    [DenseNet.__init__] is about to run iteration [i]. *)
Definition registered (i : nat) (name : string) : Prop :=
  In name stem_names \/
  exists j, j < i /\
    (name = ("denseblock" ++ str (j + 1))%string \/
     name = ("transition" ++ str (j + 1))%string).

Definition head_names : list string :=
  ["norm.f"; "swish.f"; "pool.f"; "view.f"; "class.f"].

(** Input and output channel counts of the transitions among the children
    of a container signature, in order. *)
Definition transition_widths (stages : list (string * Signature)) : list (nat * nat) :=
  flat_map (fun e => match snd e with
                     | SContainer c_Transition
                         [_; _; (_, SConv2d a b _ _ _ _); _] => [(a, b)]
                     | _ => []
                     end) stages.

(* ------------------------------------------------------------------ *)
(** ** Further observations *)

(** [Module.buffers()]: the running statistics of the normalisation
    layers, in traversal order. *)
Fixpoint buffers (m : Module) : list tensor :=
  match m with
  | BatchNorm2dM n w b rm rv => [mkTensor [n] rm; mkTensor [n] rv]
  | Container cls ms =>
      (fix children (ms : list (string * Module)) : list tensor :=
         match ms with
         | [] => []
         | (n, c) :: rest => buffers c ++ children rest
         end) ms
  | _ => []
  end.

Definition children_buffers : list (string * Module) -> list tensor :=
  fix children ms :=
    match ms with
    | [] => []
    | (n, c) :: rest => buffers c ++ children rest
    end.

(** A size computation that, if it returns, returns [v]. *)
Definition returns_only (o : option (list nat)) (v : list nat) : Prop :=
  match o with
  | Some s => s = v
  | None => True
  end.

(** Extent left by the pooling of a transition (window 3, stride 2,
    padding 1). *)
Definition halve (n : nat) : nat := (n - 1) / 2 + 1.

(* ------------------------------------------------------------------ *)
(** ** The method [DenseNet.test] *)

Context {R : Randn scalar rng}.

(** [torch.randn( *sz )] *)
Definition torch_randn (sz : list nat) (r : rng) : tensor * rng :=
  let d := randn_data sz r in (mkTensor sz (fst d), snd d).

(** The loop [for h in self.hidden] of [test].  [printed] is what has gone
    to standard output so far, one size per line.  The result is the
    output, whether the loop ran to its end ([false]: a call raised), the
    children afterwards and the generator afterwards. *)
Fixpoint test_loop (training : bool) (hs : list (string * Module)) (xs : tensor)
    (r : rng) (printed : list (list nat))
  : list (list nat) * bool * list (string * Module) * rng :=
  match hs with
  | [] => (printed, true, [], r)
  | (n, h) :: rest =>
      let '(out, h', r1) := forward training h xs r in
      match out with
      | Some xs' =>
          let '(printed', ok, rest', r2) :=
            test_loop training rest xs' r1 (printed ++ [size xs']) in
          (printed', ok, (n, h') :: rest', r2)
      | None => (printed, false, (n, h') :: rest, r1)
      end
  end.

(** [DenseNet.test]: a random batch of 10 inputs is pushed through the
    children of [self.hidden] one by one, printing every size on the way. *)
Definition DenseNet_test (training : bool) (self : DenseNetT) (r : rng)
  : list (list nat) * bool * DenseNetT * rng :=
  let sampled := torch_randn [10; x_dim self] r in
  let xs := fst sampled in
  let printed := [size xs] in
  match hidden self with
  | Container cls hs =>
      let '(printed', ok, hs', r') :=
        test_loop training hs xs (snd sampled) printed in
      (printed', ok,
       mkDenseNet (x_dim self) (y_dim self) (eps self) (Container cls hs'), r')
  | _ => (printed, false, self, snd sampled)
  end.

End Model.

(* ------------------------------------------------------------------ *)
(** ** A small framework instance for running the model *)

(** Integer scalars and a counter as generator.  The kernels are simple
    arithmetic stand-ins; they let the model be evaluated on concrete
    inputs. *)
Definition toy_sum (t : tensor Z) (n : nat) : Z :=
  fold_right (fun i acc => (data t i + acc)%Z) 0%Z (seq 0 n).

#[global] Instance toy : Framework Z nat := {|
  s_zero := 0%Z;
  s_one := 1%Z;
  s_mul := Z.mul;
  s_sigmoid := fun v => (if 0 <=? v then 1 else 0)%Z;
  sample := fun scheme sz r => (fun i => Z.of_nat (r + i), S r);
  conv2d_data := fun x w b s p i => (toy_sum x 2 + data w i)%Z;
  batch_norm_data := fun x rm rv w b training i =>
    (if training then data x i * data w i + data b i
     else (data x i - data rm i) * data w i + data b i)%Z;
  running_mean_data := fun x rm i => (data rm i + toy_sum x 2)%Z;
  running_var_data := fun x rv i => (data rv i + 1)%Z;
  max_pool2d_data := fun x k s p i => Z.max (data x i) (data x (S i));
  avg_pool2d_data := fun x k s p i => ((data x i + data x (S i)) / 2)%Z;
  linear_data := fun x w b i => (toy_sum x 2 * data w i + data b i)%Z;
  dropout_data := fun x p r =>
    (fun i => if Nat.even (r + i) then data x i else 0%Z, S r);
  ClippedSoftmax := fun e dim x =>
    if dim <? length (size x) then Some x else None
|}.

#[global] Instance toy_randn : Randn Z nat := {|
  randn_data := fun sz r => (fun i => Z.of_nat (r + 2 * i), S r)
|}.

(* ------------------------------------------------------------------ *)
(** ** General facts about the module tree *)

Unset Implicit Arguments.

Section Theory.

Context {scalar rng : Type} {F : Framework scalar rng}.

Local Notation tensor := (tensor scalar).
Local Notation Module := (@Module scalar).

Lemma forward_Container training cls ms x r :
  forward training (Container cls ms) x r =
  let '(out, ms', r1) := Sequential_forward training ms x r in
  match cls, out with
  | c_DenseLayer drop_rate, Some new_features =>
      if Qlt_bool 0 drop_rate then
        match F_dropout new_features drop_rate training r1 with
        | (Some new_features, r2) =>
            (torch_cat x new_features 1, Container cls ms', r2)
        | (None, r2) => (None, Container cls ms', r2)
        end
      else (torch_cat x new_features 1, Container cls ms', r1)
  | _, _ => (out, Container cls ms', r1)
  end.
Proof. reflexivity. Qed.

Lemma forward_size_Container training cls (ms : list (string * Module)) sz :
  forward_size training (Container cls ms) sz =
  let out := Sequential_size training ms sz in
  match cls, out with
  | c_DenseLayer drop_rate, Some new_sz =>
      if Qlt_bool 0 drop_rate && (Qlt_bool drop_rate 0 || Qlt_bool 1 drop_rate)
      then None else cat_size sz new_sz 1
  | _, _ => out
  end.
Proof. reflexivity. Qed.

Lemma signature_Container cls (ms : list (string * Module)) :
  signature (Container cls ms) = SContainer cls (children_signature ms).
Proof. reflexivity. Qed.

Lemma signature_size_Container training cls (ms : list (string * Signature)) sz :
  signature_size training (SContainer cls ms) sz =
  let out := signatures_size training ms sz in
  match cls, out with
  | c_DenseLayer drop_rate, Some new_sz =>
      if Qlt_bool 0 drop_rate && (Qlt_bool drop_rate 0 || Qlt_bool 1 drop_rate)
      then None else cat_size sz new_sz 1
  | _, _ => out
  end.
Proof. reflexivity. Qed.

(** Induction over the module tree, with the hypothesis available for every
    child of a container. *)
Lemma Module_induction (P : Module -> Prop) :
  (forall dim, P (View dim)) ->
  P Swish ->
  (forall ic oc k s p w b, P (Conv2dM ic oc k s p w b)) ->
  (forall n w b rm rv, P (BatchNorm2dM n w b rm rv)) ->
  (forall k s p, P (MaxPool2d k s p)) ->
  (forall k s p, P (AvgPool2d k s p)) ->
  (forall i o w b, P (LinearM i o w b)) ->
  (forall cls ms, Forall (fun nm => P (snd nm)) ms -> P (Container cls ms)) ->
  forall m, P m.
Proof.
  intros HV HS HC HB HM HA HL HK.
  fix IH 1.
  intros [dim| |ic oc k s p w b|n w b rm rv|k s p|k s p|i o w b|cls ms];
    try solve [clear IH; auto].
  apply HK.
  induction ms as [|[n c] rest IHrest]; constructor.
  - simpl. apply IH.
  - exact IHrest.
Qed.

Lemma torch_cat_size (a b : tensor) dim :
  option_map (@size scalar) (torch_cat a b dim) = cat_size (size a) (size b) dim.
Proof.
  unfold torch_cat. destruct (cat_size (size a) (size b) dim); reflexivity.
Qed.

Lemma F_dropout_size (x : tensor) p training r :
  option_map (@size scalar) (fst (F_dropout x p training r)) =
  if Qlt_bool p 0 || Qlt_bool 1 p then None else Some (size x).
Proof.
  unfold F_dropout.
  destruct (Qlt_bool p 0 || Qlt_bool 1 p); [reflexivity|].
  destruct training; reflexivity.
Qed.

(** The size of what [forward] returns is [forward_size] of the input size,
    and [forward] raises exactly when [forward_size] does. *)
Lemma forward_size_spec training (m : Module) :
  forall x r,
    option_map (@size scalar) (fst (fst (forward training m x r))) =
    forward_size training m (size x).
Proof.
  induction m as [dim| |ic oc k s p w b|n w b rm rv|k s p|k s p|i o w b|cls ms IH]
    using Module_induction; intros x r.
  - simpl. unfold View_forward, numel.
    destruct (infer_size dim (prod (size x))); reflexivity.
  - reflexivity.
  - simpl. destruct (conv2d_size ic oc k s p (size x)); reflexivity.
  - simpl. destruct (batch_norm_size training n (size x)); reflexivity.
  - simpl. destruct (pool2d_size k s p (size x)); reflexivity.
  - simpl. destruct (pool2d_size k s p (size x)); reflexivity.
  - simpl. destruct (linear_size i o (size x)); reflexivity.
  - rewrite forward_Container, forward_size_Container.
    assert (Hseq : forall x r,
      option_map (@size scalar) (fst (fst (Sequential_forward training ms x r))) =
      Sequential_size training ms (size x)).
    { clear x r. induction IH as [|[n c] rest Hc _ IHrest]; intros x r.
      - reflexivity.
      - simpl in *. specialize (Hc x r).
        destruct (forward training c x r) as [[o c'] r1]. simpl in Hc.
        destruct o as [y|]; simpl in Hc; rewrite <- Hc; [|reflexivity].
        specialize (IHrest y r1).
        destruct (Sequential_forward training rest y r1) as [[o' rest'] r2].
        exact IHrest. }
    specialize (Hseq x r).
    destruct (Sequential_forward training ms x r) as [[o ms'] r1].
    simpl in Hseq. cbv zeta. rewrite <- Hseq.
    destruct cls as [|dr| |]; try reflexivity.
    destruct o as [nf|]; [|reflexivity]. simpl.
    destruct (Qlt_bool 0 dr); simpl.
    + pose proof (F_dropout_size nf dr training r1) as Hd.
      destruct (F_dropout nf dr training r1) as [[nf'|] r2]; simpl in *.
      * destruct (Qlt_bool dr 0 || Qlt_bool 1 dr); [discriminate|].
        injection Hd as Hd. rewrite <- Hd. apply torch_cat_size.
      * destruct (Qlt_bool dr 0 || Qlt_bool 1 dr); [reflexivity|discriminate].
    + apply torch_cat_size.
Qed.

(* ------------------------------------------------------------------ *)
(** ** Concatenation along the channel axis *)

Lemma list_eqb_refl (l : list nat) : list_eqb l l = true.
Proof.
  induction l as [|a l IH]; [reflexivity|].
  simpl. now rewrite Nat.eqb_refl, IH.
Qed.

Lemma slab_offset_bound (C H W c i j : nat) :
  c < C -> i < H -> j < W -> (c * H + i) * W + j < C * (H * W).
Proof.
  intros Hc Hi Hj.
  assert (c * H + i + 1 <= C * H) by nia.
  assert ((c * H + i + 1) * W <= C * H * W) by (apply Nat.mul_le_mono_r; lia).
  nia.
Qed.

Lemma cat_size_channels (B C G H W : nat) :
  cat_size [B; C; H; W] [B; G; H; W] 1 = Some [B; C + G; H; W].
Proof.
  unfold cat_size. cbn [length firstn skipn nth app].
  rewrite !list_eqb_refl. reflexivity.
Qed.

(** [torch.cat([a, b], 1)] on two 4-D tensors that agree on batch, height
    and width: the channels of [a], then the channels of [b]. *)
Lemma torch_cat_channels (a b : tensor) (B C G H W : nat) :
  size a = [B; C; H; W] -> size b = [B; G; H; W] ->
  exists out,
    torch_cat a b 1 = Some out /\
    size out = [B; C + G; H; W] /\
    (forall n c i j, n < B -> c < C -> i < H -> j < W ->
       get out [n; c; i; j] = get a [n; c; i; j]) /\
    (forall n c i j, n < B -> c < G -> i < H -> j < W ->
       get out [n; C + c; i; j] = get b [n; c; i; j]).
Proof.
  intros Ha Hb. unfold torch_cat. rewrite Ha, Hb, cat_size_channels.
  eexists. split; [reflexivity|]. split; [reflexivity|].
  cbn [skipn]. unfold prod. cbn [fold_right]. rewrite !Nat.mul_1_r.
  split; intros n c i j Hn Hc Hi Hj; unfold get; rewrite ?Ha, ?Hb;
    unfold offset; cbn [size data combine fold_left fst snd];
    rewrite Nat.mul_0_l, Nat.add_0_l.
  - pose proof (slab_offset_bound C H W c i j Hc Hi Hj) as Hlt.
    set (rem := (c * H + i) * W + j) in *.
    set (ia := C * (H * W)) in *. set (ib := G * (H * W)).
    assert (E : ((n * (C + G) + c) * H + i) * W + j = (ia + ib) * n + rem)
      by (subst rem ia ib; ring).
    rewrite E.
    assert (Hr : rem < ia + ib) by lia.
    rewrite <- (Nat.div_unique _ _ n rem Hr eq_refl).
    rewrite <- (Nat.mod_unique _ _ n rem Hr eq_refl).
    destruct (Nat.ltb_spec rem ia) as [_|Hge]; [|lia].
    f_equal. subst rem ia. ring.
  - pose proof (slab_offset_bound G H W c i j Hc Hi Hj) as Hlt.
    set (rem := (c * H + i) * W + j) in *.
    set (ia := C * (H * W)). set (ib := G * (H * W)) in *.
    assert (E : ((n * (C + G) + (C + c)) * H + i) * W + j
                = (ia + ib) * n + (ia + rem))
      by (subst rem ia ib; ring).
    rewrite E.
    assert (Hr : ia + rem < ia + ib) by lia.
    rewrite <- (Nat.div_unique _ _ n (ia + rem) Hr eq_refl).
    rewrite <- (Nat.mod_unique _ _ n (ia + rem) Hr eq_refl).
    destruct (Nat.ltb_spec (ia + rem) ia) as [Hlt'|_]; [lia|].
    f_equal. replace (ia + rem - ia) with rem by lia. subst rem ib. ring.
Qed.

(* ------------------------------------------------------------------ *)
(** ** The dense layer *)

Lemma conv_out_pointwise (n : nat) : 0 < n -> conv_out n 1 1 0 = Some n.
Proof.
  intros Hn. unfold conv_out. cbn [Nat.eqb orb].
  destruct (Nat.ltb_spec (n + 2 * 0) 1) as [C|_]; [lia|].
  rewrite Nat.div_1_r. f_equal. lia.
Qed.

Lemma conv_out_same_padding (n : nat) : 0 < n -> conv_out n 3 1 1 = Some n.
Proof.
  intros Hn. unfold conv_out. cbn [Nat.eqb orb].
  destruct (Nat.ltb_spec (n + 2 * 1) 3) as [C|_]; [lia|].
  rewrite Nat.div_1_r. f_equal. lia.
Qed.

Lemma batch_norm_size_ok (training : bool) (B C H W : nat) :
  (training = true -> B * H * W <> 1) ->
  batch_norm_size training C [B; C; H; W] = Some [B; C; H; W].
Proof.
  intros Ht. unfold batch_norm_size. rewrite Nat.eqb_refl.
  destruct training; [|reflexivity].
  destruct (Nat.eqb_spec (B * H * W) 1) as [E|_]; [|reflexivity].
  exfalso. now apply Ht.
Qed.

Lemma Qlt_bool_false_of_le (a b : Q) : (a <= b)%Q -> Qlt_bool b a = false.
Proof.
  intros H. unfold Qlt_bool. apply Qle_bool_iff in H. now rewrite H.
Qed.

Lemma Qlt_bool_asym (a b : Q) : Qlt_bool a b = true -> Qlt_bool b a = false.
Proof.
  unfold Qlt_bool. intros H. apply negb_true_iff in H.
  apply negb_false_iff, Qle_bool_iff.
  destruct (Qlt_le_dec a b) as [Hlt|Hle].
  - now apply Qlt_le_weak.
  - apply Qle_bool_iff in Hle. congruence.
Qed.

(** The size rules read constructor arguments only. *)
Lemma forward_size_signature training (m : Module) :
  forall sz, forward_size training m sz = signature_size training (signature m) sz.
Proof.
  induction m as [dim| |ic oc k s p w b|n w b rm rv|k s p|k s p|i o w b|cls ms IH]
    using Module_induction; intros sz; try reflexivity.
  rewrite forward_size_Container, signature_Container, signature_size_Container.
  assert (Hseq : forall sz,
            Sequential_size training ms sz =
            signatures_size training (children_signature ms) sz).
  { clear sz. induction IH as [|[n c] rest Hc _ IHrest]; intros sz; [reflexivity|].
    cbn [Sequential_size children_signature signatures_size].
    cbn [snd] in Hc. rewrite Hc.
    destruct (signature_size training (signature c) sz); [apply IHrest|reflexivity]. }
  cbv zeta. now rewrite Hseq.
Qed.

Lemma signatures_size_app training (a b : list (string * Signature)) :
  forall sz,
    signatures_size training (a ++ b) sz =
    match signatures_size training a sz with
    | Some sz' => signatures_size training b sz'
    | None => None
    end.
Proof.
  induction a as [|[n c] a IH]; intros sz; [reflexivity|].
  cbn [app signatures_size].
  destruct (signature_size training c sz); [apply IH|reflexivity].
Qed.

Lemma spec_dense_layer_size (training : bool) (C g bn : nat) (dr : Q) (B H W : nat) :
  0 < H -> 0 < W -> (training = true -> B * H * W <> 1) -> (dr <= 1)%Q ->
  signature_size training (spec_dense_layer C g bn dr) [B; C; H; W] =
  Some [B; C + g; H; W].
Proof.
  intros HH HW Ht Hdr. unfold spec_dense_layer.
  rewrite signature_size_Container.
  cbn [signatures_size signature_size].
  rewrite batch_norm_size_ok by assumption.
  cbn [conv2d_size fst snd]. rewrite Nat.eqb_refl.
  rewrite !conv_out_pointwise by assumption.
  rewrite batch_norm_size_ok by assumption.
  cbn [conv2d_size fst snd]. rewrite Nat.eqb_refl.
  rewrite !conv_out_same_padding by assumption. cbv zeta.
  rewrite (Qlt_bool_false_of_le dr 1 Hdr), orb_false_r.
  destruct (Qlt_bool 0 dr) eqn:E.
  - rewrite (Qlt_bool_asym _ _ E). cbn [andb]. apply cat_size_channels.
  - cbn [andb]. apply cat_size_channels.
Qed.

(** What [_DenseLayer.__init__] registers, in order. *)
Lemma _DenseLayer_children (C g bn : nat) (dr : Q) (r0 : rng) :
  exists w1 w2 w3 w4,
    fst (_DenseLayer C g bn dr r0) =
    Container (c_DenseLayer dr)
      [ ("norm.1", BatchNorm2dM C w1 (fun _ => s_zero) (fun _ => s_zero)
                                (fun _ => s_one));
        ("swish.1", Swish);
        ("conv.1", Conv2dM C (bn * g) (1, 1) (1, 1) (0, 0) w2 None);
        ("norm.2", BatchNorm2dM (bn * g) w3 (fun _ => s_zero) (fun _ => s_zero)
                                (fun _ => s_one));
        ("swish.2", Swish);
        ("conv.2", Conv2dM (bn * g) g (3, 3) (1, 1) (1, 1) w4 None) ].
Proof. do 4 eexists. reflexivity. Qed.

Lemma _DenseLayer_forward_size (training : bool) (C g bn : nat) (dr : Q) (r0 : rng)
    (B H W : nat) :
  0 < H -> 0 < W -> (training = true -> B * H * W <> 1) -> (dr <= 1)%Q ->
  forward_size training (fst (_DenseLayer C g bn dr r0)) [B; C; H; W] =
  Some [B; C + g; H; W].
Proof.
  intros HH HW Ht Hdr. rewrite forward_size_signature.
  change (signature (fst (_DenseLayer C g bn dr r0)))
    with (spec_dense_layer C g bn dr).
  now apply spec_dense_layer_size.
Qed.

(** What a dense layer computes before the concatenation: the six
    registered operations composed in order, then [F.dropout] when the
    dropout probability is positive. *)
Lemma _DenseLayer_forward_value (C g bn : nat) (dr : Q) (r0 : rng) :
  exists w_norm1 w_conv1 w_norm2 w_conv2,
    forall training B H W (x : tensor) (r : rng),
      size x = [B; C; H; W] ->
      0 < H -> 0 < W ->
      (training = true -> B * H * W <> 1) ->
      (dr <= 1)%Q ->
      let zeros n := mkTensor [n] (fun _ : nat => s_zero) in
      let ones n := mkTensor [n] (fun _ : nat => s_one) in
      let norm1 :=
        mkTensor [B; C; H; W]
          (batch_norm_data x (zeros C) (ones C) (mkTensor [C] w_norm1) (zeros C)
                           training) in
      let conv1 :=
        mkTensor [B; bn * g; H; W]
          (conv2d_data (Swish_forward norm1) (mkTensor [bn * g; C; 1; 1] w_conv1)
                       None (1, 1) (0, 0)) in
      let norm2 :=
        mkTensor [B; bn * g; H; W]
          (batch_norm_data conv1 (zeros (bn * g)) (ones (bn * g))
                           (mkTensor [bn * g] w_norm2) (zeros (bn * g)) training) in
      let conv2 :=
        mkTensor [B; g; H; W]
          (conv2d_data (Swish_forward norm2) (mkTensor [g; bn * g; 3; 3] w_conv2)
                       None (1, 1) (1, 1)) in
      let new_features :=
        if Qlt_bool 0 dr && training
        then mkTensor [B; g; H; W] (fst (dropout_data conv2 dr r))
        else conv2 in
      fst (fst (forward training (fst (_DenseLayer C g bn dr r0)) x r)) =
      torch_cat x new_features 1.
Proof.
  destruct (_DenseLayer_children C g bn dr r0) as (w1 & w2 & w3 & w4 & E).
  exists w1, w2, w3, w4. intros training B H W x r Hx HH HW Ht Hdr. rewrite E.
  rewrite forward_Container.
  cbn [Sequential_forward forward].
  rewrite Hx, batch_norm_size_ok by assumption.
  cbn [Swish_forward torch_mul F_sigmoid size conv2d_size fst snd].
  rewrite Nat.eqb_refl, !conv_out_pointwise by assumption.
  cbn [size]. rewrite batch_norm_size_ok by assumption.
  cbn [Swish_forward torch_mul F_sigmoid size conv2d_size fst snd].
  rewrite Nat.eqb_refl, !conv_out_same_padding by assumption.
  cbn [option_map conv_weight_size fst snd].
  destruct (Qlt_bool 0 dr) eqn:Epos; cbn [andb]; [|reflexivity].
  unfold F_dropout.
  rewrite (Qlt_bool_false_of_le dr 1 Hdr), (Qlt_bool_asym _ _ Epos).
  cbn [orb]. destruct training; reflexivity.
Qed.

(** The same on the registered children themselves, whatever their
    weights. *)
Lemma DenseLayer_children_forward (C g bn : nat) (dr : Q)
    (w_norm1 w_conv1 w_norm2 w_conv2 : nat -> scalar)
    training B H W (x : tensor) (r : rng) :
  size x = [B; C; H; W] ->
  0 < H -> 0 < W ->
  (training = true -> B * H * W <> 1) ->
  (dr <= 1)%Q ->
  let zeros n := mkTensor [n] (fun _ : nat => s_zero) in
  let ones n := mkTensor [n] (fun _ : nat => s_one) in
  let norm1 :=
    mkTensor [B; C; H; W]
      (batch_norm_data x (zeros C) (ones C) (mkTensor [C] w_norm1) (zeros C)
                       training) in
  let conv1 :=
    mkTensor [B; bn * g; H; W]
      (conv2d_data (Swish_forward norm1) (mkTensor [bn * g; C; 1; 1] w_conv1)
                   None (1, 1) (0, 0)) in
  let norm2 :=
    mkTensor [B; bn * g; H; W]
      (batch_norm_data conv1 (zeros (bn * g)) (ones (bn * g))
                       (mkTensor [bn * g] w_norm2) (zeros (bn * g)) training) in
  let conv2 :=
    mkTensor [B; g; H; W]
      (conv2d_data (Swish_forward norm2) (mkTensor [g; bn * g; 3; 3] w_conv2)
                   None (1, 1) (1, 1)) in
  let new_features :=
    if Qlt_bool 0 dr && training
    then mkTensor [B; g; H; W] (fst (dropout_data conv2 dr r))
    else conv2 in
  fst (fst (forward training
              (Container (c_DenseLayer dr)
                 [ ("norm.1", BatchNorm2dM C w_norm1 (fun _ => s_zero)
                                           (fun _ => s_zero) (fun _ => s_one));
                   ("swish.1", Swish);
                   ("conv.1", Conv2dM C (bn * g) (1, 1) (1, 1) (0, 0) w_conv1 None);
                   ("norm.2", BatchNorm2dM (bn * g) w_norm2 (fun _ => s_zero)
                                           (fun _ => s_zero) (fun _ => s_one));
                   ("swish.2", Swish);
                   ("conv.2", Conv2dM (bn * g) g (3, 3) (1, 1) (1, 1) w_conv2 None) ])
              x r)) =
  torch_cat x new_features 1.
Proof.
  intros Hx HH HW Ht Hdr.
  rewrite forward_Container.
  cbn [Sequential_forward forward].
  rewrite Hx, batch_norm_size_ok by assumption.
  cbn [Swish_forward torch_mul F_sigmoid size conv2d_size fst snd].
  rewrite Nat.eqb_refl, !conv_out_pointwise by assumption.
  cbn [size]. rewrite batch_norm_size_ok by assumption.
  cbn [Swish_forward torch_mul F_sigmoid size conv2d_size fst snd].
  rewrite Nat.eqb_refl, !conv_out_same_padding by assumption.
  cbn [option_map conv_weight_size fst snd].
  destruct (Qlt_bool 0 dr) eqn:Epos; cbn [andb]; [|reflexivity].
  unfold F_dropout.
  rewrite (Qlt_bool_false_of_le dr 1 Hdr), (Qlt_bool_asym _ _ Epos).
  cbn [orb]. destruct training; reflexivity.
Qed.

(** C1. [_DenseLayer.__init__] registers normalisation, activation, 1x1
    convolution, normalisation, activation and 3x3 convolution, with the
    weights it has drawn.  Run on a 4-D input with [C] channels (a
    non-empty batch, positive channel counts, growth rate, bottleneck
    factor, height and width; in training mode more than one value per
    channel; dropout probability at most 1), the layer returns
    [torch.cat([x, new_features], 1)], where [new_features] is what these
    six operations compute from [x] with those weights, passed through
    [F.dropout] when the dropout probability is positive: the result has
    [C + growth_rate] channels, its first [C] channels are [x] entry for
    entry and the following [growth_rate] channels are [new_features]. *)
Theorem DenseLayer_forward_concat :
  forall (C growth_rate bn_size : nat) (drop_rate : Q) (r0 : rng),
  exists w_norm1 w_conv1 w_norm2 w_conv2,
    fst (_DenseLayer C growth_rate bn_size drop_rate r0) =
    Container (c_DenseLayer drop_rate)
      [ ("norm.1", BatchNorm2dM C w_norm1 (fun _ => s_zero) (fun _ => s_zero)
                                (fun _ => s_one));
        ("swish.1", Swish);
        ("conv.1", Conv2dM C (bn_size * growth_rate) (1, 1) (1, 1) (0, 0)
                           w_conv1 None);
        ("norm.2", BatchNorm2dM (bn_size * growth_rate) w_norm2 (fun _ => s_zero)
                                (fun _ => s_zero) (fun _ => s_one));
        ("swish.2", Swish);
        ("conv.2", Conv2dM (bn_size * growth_rate) growth_rate (3, 3) (1, 1) (1, 1)
                           w_conv2 None) ] /\
    forall (training : bool) (B H W : nat) (x : tensor) (r : rng),
      size x = [B; C; H; W] ->
      0 < B -> 0 < C -> 0 < H -> 0 < W ->
      0 < growth_rate -> 0 < bn_size ->
      (training = true -> B * H * W <> 1) ->
      (drop_rate <= 1)%Q ->
      let zeros n := mkTensor [n] (fun _ : nat => s_zero) in
      let ones n := mkTensor [n] (fun _ : nat => s_one) in
      let norm1 :=
        mkTensor [B; C; H; W]
          (batch_norm_data x (zeros C) (ones C) (mkTensor [C] w_norm1) (zeros C)
                           training) in
      let conv1 :=
        mkTensor [B; bn_size * growth_rate; H; W]
          (conv2d_data (Swish_forward norm1)
                       (mkTensor [bn_size * growth_rate; C; 1; 1] w_conv1)
                       None (1, 1) (0, 0)) in
      let norm2 :=
        mkTensor [B; bn_size * growth_rate; H; W]
          (batch_norm_data conv1 (zeros (bn_size * growth_rate))
                           (ones (bn_size * growth_rate))
                           (mkTensor [bn_size * growth_rate] w_norm2)
                           (zeros (bn_size * growth_rate)) training) in
      let conv2 :=
        mkTensor [B; growth_rate; H; W]
          (conv2d_data (Swish_forward norm2)
                       (mkTensor [growth_rate; bn_size * growth_rate; 3; 3] w_conv2)
                       None (1, 1) (1, 1)) in
      let new_features :=
        if Qlt_bool 0 drop_rate && training
        then mkTensor [B; growth_rate; H; W] (fst (dropout_data conv2 drop_rate r))
        else conv2 in
      exists out,
        fst (fst (forward training
                    (fst (_DenseLayer C growth_rate bn_size drop_rate r0)) x r))
          = Some out /\
        torch_cat x new_features 1 = Some out /\
        size new_features = [B; growth_rate; H; W] /\
        size out = [B; C + growth_rate; H; W] /\
        (forall n c i j, n < B -> c < C -> i < H -> j < W ->
           get out [n; c; i; j] = get x [n; c; i; j]) /\
        (forall n c i j, n < B -> c < growth_rate -> i < H -> j < W ->
           get out [n; C + c; i; j] = get new_features [n; c; i; j]).
Proof.
  intros C g bn dr r0.
  destruct (_DenseLayer_children C g bn dr r0) as (w1 & w2 & w3 & w4 & E).
  exists w1, w2, w3, w4. split; [exact E|].
  intros training B H W x r Hx _ _ HH HW _ _ Ht Hdr.
  pose proof (DenseLayer_children_forward C g bn dr w1 w2 w3 w4 training B H W
                x r Hx HH HW Ht Hdr) as Hval.
  cbv zeta in Hval |- *. rewrite E.
  match type of Hval with
  | _ = torch_cat x ?nf 1 => set (new_features := nf) in *
  end.
  assert (Hnf : size new_features = [B; g; H; W]).
  { subst new_features. destruct (Qlt_bool 0 dr && training); reflexivity. }
  destruct (torch_cat_channels x new_features B C g H W Hx Hnf)
    as (out & Hcat & Hout & Hleft & Hright).
  exists out. rewrite Hval. auto 10.
Qed.

(* ------------------------------------------------------------------ *)
(** ** Registration of generated names *)

Lemma str_inj (a b : nat) : str a = str b -> a = b.
Proof.
  unfold str. intros H.
  apply (f_equal NilEmpty.uint_of_string) in H.
  rewrite !NilEmpty.usu in H. injection H as H.
  apply (f_equal Nat.of_uint) in H.
  now rewrite !DecimalNat.Unsigned.of_to in H.
Qed.

(** Registering a module under a name not yet in use appends it. *)
Lemma add_module_fresh (ms : list (string * Module)) name m :
  ~ In name (map fst ms) -> add_module ms name m = ms ++ [(name, m)].
Proof.
  induction ms as [|[n c] rest IH]; intros Hfresh; [reflexivity|].
  simpl in *. destruct (String.eqb_spec n name) as [E|_].
  - exfalso. apply Hfresh. now left.
  - f_equal. apply IH. tauto.
Qed.

(* ------------------------------------------------------------------ *)
(** ** The dense block *)

Lemma _DenseBlock_loop_cons nif bn g dr i range (self : list (string * Module)) r :
  _DenseBlock_loop nif bn g dr (i :: range) self r =
  _DenseBlock_loop nif bn g dr range
    (add_module self ("denselayer" ++ str (i + 1))%string
                (fst (_DenseLayer (nif + i * g) g bn dr r)))
    (snd (_DenseLayer (nif + i * g) g bn dr r)).
Proof. reflexivity. Qed.

Lemma _DenseBlock_loop_spec nif bn g dr :
  forall k start (self : list (string * Module)) r,
    (forall name, In name (map fst self) ->
       exists j, j < start /\ name = ("denselayer" ++ str (j + 1))%string) ->
    exists layers,
      fst (_DenseBlock_loop nif bn g dr (seq start k) self r) = self ++ layers /\
      length layers = k /\
      forall i, i < k ->
        exists r_i,
          nth_error layers i =
          Some (("denselayer" ++ str (start + i + 1))%string,
                fst (_DenseLayer (nif + (start + i) * g) g bn dr r_i)).
Proof.
  induction k as [|k IH]; intros start self r Hnames.
  - exists []. cbn [seq _DenseBlock_loop ret fst]. rewrite app_nil_r.
    repeat split. intros i Hi. lia.
  - cbn [seq]. rewrite _DenseBlock_loop_cons.
    set (layer := fst (_DenseLayer (nif + start * g) g bn dr r)).
    set (r1 := snd (_DenseLayer (nif + start * g) g bn dr r)).
    rewrite add_module_fresh.
    2:{ intros Hin. destruct (Hnames _ Hin) as (j & Hj & E).
        cbn in E. injection E as E. apply str_inj in E. lia. }
    destruct (IH (S start)
                 (self ++ [(("denselayer" ++ str (start + 1))%string, layer)]) r1)
      as (layers & Hfst & Hlen & Hnth).
    { intros name Hin. rewrite map_app in Hin. apply in_app_or in Hin.
      destruct Hin as [Hin|[E|[]]].
      - destruct (Hnames _ Hin) as (j & Hj & E). exists j. split; [lia|exact E].
      - exists start. split; [lia|]. now rewrite <- E. }
    exists ((("denselayer" ++ str (start + 1))%string, layer) :: layers).
    split; [|split].
    + rewrite Hfst, <- app_assoc. reflexivity.
    + cbn [length]. now rewrite Hlen.
    + intros [|i] Hi.
      * exists r. cbn [nth_error]. now rewrite Nat.add_0_r.
      * destruct (Hnth i ltac:(lia)) as (r_i & E). exists r_i.
        cbn [nth_error]. rewrite E.
        now replace (S start + i) with (start + S i) by lia.
Qed.

(** A chain of modules whose sizes line up. *)
Lemma Sequential_size_chain training (sizes : nat -> list nat) :
  forall (layers : list (string * Module)) k,
    (forall i, i < length layers ->
       exists n l, nth_error layers i = Some (n, l) /\
                   forward_size training l (sizes (k + i)) = Some (sizes (k + i + 1))) ->
    Sequential_size training layers (sizes k) = Some (sizes (k + length layers)).
Proof.
  induction layers as [|[n l] rest IH]; intros k H.
  - cbn. now rewrite Nat.add_0_r.
  - cbn [Sequential_size length].
    destruct (H 0 ltac:(cbn; lia)) as (n0 & l0 & E0 & Hsz).
    cbn in E0. injection E0 as _ <-.
    rewrite Nat.add_0_r in Hsz. rewrite Hsz.
    replace (k + S (length rest)) with (k + 1 + length rest) by lia.
    apply IH. intros i Hi.
    destruct (H (S i) ltac:(cbn; lia)) as (n' & l' & E' & Hsz').
    exists n', l'. split; [exact E'|].
    now replace (k + 1 + i) with (k + S i) by lia.
Qed.

Lemma forward_returns training (m : Module) (x : tensor) (r : rng) (sz : list nat) :
  forward_size training m (size x) = Some sz ->
  exists out, fst (fst (forward training m x r)) = Some out /\ size out = sz.
Proof.
  intros H. pose proof (forward_size_spec training m x r) as E.
  rewrite H in E.
  destruct (fst (fst (forward training m x r))) as [out|]; [|discriminate].
  exists out. split; [reflexivity|]. now injection E.
Qed.

(** C2. [_DenseBlock.__init__] registers exactly [num_layers] dense layers;
    layer [i] (from 0) is [_DenseLayer(num_input_features + i * growth_rate,
    ...)] under the name [denselayer{i+1}]; the block runs them as a chain,
    each on the output of the one before; and on an input with
    [num_input_features] channels (a non-empty batch and positive channel
    count, growth rate and bottleneck factor) the block returns
    [num_input_features + num_layers * growth_rate] channels. *)
Theorem DenseBlock_chain :
  forall (num_layers num_input_features bn_size growth_rate : nat) (drop_rate : Q)
         (r0 : rng),
  exists layers,
    fst (_DenseBlock num_layers num_input_features bn_size growth_rate drop_rate r0)
      = Container c_DenseBlock layers /\
    length layers = num_layers /\
    (forall i, i < num_layers ->
       exists r_i,
         nth_error layers i =
         Some (("denselayer" ++ str (i + 1))%string,
               fst (_DenseLayer (num_input_features + i * growth_rate)
                                growth_rate bn_size drop_rate r_i))) /\
    (forall training x r,
       forward training (Container c_DenseBlock layers) x r =
       let '(out, layers', r') := Sequential_forward training layers x r in
       (out, Container c_DenseBlock layers', r')) /\
    (forall training B H W (x : tensor) r,
       size x = [B; num_input_features; H; W] ->
       0 < B -> 0 < num_input_features -> 0 < H -> 0 < W ->
       0 < growth_rate -> 0 < bn_size ->
       (training = true -> B * H * W <> 1) ->
       (drop_rate <= 1)%Q ->
       exists out,
         fst (fst (forward training (Container c_DenseBlock layers) x r)) = Some out /\
         size out = [B; num_input_features + num_layers * growth_rate; H; W]).
Proof.
  intros N nif bn g dr r0.
  destruct (_DenseBlock_loop_spec nif bn g dr N 0 [] r0) as (layers & Hfst & Hlen & Hnth).
  { intros name []. }
  exists layers. split; [|split; [|split; [|split]]].
  - unfold _DenseBlock, bind, ret. cbn [fst]. now rewrite Hfst.
  - exact Hlen.
  - intros i Hi. exact (Hnth i Hi).
  - intros training x r. rewrite forward_Container.
    destruct (Sequential_forward training layers x r) as [[o ms'] r1].
    destruct o; reflexivity.
  - intros training B H W x r Hx _ _ HH HW _ _ Ht Hdr.
    apply forward_returns. rewrite Hx, forward_size_Container. cbv zeta.
    pose proof (Sequential_size_chain training
                  (fun i => [B; nif + i * g; H; W]) layers 0) as Hchain.
    cbn beta in Hchain. rewrite Nat.mul_0_l, Nat.add_0_r, Hlen in Hchain.
    cbn [Nat.add] in Hchain. rewrite Hchain; [reflexivity|].
    intros i Hi.
    destruct (Hnth i Hi) as (r_i & E). cbn [Nat.add] in E.
    eexists _, _. split; [exact E|].
    rewrite (_DenseLayer_forward_size training (nif + i * g) g bn dr r_i B H W
               HH HW Ht Hdr).
    do 2 f_equal. f_equal. lia.
Qed.

(* ------------------------------------------------------------------ *)
(** ** Signatures of the constructed modules *)

Lemma children_signature_app (a b : list (string * Module)) :
  children_signature (a ++ b) = children_signature a ++ children_signature b.
Proof.
  induction a as [|[n c] a IH]; [reflexivity|].
  cbn [app children_signature]. now rewrite IH.
Qed.

Lemma children_signature_names (ms : list (string * Module)) :
  map fst (children_signature ms) = map fst ms.
Proof.
  induction ms as [|[n c] ms IH]; [reflexivity|].
  cbn [children_signature map fst]. now rewrite IH.
Qed.

Lemma signature__DenseLayer C g bn dr (r : rng) :
  signature (fst (_DenseLayer C g bn dr r)) = spec_dense_layer C g bn dr.
Proof. reflexivity. Qed.

Lemma signature__Transition a b (r : rng) :
  signature (fst (_Transition a b r)) = spec_transition a b.
Proof. reflexivity. Qed.

Lemma dense_layers_signature nif bn g dr :
  forall (layers : list (string * Module)) start,
    (forall i, i < length layers ->
       exists r_i : rng,
         nth_error layers i =
         Some (("denselayer" ++ str (start + i + 1))%string,
               fst (_DenseLayer (nif + (start + i) * g) g bn dr r_i))) ->
    children_signature layers =
    map (fun i => (("denselayer" ++ str (i + 1))%string,
                   spec_dense_layer (nif + i * g) g bn dr))
        (seq start (length layers)).
Proof.
  induction layers as [|[n l] rest IH]; intros start H; [reflexivity|].
  cbn [length seq map children_signature].
  destruct (H 0 ltac:(cbn; lia)) as (r0 & E0).
  cbn [nth_error] in E0. rewrite Nat.add_0_r in E0.
  remember (fst (_DenseLayer (nif + start * g) g bn dr r0)) as layer eqn:El.
  injection E0 as -> ->. rewrite El, signature__DenseLayer. f_equal.
  apply IH. intros i Hi.
  destruct (H (S i) ltac:(cbn; lia)) as (r_i & E). exists r_i.
  cbn [nth_error] in E. rewrite E.
  now replace (S start + i) with (start + S i) by lia.
Qed.

Lemma signature__DenseBlock N nif bn g dr (r : rng) :
  signature (fst (_DenseBlock N nif bn g dr r)) = spec_dense_block N nif bn g dr.
Proof.
  destruct (_DenseBlock_loop_spec nif bn g dr N 0 [] r) as (layers & Hfst & Hlen & Hnth).
  { intros name []. }
  unfold _DenseBlock, bind, ret. cbn [fst]. rewrite Hfst. cbn [app].
  rewrite signature_Container. unfold spec_dense_block. f_equal.
  rewrite <- Hlen. apply dense_layers_signature.
  intros i Hi. rewrite Hlen in Hi. exact (Hnth i Hi).
Qed.

(** The initialisation pass writes storages only. *)
Lemma init_modules_signature (m : Module) :
  forall r : rng, signature (fst (init_modules m r)) = signature m.
Proof.
  induction m as [dim| |ic oc k s p w b|n w b rm rv|k s p|k s p|i o w b|cls ms IH]
    using Module_induction; intros r; try reflexivity.
  cbn [init_modules]. unfold bind, ret. cbn [fst].
  rewrite !signature_Container. f_equal.
  revert r. induction IH as [|[n c] rest Hc _ IHrest]; intros r; [reflexivity|].
  unfold bind, ret. cbn [fst snd children_signature].
  cbn [snd] in Hc. rewrite Hc. f_equal. apply IHrest.
Qed.

(* ------------------------------------------------------------------ *)
(** ** The assembly loop *)

Lemma DenseNet_loop_cons g bn dr n i L rest (hidden : list (string * Module)) nf
    (r : rng) :
  DenseNet_loop g bn dr n ((i, L) :: rest) hidden nf r =
  let br := _DenseBlock L nf bn g dr r in
  let hidden1 := add_module hidden ("denseblock" ++ str (i + 1))%string (fst br) in
  let nf1 := nf + L * g in
  if negb (i =? n - 1) then
    let tr := _Transition nf1 (nf1 / 2) (snd br) in
    DenseNet_loop g bn dr n rest
      (add_module hidden1 ("transition" ++ str (i + 1))%string (fst tr))
      (nf1 / 2) (snd tr)
  else DenseNet_loop g bn dr n rest hidden1 nf1 (snd br).
Proof.
  cbn [DenseNet_loop]. unfold bind at 1. cbv zeta.
  destruct (negb (i =? n - 1)); reflexivity.
Qed.

Lemma registered_mono i j name : i <= j -> registered i name -> registered j name.
Proof.
  intros Hij [H|(k & Hk & H)]; [now left|].
  right. exists k. split; [lia|exact H].
Qed.

Lemma fresh_denseblock i (hidden : list (string * Module)) :
  (forall name, In name (map fst hidden) -> registered i name) ->
  ~ In ("denseblock" ++ str (i + 1))%string (map fst hidden).
Proof.
  intros Hinv Hin. destruct (Hinv _ Hin) as [H|(j & Hj & [H|H])].
  - cbn in H. intuition discriminate.
  - cbn in H. injection H as H. apply str_inj in H. lia.
  - cbn in H. discriminate.
Qed.

Lemma fresh_transition i (hidden : list (string * Module)) blk :
  (forall name, In name (map fst hidden) -> registered i name) ->
  ~ In ("transition" ++ str (i + 1))%string
       (map fst (hidden ++ [(("denseblock" ++ str (i + 1))%string, blk)])).
Proof.
  intros Hinv Hin. rewrite map_app in Hin. apply in_app_or in Hin.
  destruct Hin as [Hin|[H|[]]].
  - destruct (Hinv _ Hin) as [H|(j & Hj & [H|H])].
    + cbn in H. intuition discriminate.
    + cbn in H. discriminate.
    + cbn in H. injection H as H. apply str_inj in H. lia.
  - cbn in H. discriminate.
Qed.

Lemma DenseNet_loop_spec g bn dr n :
  forall cfg i (hidden : list (string * Module)) nf (r : rng),
    n = i + length cfg ->
    (forall name, In name (map fst hidden) -> registered i name) ->
    let res := DenseNet_loop g bn dr n (combine (seq i (length cfg)) cfg)
                             hidden nf r in
    children_signature (fst (fst res)) =
      children_signature hidden ++ fst (spec_stages g bn dr cfg (i + 1) nf) /\
    snd (fst res) = snd (spec_stages g bn dr cfg (i + 1) nf) /\
    (forall name, In name (map fst (fst (fst res))) -> registered n name).
Proof.
  induction cfg as [|L cfg IH]; intros i hidden nf r Hn Hinv res.
  - subst res. cbn. rewrite app_nil_r. repeat split.
    cbn in Hn. rewrite Nat.add_0_r in Hn. now subst n.
  - subst res. cbn [length seq combine]. rewrite DenseNet_loop_cons. cbv zeta.
    set (br := _DenseBlock L nf bn g dr r).
    rewrite (add_module_fresh hidden _ (fst br) (fresh_denseblock i hidden Hinv)).
    destruct cfg as [|L' cfg'].
    + (* the last block *)
      cbn [length] in Hn.
      replace (i =? n - 1) with true by (symmetry; apply Nat.eqb_eq; lia).
      cbn [negb combine seq length DenseNet_loop ret fst snd spec_stages].
      rewrite children_signature_app. cbn [children_signature].
      subst br. rewrite signature__DenseBlock.
      repeat split.
      intros name Hin. rewrite map_app in Hin. apply in_app_or in Hin.
      destruct Hin as [Hin|[E|[]]].
      * apply (registered_mono i); [lia|auto].
      * right. exists i. split; [lia|]. left. now rewrite <- E.
    + (* a block followed by a transition *)
      cbn [length] in Hn.
      replace (i =? n - 1) with false by (symmetry; apply Nat.eqb_neq; lia).
      cbn [negb].
      set (nf1 := nf + L * g).
      set (tr := _Transition nf1 (nf1 / 2) (snd br)).
      rewrite (add_module_fresh _ _ (fst tr) (fresh_transition i hidden (fst br) Hinv)).
      set (hidden2 := (hidden ++ _) ++ _).
      destruct (IH (S i) hidden2 (nf1 / 2) (snd tr)) as (Hsig & Hnf & Hreg).
      { cbn [length]. lia. }
      { intros name Hin. subst hidden2. rewrite !map_app in Hin.
        apply in_app_or in Hin. destruct Hin as [Hin|[E|[]]].
        - apply in_app_or in Hin. destruct Hin as [Hin|[E|[]]].
          + apply (registered_mono i); [lia|auto].
          + right. exists i. split; [lia|]. left. now rewrite <- E.
        - right. exists i. split; [lia|]. right. now rewrite <- E. }
      split; [|split].
      * rewrite Hsig. subst hidden2. rewrite !children_signature_app.
        cbn [children_signature]. subst br tr.
        rewrite signature__DenseBlock, signature__Transition.
        rewrite <- !app_assoc. cbn [app].
        change (spec_stages g bn dr (L :: L' :: cfg') (i + 1) nf) with
          (let more := spec_stages g bn dr (L' :: cfg') (S (i + 1)) (nf1 / 2) in
           ((("denseblock" ++ str (i + 1))%string, spec_dense_block L nf bn g dr)
            :: (("transition" ++ str (i + 1))%string, spec_transition nf1 (nf1 / 2))
            :: fst more, snd more)).
        cbv zeta. cbn [fst].
        now replace (S i + 1) with (S (i + 1)) by lia.
      * rewrite Hnf.
        change (spec_stages g bn dr (L :: L' :: cfg') (i + 1) nf) with
          (let more := spec_stages g bn dr (L' :: cfg') (S (i + 1)) (nf1 / 2) in
           ((("denseblock" ++ str (i + 1))%string, spec_dense_block L nf bn g dr)
            :: (("transition" ++ str (i + 1))%string, spec_transition nf1 (nf1 / 2))
            :: fst more, snd more)).
        cbv zeta. cbn [snd].
        now replace (S i + 1) with (S (i + 1)) by lia.
      * exact Hreg.
Qed.

Lemma head_name_not_registered n name : In name head_names -> ~ registered n name.
Proof.
  intros Hin [H|(j & _ & [H|H])]; cbn in Hin;
    repeat (destruct Hin as [<-|Hin]; [cbn in H; intuition discriminate|]);
    destruct Hin.
Qed.

Lemma add_module_head n (hidden : list (string * Module)) m1 m2 m3 m4 m5 :
  (forall name, In name (map fst hidden) -> registered n name) ->
  add_module
    (add_module
       (add_module
          (add_module (add_module hidden "norm.f" m1) "swish.f" m2) "pool.f" m3)
       "view.f" m4) "class.f" m5 =
  hidden ++ [("norm.f", m1); ("swish.f", m2); ("pool.f", m3); ("view.f", m4);
             ("class.f", m5)].
Proof.
  intros Hinv.
  assert (Hfresh : forall name, In name head_names -> ~ In name (map fst hidden)).
  { intros name Hh Hin. exact (head_name_not_registered n name Hh (Hinv _ Hin)). }
  rewrite (add_module_fresh hidden "norm.f").
  2:{ apply Hfresh. cbn. tauto. }
  rewrite (add_module_fresh _ "swish.f").
  2:{ rewrite map_app. intros Hin. apply in_app_or in Hin.
      destruct Hin as [Hin|Hin]; [revert Hin; apply Hfresh; cbn; tauto|].
      cbn in Hin. intuition discriminate. }
  rewrite (add_module_fresh _ "pool.f").
  2:{ rewrite !map_app. intros Hin. repeat (apply in_app_or in Hin; destruct Hin as [Hin|Hin]);
      [revert Hin; apply Hfresh; cbn; tauto| |]; cbn in Hin; intuition discriminate. }
  rewrite (add_module_fresh _ "view.f").
  2:{ rewrite !map_app. intros Hin. repeat (apply in_app_or in Hin; destruct Hin as [Hin|Hin]);
      [revert Hin; apply Hfresh; cbn; tauto| | |]; cbn in Hin; intuition discriminate. }
  rewrite (add_module_fresh _ "class.f").
  2:{ rewrite !map_app. intros Hin. repeat (apply in_app_or in Hin; destruct Hin as [Hin|Hin]);
      [revert Hin; apply Hfresh; cbn; tauto| | | |]; cbn in Hin; intuition discriminate. }
  rewrite <- !app_assoc. reflexivity.
Qed.

(** The assembled [self.hidden] is stem, stages, head, as the specification
    lists them. *)
Lemma DenseNet_assemble_signature y g cfg nif bn dr (r : rng) :
  signature (fst (DenseNet_assemble y g cfg nif bn dr r)) =
  SContainer cSequential
    (spec_stem nif ++ fst (spec_stages g bn dr cfg 1 nif) ++
     spec_head (snd (spec_stages g bn dr cfg 1 nif)) (195 * 4) y).
Proof.
  unfold DenseNet_assemble. unfold bind at 1 2. cbv zeta.
  set (c := Conv2d 2 nif 3 1 1 r).
  set (b := BatchNorm2d nif (snd c)).
  set (stem := [("view.i", _); ("conv.i", fst c); _; _; _]).
  unfold bind at 1. cbv zeta.
  set (res := DenseNet_loop g bn dr (length cfg) _ stem nif (snd b)).
  destruct (DenseNet_loop_spec g bn dr (length cfg) cfg 0 stem nif (snd b))
    as (Hsig & Hnf & Hreg).
  { reflexivity. }
  { intros name Hin. left. exact Hin. }
  fold res in Hsig, Hnf, Hreg.
  unfold bind, ret. cbv zeta. cbn [fst].
  rewrite (add_module_head (length cfg)) by exact Hreg.
  rewrite signature_Container, children_signature_app, Hsig, Hnf.
  rewrite <- app_assoc. reflexivity.
Qed.

Lemma DenseNet_signature x y g cfg nif bn dr e (r : rng) :
  signature (hidden (fst (DenseNet x y g cfg nif bn dr e r))) =
  SContainer cSequential
    (spec_stem nif ++ fst (spec_stages g bn dr cfg 1 nif) ++
     spec_head (snd (spec_stages g bn dr cfg 1 nif)) (195 * 4) y).
Proof.
  unfold DenseNet, bind, ret. cbn [fst hidden].
  rewrite init_modules_signature. apply DenseNet_assemble_signature.
Qed.

(* ------------------------------------------------------------------ *)
(** ** Transitions and their place in the network *)

Lemma pool_out_halving (n : nat) : 0 < n -> pool_out n 3 2 1 = Some ((n - 1) / 2 + 1).
Proof.
  intros Hn. unfold pool_out, conv_out.
  change (3 =? 0) with false. change (3 <? 2 * 1) with false.
  change (2 =? 0) with false. cbn [orb].
  destruct (Nat.ltb_spec (n + 2 * 1) 3) as [C|_]; [lia|].
  now replace (n + 2 * 1 - 3) with (n - 1) by lia.
Qed.

Lemma _Transition_children a b (r0 : rng) :
  exists w1 w2,
    fst (_Transition a b r0) =
    Container c_Transition
      [ ("norm", BatchNorm2dM a w1 (fun _ => s_zero) (fun _ => s_zero)
                              (fun _ => s_one));
        ("swish", Swish);
        ("conv", Conv2dM a b (1, 1) (1, 1) (0, 0) w2 None);
        ("pool", AvgPool2d (3, 3) (2, 2) (1, 1)) ].
Proof. do 2 eexists. reflexivity. Qed.

Lemma spec_transition_size training a b B H W :
  0 < H -> 0 < W -> (training = true -> B * H * W <> 1) ->
  signature_size training (spec_transition a b) [B; a; H; W] =
  Some [B; b; (H - 1) / 2 + 1; (W - 1) / 2 + 1].
Proof.
  intros HH HW Ht. unfold spec_transition.
  rewrite signature_size_Container. cbv zeta.
  cbn [signatures_size signature_size].
  rewrite batch_norm_size_ok by assumption.
  cbn [conv2d_size fst snd]. rewrite Nat.eqb_refl.
  rewrite !conv_out_pointwise by assumption.
  cbn [pool2d_size fst snd]. rewrite !pool_out_halving by assumption.
  reflexivity.
Qed.

Lemma spec_stages_names g bn dr :
  forall cfg k nf,
    map fst (fst (spec_stages g bn dr cfg k nf)) =
    flat_map (fun j => if j <? k + length cfg - 1
                       then [("denseblock" ++ str j)%string;
                             ("transition" ++ str j)%string]
                       else [("denseblock" ++ str j)%string])
             (seq k (length cfg)).
Proof.
  induction cfg as [|L [|L' cfg'] IH]; intros k nf.
  - reflexivity.
  - cbn [spec_stages fst map length seq flat_map app].
    replace (k <? k + 1 - 1) with false by (symmetry; apply Nat.ltb_ge; lia).
    reflexivity.
  - change (spec_stages g bn dr (L :: L' :: cfg') k nf) with
      (let nf1 := nf + L * g in
       let more := spec_stages g bn dr (L' :: cfg') (S k) (nf1 / 2) in
       ((("denseblock" ++ str k)%string, spec_dense_block L nf bn g dr)
        :: (("transition" ++ str k)%string, spec_transition nf1 (nf1 / 2))
        :: fst more, snd more)).
    cbv zeta. cbn [fst map]. rewrite IH.
    cbn [length seq flat_map].
    replace (k <? k + S (S (length cfg')) - 1) with true
      by (symmetry; apply Nat.ltb_lt; lia).
    cbn [app].
    now replace (S k + S (length cfg') - 1) with (k + S (S (length cfg')) - 1) by lia.
Qed.

(** Every stage is a dense block or a transition that halves the channel
    count it receives. *)
Lemma spec_stages_entries g bn dr :
  forall cfg k nf,
    Forall (fun e =>
              (exists L c, snd e = spec_dense_block L c bn g dr) \/
              (exists c, snd e = spec_transition c (c / 2)))
           (fst (spec_stages g bn dr cfg k nf)).
Proof.
  induction cfg as [|L [|L' cfg'] IH]; intros k nf.
  - constructor.
  - constructor; [|constructor]. left. now exists L, nf.
  - change (spec_stages g bn dr (L :: L' :: cfg') k nf) with
      (let nf1 := nf + L * g in
       let more := spec_stages g bn dr (L' :: cfg') (S k) (nf1 / 2) in
       ((("denseblock" ++ str k)%string, spec_dense_block L nf bn g dr)
        :: (("transition" ++ str k)%string, spec_transition nf1 (nf1 / 2))
        :: fst more, snd more)).
    cbv zeta. cbn [fst].
    constructor; [left; now exists L, nf|].
    constructor; [right; now exists (nf + L * g)|].
    apply IH.
Qed.

Lemma num_features_at_step g :
  forall cfg nf i,
    i < length cfg ->
    num_features_at g cfg nf (S i) =
    (num_features_at g cfg nf i + nth i cfg 0 * g) / 2.
Proof.
  induction cfg as [|L cfg IH]; intros nf i Hi; [cbn [length] in Hi; lia|].
  destruct i as [|i]; [reflexivity|].
  cbn [length] in Hi.
  change (num_features_at g (L :: cfg) nf (S (S i)))
    with (num_features_at g cfg ((nf + L * g) / 2) (S i)).
  change (num_features_at g (L :: cfg) nf (S i))
    with (num_features_at g cfg ((nf + L * g) / 2) i).
  cbn [nth]. apply IH. lia.
Qed.

(** The stages, entry by entry: block [j] is built on the channel count
    the loop has reached, and a transition built on the grown count follows
    it unless the block is the last. *)
Lemma spec_stages_explicit g bn dr :
  forall cfg k nf,
    fst (spec_stages g bn dr cfg k nf) =
    flat_map (fun j =>
                let layers := nth (j - k) cfg 0 in
                let c := num_features_at g cfg nf (j - k) in
                let block := (("denseblock" ++ str j)%string,
                              spec_dense_block layers c bn g dr) in
                if j <? k + length cfg - 1
                then [block;
                      (("transition" ++ str j)%string,
                       spec_transition (c + layers * g) ((c + layers * g) / 2))]
                else [block])
             (seq k (length cfg)).
Proof.
  induction cfg as [|L [|L' cfg'] IH]; intros k nf.
  - reflexivity.
  - cbn [spec_stages fst length seq flat_map app]. cbv zeta.
    rewrite Nat.sub_diag.
    replace (k <? k + 1 - 1) with false by (symmetry; apply Nat.ltb_ge; lia).
    reflexivity.
  - change (spec_stages g bn dr (L :: L' :: cfg') k nf) with
      (let nf1 := nf + L * g in
       let more := spec_stages g bn dr (L' :: cfg') (S k) (nf1 / 2) in
       ((("denseblock" ++ str k)%string, spec_dense_block L nf bn g dr)
        :: (("transition" ++ str k)%string, spec_transition nf1 (nf1 / 2))
        :: fst more, snd more)).
    cbv zeta. cbn [fst]. rewrite IH.
    change (seq k (length (L :: L' :: cfg')))
      with (k :: seq (S k) (length (L' :: cfg'))).
    cbn [flat_map]. rewrite Nat.sub_diag.
    replace (k <? k + length (L :: L' :: cfg') - 1) with true
      by (symmetry; apply Nat.ltb_lt; cbn [length]; lia).
    cbn [nth num_features_at app]. do 2 f_equal.
    rewrite !flat_map_concat_map. f_equal.
    apply map_ext_in. intros j Hj. apply in_seq in Hj.
    replace (j - k) with (S (j - S k)) by lia.
    change (nth (S (j - S k)) (L :: L' :: cfg') 0)
      with (nth (j - S k) (L' :: cfg') 0).
    change (num_features_at g (L :: L' :: cfg') nf (S (j - S k)))
      with (num_features_at g (L' :: cfg') ((nf + L * g) / 2) (j - S k)).
    now replace (k + length (L :: L' :: cfg') - 1)
      with (S k + length (L' :: cfg') - 1) by (cbn [length]; lia).
Qed.

(** What a transition computes: the four framework operations, composed
    in registration order. *)
Lemma _Transition_forward_value a b (r0 : rng) :
  exists w_norm w_conv,
    forall training B H W (x : tensor) (r : rng),
      size x = [B; a; H; W] ->
      0 < H -> 0 < W ->
      (training = true -> B * H * W <> 1) ->
      let normed :=
        mkTensor [B; a; H; W]
          (batch_norm_data x (mkTensor [a] (fun _ => s_zero))
                           (mkTensor [a] (fun _ => s_one))
                           (mkTensor [a] w_norm)
                           (mkTensor [a] (fun _ => s_zero)) training) in
      let activated := Swish_forward normed in
      let compressed :=
        mkTensor [B; b; H; W]
          (conv2d_data activated (mkTensor [b; a; 1; 1] w_conv) None (1, 1) (0, 0)) in
      let pooled :=
        mkTensor [B; b; (H - 1) / 2 + 1; (W - 1) / 2 + 1]
          (avg_pool2d_data compressed (3, 3) (2, 2) (1, 1)) in
      fst (fst (forward training (fst (_Transition a b r0)) x r)) = Some pooled.
Proof.
  destruct (_Transition_children a b r0) as (w1 & w2 & E).
  exists w1, w2. intros training B H W x r Hx HH HW Ht. rewrite E.
  rewrite forward_Container.
  cbn [Sequential_forward forward].
  rewrite Hx, batch_norm_size_ok by assumption.
  cbn [Swish_forward torch_mul F_sigmoid size conv2d_size fst snd].
  rewrite Nat.eqb_refl, !conv_out_pointwise by assumption.
  cbn [size pool2d_size fst snd]. rewrite !pool_out_halving by assumption.
  reflexivity.
Qed.

(** C5. A transition is, in order, normalisation, the activation, a 1x1
    convolution from its input to its output channel count and average
    pooling with window 3, stride 2, padding 1, and its forward pass is the
    composition of the four in that order; on an input with
    [num_input_features] channels it returns [num_output_features]
    channels, whatever the two positive numbers are.  In the assembled
    network the stages between stem and head are, for [k] from 1 to
    [len(block_config)]: [denseblock{k}], a [_DenseBlock] of
    [block_config[k-1]] layers on the channel count [num_features] has
    reached, followed by [transition{k}], a [_Transition] from the grown
    count to its half, exactly when block [k] is not the last. *)
Theorem Transition_structure_and_placement :
  (forall a b (r0 : rng),
     signature (fst (_Transition a b r0)) =
     SContainer c_Transition
       [ ("norm", SBatchNorm2d a);
         ("swish", SSwish);
         ("conv", SConv2d a b (1, 1) (1, 1) (0, 0) false);
         ("pool", SAvgPool2d (3, 3) (2, 2) (1, 1)) ]) /\
  (forall a b (r0 : rng),
   exists w_norm w_conv,
     forall training B H W (x : tensor) (r : rng),
       size x = [B; a; H; W] ->
       0 < B -> 0 < a -> 0 < b -> 0 < H -> 0 < W ->
       (training = true -> B * H * W <> 1) ->
       exists out,
         fst (fst (forward training (fst (_Transition a b r0)) x r)) = Some out /\
         size out = [B; b; (H - 1) / 2 + 1; (W - 1) / 2 + 1] /\
         let normed :=
           mkTensor [B; a; H; W]
             (batch_norm_data x (mkTensor [a] (fun _ => s_zero))
                              (mkTensor [a] (fun _ => s_one))
                              (mkTensor [a] w_norm)
                              (mkTensor [a] (fun _ => s_zero)) training) in
         let activated := Swish_forward normed in
         let compressed :=
           mkTensor [B; b; H; W]
             (conv2d_data activated (mkTensor [b; a; 1; 1] w_conv) None
                          (1, 1) (0, 0)) in
         data out = avg_pool2d_data compressed (3, 3) (2, 2) (1, 1)) /\
  (forall x_dim y_dim growth_rate block_config num_init_features bn_size
          drop_rate eps (r0 : rng),
     let n := length block_config in
     exists stem stages head (num_features : nat -> nat),
       signature (hidden (fst (DenseNet x_dim y_dim growth_rate block_config
                                        num_init_features bn_size drop_rate
                                        eps r0))) =
       SContainer cSequential (stem ++ stages ++ head) /\
       map fst stem = stem_names /\
       map fst head = head_names /\
       num_features 1 = num_init_features /\
       (forall k, 1 <= k < n ->
          num_features (S k) =
          (num_features k + nth (k - 1) block_config 0 * growth_rate) / 2) /\
       forall r1 : rng,
         stages =
         flat_map
           (fun k =>
              let num_layers := nth (k - 1) block_config 0 in
              let block :=
                (("denseblock" ++ str k)%string,
                 signature (fst (_DenseBlock num_layers (num_features k) bn_size
                                             growth_rate drop_rate r1))) in
              let grown := num_features k + num_layers * growth_rate in
              if k <? n
              then [block;
                    (("transition" ++ str k)%string,
                     signature (fst (_Transition grown (grown / 2) r1)))]
              else [block])
           (seq 1 n)).
Proof.
  split; [|split].
  - reflexivity.
  - intros a b r0.
    destruct (_Transition_forward_value a b r0) as (w1 & w2 & Hval).
    exists w1, w2. intros training B H W x r Hx _ _ _ HH HW Ht.
    eexists. split; [exact (Hval training B H W x r Hx HH HW Ht)|].
    split; reflexivity.
  - intros xd yd g cfg nif bn dr e r0 n.
    exists (spec_stem nif), (fst (spec_stages g bn dr cfg 1 nif)),
           (spec_head (snd (spec_stages g bn dr cfg 1 nif)) (195 * 4) yd),
           (fun k => num_features_at g cfg nif (k - 1)).
    split; [apply DenseNet_signature|].
    split; [reflexivity|]. split; [reflexivity|]. split; [reflexivity|]. split.
    + intros k [Hk1 Hkn]. subst n.
      replace (S k - 1) with (S (k - 1)) by lia.
      apply num_features_at_step. lia.
    + intros r1. rewrite spec_stages_explicit. subst n.
      apply flat_map_ext. intros k. cbv zeta.
      rewrite signature__DenseBlock, signature__Transition.
      now replace (1 + length cfg - 1) with (length cfg) by lia.
Qed.

(** C6. The first five children of [self.hidden] are the stem: the reshape
    to [(-1, 2, 129, 21)], a 3x3 convolution with padding 1 from 2 to
    [num_init_features] channels, normalisation, the activation, max pooling
    with window 3, stride (2, 1), padding 1.  The last five are the head:
    normalisation, the activation, average pooling with window 2 and
    stride 1, the reshape to [(-1, 780)] and the linear map from 780
    features to [y_dim] labels.  Between them are the stages. *)
Theorem DenseNet_stem_and_head :
  forall x_dim y_dim growth_rate block_config num_init_features bn_size
         drop_rate eps (r0 : rng),
    let stages := spec_stages growth_rate bn_size drop_rate block_config 1
                              num_init_features in
    signature (hidden (fst (DenseNet x_dim y_dim growth_rate block_config
                                     num_init_features bn_size drop_rate
                                     eps r0))) =
    SContainer cSequential
      ([ ("view.i", SView [-1; 2; 129; 21]%Z);
         ("conv.i", SConv2d 2 num_init_features (3, 3) (1, 1) (1, 1) false);
         ("norm.i", SBatchNorm2d num_init_features);
         ("swish.i", SSwish);
         ("pool.i", SMaxPool2d (3, 3) (2, 1) (1, 1)) ]
       ++ fst stages ++
       [ ("norm.f", SBatchNorm2d (snd stages));
         ("swish.f", SSwish);
         ("pool.f", SAvgPool2d (2, 2) (1, 1) (0, 0));
         ("view.f", SView [-1; 780]%Z);
         ("class.f", SLinear 780 y_dim) ]).
Proof.
  intros. subst stages. rewrite DenseNet_signature. reflexivity.
Qed.

(* ------------------------------------------------------------------ *)
(** ** The initialisation pass *)

Lemma modules_of_Container cls (ms : list (string * Module)) :
  modules_of (Container cls ms) = Container cls ms :: children_modules ms.
Proof. reflexivity. Qed.

Lemma init_modules_Container cls (ms : list (string * Module)) (r : rng) :
  init_modules (Container cls ms) r =
  (Container cls (fst (init_children ms r)), snd (init_children ms r)).
Proof. reflexivity. Qed.

Lemma init_children_cons n c (rest : list (string * Module)) (r : rng) :
  init_children ((n, c) :: rest) r =
  ((n, fst (init_modules c r))
     :: fst (init_children rest (snd (init_modules c r))),
   snd (init_children rest (snd (init_modules c r)))).
Proof. reflexivity. Qed.

Lemma init_children_app (a b : list (string * Module)) :
  forall r : rng,
    init_children (a ++ b) r =
    (fst (init_children a r) ++ fst (init_children b (snd (init_children a r))),
     snd (init_children b (snd (init_children a r)))).
Proof.
  induction a as [|[n c] a IH]; intros r.
  - cbn [app]. change (init_children [] r) with (@nil (string * Module), r).
    cbn [fst snd app]. now destruct (init_children b r).
  - cbn [app]. rewrite !init_children_cons, IH. reflexivity.
Qed.

(** After the pass every normalisation layer has weight one and bias zero
    and every linear layer has bias zero. *)
Lemma init_modules_initialised (m : Module) :
  forall r : rng, Forall initialised (modules_of (fst (init_modules m r))).
Proof.
  induction m as [dim| |ic oc k s p w b|n w b rm rv|k s p|k s p|i o w b|cls ms IH]
    using Module_induction; intros r;
    try (repeat constructor; fail).
  rewrite init_modules_Container. cbn [fst]. rewrite modules_of_Container.
  constructor; [exact I|].
  revert r. induction IH as [|[n c] rest Hc _ IHrest]; intros r.
  - constructor.
  - rewrite init_children_cons. cbn [fst children_modules].
    apply Forall_app. split; [apply Hc|apply IHrest].
Qed.

(** The pass does not write to a linear weight. *)
Lemma init_modules_linear_weights (m : Module) :
  forall r : rng, linear_weights (fst (init_modules m r)) = linear_weights m.
Proof.
  unfold linear_weights.
  induction m as [dim| |ic oc k s p w b|n w b rm rv|k s p|k s p|i o w b|cls ms IH]
    using Module_induction; intros r; try reflexivity.
  rewrite init_modules_Container. cbn [fst]. rewrite !modules_of_Container.
  cbn [flat_map app].
  revert r. induction IH as [|[n c] rest Hc _ IHrest]; intros r; [reflexivity|].
  rewrite init_children_cons. cbn [fst children_modules].
  rewrite !flat_map_app. f_equal; [apply Hc|apply IHrest].
Qed.

(** What the pass leaves outside the convolution weights does not depend
    on the generator. *)
Lemma init_modules_seed (m : Module) :
  forall r r' : rng,
    forget_conv_weights (fst (init_modules m r)) =
    forget_conv_weights (fst (init_modules m r')).
Proof.
  induction m as [dim| |ic oc k s p w b|n w b rm rv|k s p|k s p|i o w b|cls ms IH]
    using Module_induction; intros r r'; try reflexivity.
  rewrite !init_modules_Container. cbn [fst forget_conv_weights]. f_equal.
  change (forget_children (fst (init_children ms r)) =
          forget_children (fst (init_children ms r'))).
  revert r r'. induction IH as [|[n c] rest Hc _ IHrest]; intros r r'; [reflexivity|].
  rewrite !init_children_cons. cbn [fst forget_children].
  f_equal; [f_equal; apply Hc|apply IHrest].
Qed.

(** Running the pass a second time changes convolution weights only. *)
Lemma init_modules_again (m : Module) :
  forall r r' : rng,
    forget_conv_weights (fst (init_modules (fst (init_modules m r)) r')) =
    forget_conv_weights (fst (init_modules m r)).
Proof.
  induction m as [dim| |ic oc k s p w b|n w b rm rv|k s p|k s p|i o w b|cls ms IH]
    using Module_induction; intros r r'; try reflexivity.
  rewrite !init_modules_Container. cbn [fst].
  rewrite init_modules_Container. cbn [fst forget_conv_weights]. f_equal.
  change (forget_children (fst (init_children (fst (init_children ms r)) r')) =
          forget_children (fst (init_children ms r))).
  revert r r'. induction IH as [|[n c] rest Hc _ IHrest]; intros r r'; [reflexivity|].
  rewrite !init_children_cons. cbn [fst]. rewrite init_children_cons.
  cbn [fst forget_children].
  f_equal; [f_equal; apply Hc|apply IHrest].
Qed.

(** The assembled stack ends with the classifier as [nn.Linear] built it. *)
Lemma DenseNet_assemble_classifier y g cfg nif bn dr (r : rng) :
  exists front norm_f r_k,
    fst (DenseNet_assemble y g cfg nif bn dr r) =
    Container cSequential
      (front ++ [ ("norm.f", norm_f); ("swish.f", Swish);
                  ("pool.f", AvgPool2d (_pair 2) (_pair 1) (_pair 0));
                  ("view.f", View [(-1)%Z; Z.of_nat (195 * 4)]);
                  ("class.f", fst (Linear (195 * 4) y r_k)) ]).
Proof.
  unfold DenseNet_assemble. unfold bind at 1 2. cbv zeta.
  set (c := Conv2d 2 nif 3 1 1 r).
  set (b := BatchNorm2d nif (snd c)).
  set (stem := [("view.i", _); ("conv.i", fst c); _; _; _]).
  unfold bind at 1. cbv zeta.
  set (res := DenseNet_loop g bn dr (length cfg) _ stem nif (snd b)).
  destruct (DenseNet_loop_spec g bn dr (length cfg) cfg 0 stem nif (snd b))
    as (_ & _ & Hreg).
  { reflexivity. }
  { intros name Hin. left. exact Hin. }
  fold res in Hreg.
  unfold bind, ret. cbv zeta. cbn [fst].
  rewrite (add_module_head (length cfg)) by exact Hreg.
  eexists _, _, _. reflexivity.
Qed.

(** C7. In the network as [DenseNet.__init__] leaves it, every
    normalisation layer has weight one and bias zero, every linear layer has
    bias zero, and the classifier [class.f] still carries the weight drawn
    by the constructor of [nn.Linear]; the pass writes to no linear weight;
    and two runs of the pass from different generator states, on the same
    tree or one after the other, differ in convolution weights only. *)
Theorem init_pass_policy :
  (forall x_dim y_dim growth_rate block_config num_init_features bn_size
          drop_rate eps (r0 : rng),
     let net := fst (DenseNet x_dim y_dim growth_rate block_config
                              num_init_features bn_size drop_rate eps r0) in
     Forall initialised (modules_of (hidden net)) /\
     exists front r_k,
       children (hidden net) =
       front ++
       [ ("class.f",
          LinearM (195 * 4) y_dim
            (fst (sample reset_linear_weight
                    (linear_weight_size (195 * 4) y_dim) r_k))
            (fun _ => s_zero)) ]) /\
  (forall (m : Module) (r : rng),
     linear_weights (fst (init_modules m r)) = linear_weights m) /\
  (forall (m : Module) (r r' : rng),
     forget_conv_weights (fst (init_modules m r)) =
     forget_conv_weights (fst (init_modules m r'))) /\
  (forall (m : Module) (r r' : rng),
     forget_conv_weights (fst (init_modules (fst (init_modules m r)) r')) =
     forget_conv_weights (fst (init_modules m r))).
Proof.
  split; [|split; [|split]].
  - intros xd yd g cfg nif bn dr e r0 net. subst net.
    unfold DenseNet. unfold bind, ret. cbv zeta. cbn [fst hidden].
    split; [apply init_modules_initialised|].
    set (a := DenseNet_assemble yd g cfg nif bn dr r0).
    destruct (DenseNet_assemble_classifier yd g cfg nif bn dr r0)
      as (front & norm_f & r_k & E).
    fold a in E. rewrite E, init_modules_Container. cbn [fst children].
    match goal with
    | |- context [front ++ [?a; ?b; ?c; ?d; ?e]] =>
        change (front ++ [a; b; c; d; e]) with (front ++ ([a; b; c; d] ++ [e]))
    end.
    rewrite app_assoc, init_children_app. cbn [fst].
    eexists _, r_k. f_equal.
  - exact init_modules_linear_weights.
  - exact init_modules_seed.
  - exact init_modules_again.
Qed.

(* ------------------------------------------------------------------ *)
(** ** Sizes through the default network *)

Lemma spec_dense_layers_size training nif bn g dr B H W :
  0 < H -> 0 < W -> (training = true -> B * H * W <> 1) -> (dr <= 1)%Q ->
  forall N start,
    signatures_size training
      (map (fun i => (("denselayer" ++ str (i + 1))%string,
                      spec_dense_layer (nif + i * g) g bn dr))
           (seq start N))
      [B; nif + start * g; H; W] =
    Some [B; nif + (start + N) * g; H; W].
Proof.
  intros HH HW Ht Hdr. induction N as [|N IH]; intros start.
  - cbn. now rewrite Nat.add_0_r.
  - cbn [seq map signatures_size].
    rewrite spec_dense_layer_size by assumption.
    replace (nif + start * g + g) with (nif + S start * g) by lia.
    rewrite IH. do 2 f_equal. f_equal. lia.
Qed.

Lemma spec_dense_block_size training N nif bn g dr B H W :
  0 < H -> 0 < W -> (training = true -> B * H * W <> 1) -> (dr <= 1)%Q ->
  signature_size training (spec_dense_block N nif bn g dr) [B; nif; H; W] =
  Some [B; nif + N * g; H; W].
Proof.
  intros HH HW Ht Hdr. unfold spec_dense_block.
  rewrite signature_size_Container. cbv zeta.
  pose proof (spec_dense_layers_size training nif bn g dr B H W HH HW Ht Hdr N 0) as E.
  rewrite Nat.mul_0_l, Nat.add_0_r in E. cbn [Nat.add] in E. now rewrite E.
Qed.

Lemma batch_guard (B H W : nat) : 2 <= H * W -> B * H * W <> 1.
Proof.
  intros Hhw E. rewrite <- Nat.mul_assoc in E.
  destruct B as [|B]; [discriminate|].
  rewrite Nat.mul_succ_l in E. lia.
Qed.

(** [view(-1, d1, ..., dk)] with non-negative [d1 ... dk]. *)
Lemma infer_size_wildcard_lead (dims : list nat) (n : nat) :
  infer_size ((-1)%Z :: map Z.of_nat dims) n =
  if (0 <? prod dims) && (n mod prod dims =? 0)
  then Some (n / prod dims :: dims) else None.
Proof.
  unfold infer_size.
  assert (Hex : existsb (fun d => (d <? -1)%Z) (map Z.of_nat dims) = false).
  { clear. induction dims as [|d dims IH]; [reflexivity|]. cbn [map existsb].
    rewrite IH, orb_false_r. apply Z.ltb_ge. lia. }
  assert (Hcount : count_occ Z.eq_dec (map Z.of_nat dims) (-1)%Z = 0).
  { clear. induction dims as [|d dims IH]; [reflexivity|]. cbn [map count_occ].
    destruct (Z.eq_dec (Z.of_nat d) (-1)); [lia|exact IH]. }
  assert (Hfilter : filter (fun d => negb (d =? -1)%Z) (map Z.of_nat dims)
                    = map Z.of_nat dims).
  { clear. induction dims as [|d dims IH]; [reflexivity|]. cbn [map filter].
    replace (Z.of_nat d =? -1)%Z with false by (symmetry; apply Z.eqb_neq; lia).
    cbn [negb]. now rewrite IH. }
  assert (Hback : map Z.to_nat (map Z.of_nat dims) = dims).
  { clear. induction dims as [|d dims IH]; [reflexivity|]. cbn [map].
    now rewrite Nat2Z.id, IH. }
  assert (Hmap : forall q, map (fun d => if (d =? -1)%Z then q else Z.to_nat d)
                               (map Z.of_nat dims) = dims).
  { clear. intros q. induction dims as [|d dims IH]; [reflexivity|]. cbn [map].
    replace (Z.of_nat d =? -1)%Z with false by (symmetry; apply Z.eqb_neq; lia).
    now rewrite Nat2Z.id, IH. }
  cbn [existsb count_occ filter map]. rewrite Hex, Hcount, Hfilter, Hmap.
  rewrite Z.eqb_refl.
  destruct (Z.eq_dec (-1) (-1)) as [_|C]; [|congruence].
  change (-1 <? -1)%Z with false. cbn [negb orb]. rewrite Hback. reflexivity.
Qed.

Lemma infer_size_batch (dims : list nat) (B : nat) :
  0 < prod dims ->
  infer_size ((-1)%Z :: map Z.of_nat dims) (B * prod dims) = Some (B :: dims).
Proof.
  intros Hpos. rewrite infer_size_wildcard_lead.
  replace (0 <? prod dims) with true by (symmetry; now apply Nat.ltb_lt).
  rewrite Nat.Div0.mod_mul, Nat.div_mul by lia. reflexivity.
Qed.

(** The sizes from the flat input to the output of [pool.f] in the default
    configuration, for every batch size. *)
Lemma default_feature_size training bn dr y B :
  (dr <= 1)%Q ->
  signatures_size training
    (spec_stem 64 ++ fst (spec_stages 4 bn dr [6; 12; 24; 48; 16] 1 64) ++
     firstn 3 (spec_head 195 (195 * 4) y))
    [B; 2 * 129 * 21] =
  Some [B; 195; 4; 1].
Proof.
  intros Hdr.
  assert (Hguard : forall H W, (2 <=? H * W) = true ->
                               training = true -> B * H * W <> 1).
  { intros H W E _. apply batch_guard. now apply Nat.leb_le. }
  assert (Hpos : forall n, (0 <? n) = true -> 0 < n).
  { intros n E. now apply Nat.ltb_lt. }
  (* stem *)
  assert (Hstem : signatures_size training (spec_stem 64) [B; 2 * 129 * 21]
                  = Some [B; 64; 65; 21]).
  { unfold spec_stem. cbn [signatures_size signature_size].
    replace (prod [B; 2 * 129 * 21]) with (B * prod [2; 129; 21])
      by (unfold prod; cbn [fold_right]; ring).
    change [-1; 2; 129; 21]%Z with ((-1)%Z :: map Z.of_nat [2; 129; 21]).
    rewrite infer_size_batch by (apply Hpos; reflexivity).
    cbn [conv2d_size fst snd]. rewrite Nat.eqb_refl.
    rewrite !conv_out_same_padding by (apply Hpos; reflexivity).
    rewrite batch_norm_size_ok by (apply Hguard; reflexivity).
    reflexivity. }
  rewrite signatures_size_app, Hstem.
  (* stages *)
  assert (Hstages :
    signatures_size training (fst (spec_stages 4 bn dr [6; 12; 24; 48; 16] 1 64))
                    [B; 64; 65; 21] = Some [B; 195; 5; 2]).
  { cbn [spec_stages fst snd signatures_size].
    repeat
      (first
         [ rewrite spec_dense_block_size
             by first [apply Hpos; reflexivity | apply Hguard; reflexivity | exact Hdr]
         | rewrite spec_transition_size
             by first [apply Hpos; reflexivity | apply Hguard; reflexivity] ]).
    reflexivity. }
  rewrite signatures_size_app, Hstages.
  (* norm.f, swish.f, pool.f *)
  cbn [spec_head firstn signatures_size signature_size].
  rewrite batch_norm_size_ok by (apply Hguard; reflexivity).
  reflexivity.
Qed.

(** In the default configuration [self.hidden] maps a batch of [B] flat
    inputs of [2 * 129 * 21] entries to [B] rows of [y_dim] scores. *)
Lemma default_output_size training bn dr y B :
  (dr <= 1)%Q ->
  signatures_size training
    (spec_stem 64 ++ fst (spec_stages 4 bn dr [6; 12; 24; 48; 16] 1 64) ++
     spec_head 195 (195 * 4) y)
    [B; 2 * 129 * 21] =
  Some [B; y].
Proof.
  intros Hdr.
  pose proof (default_feature_size training bn dr y B Hdr) as E.
  change (spec_head 195 (195 * 4) y)
    with (firstn 3 (spec_head 195 (195 * 4) y) ++
          [ ("view.f", SView ((-1)%Z :: map Z.of_nat [195 * 4]));
            ("class.f", SLinear (195 * 4) y) ]).
  rewrite !app_assoc, signatures_size_app, <- app_assoc, E.
  cbn [signatures_size signature_size].
  replace (prod [B; 195; 4; 1]) with (B * prod [195 * 4])
    by (unfold prod; cbn [fold_right]; ring).
  rewrite infer_size_batch by (apply Nat.ltb_lt; reflexivity).
  unfold linear_size. cbn [rev app]. now rewrite Nat.eqb_refl.
Qed.

Lemma children_signature_split (ms : list (string * Module)) :
  forall a b,
    children_signature ms = a ++ b ->
    exists ma mb,
      ms = ma ++ mb /\ children_signature ma = a /\ children_signature mb = b.
Proof.
  induction ms as [|[n c] ms IH]; intros a b E.
  - cbn in E. symmetry in E. apply app_eq_nil in E as [-> ->].
    now exists [], [].
  - destruct a as [|e a].
    + cbn [app] in E. exists [], ((n, c) :: ms). repeat split. exact E.
    + cbn [children_signature app] in E. injection E as <- E.
      destruct (IH a b E) as (ma & mb & -> & Ha & Hb).
      exists ((n, c) :: ma), mb. repeat split; [|exact Hb].
      cbn [children_signature]. now rewrite Ha.
Qed.

(* ------------------------------------------------------------------ *)
(** ** The default configuration *)

Lemma signature_Container_inv (m : Module) cls l :
  signature m = SContainer cls l ->
  exists ms, m = Container cls ms /\ children_signature ms = l.
Proof.
  destruct m; try discriminate.
  rewrite signature_Container. intros E. injection E as -> <-.
  eexists. split; reflexivity.
Qed.

(** C3. With [growth_rate = 4], [block_config = (6, 12, 24, 48, 16)] and
    [num_init_features = 64] the channel count runs 64 -> 88 -> 44 -> 92 ->
    46 -> 142 -> 71 -> 263 -> 131 -> 195: each block adds
    [layers * growth_rate], each of the four transitions halves with integer
    division.  The final normalisation [norm.f] is built for 195 channels,
    and the tensor that reaches [view.f] has 195 channels of 4 x 1 entries
    for every sample: the channel count of the hard-coded flatten size
    [195 * 4]. *)
Theorem default_config_final_channels :
  forall x_dim y_dim bn_size drop_rate eps (r0 : rng),
    let stages := spec_stages 4 bn_size drop_rate [6; 12; 24; 48; 16] 1 64 in
    let net := fst (DenseNet x_dim y_dim 4 [6; 12; 24; 48; 16] 64
                             bn_size drop_rate eps r0) in
    transition_widths (fst stages) = [(88, 44); (92, 46); (142, 71); (263, 131)] /\
    snd stages = 195 /\
    signature (hidden net) =
    SContainer cSequential
      (spec_stem 64 ++ fst stages ++
       [ ("norm.f", SBatchNorm2d 195);
         ("swish.f", SSwish);
         ("pool.f", SAvgPool2d (2, 2) (1, 1) (0, 0));
         ("view.f", SView [(-1)%Z; Z.of_nat (195 * 4)]);
         ("class.f", SLinear (195 * 4) y_dim) ]) /\
    (forall training B,
       (drop_rate <= 1)%Q ->
       exists front tail,
         hidden net = Container cSequential (front ++ tail) /\
         map fst tail = ["view.f"; "class.f"] /\
         forward_size training (Container cSequential front) [B; 2 * 129 * 21]
         = Some [B; 195; 4; 1]).
Proof.
  intros xd yd bn dr e r0 stages net.
  assert (Hnf : snd stages = 195) by (subst stages; vm_compute; reflexivity).
  assert (Hsig : signature (hidden net) =
                 SContainer cSequential
                   (spec_stem 64 ++ fst stages ++ spec_head 195 (195 * 4) yd)).
  { subst net. rewrite DenseNet_signature. fold stages. now rewrite Hnf. }
  split; [subst stages; vm_compute; reflexivity|].
  split; [exact Hnf|]. split; [exact Hsig|].
  intros training B Hdr.
  destruct (signature_Container_inv _ _ _ Hsig) as (ms & Hms & Hchildren).
  change (spec_head 195 (195 * 4) yd)
    with (firstn 3 (spec_head 195 (195 * 4) yd) ++
          [ ("view.f", SView [(-1)%Z; Z.of_nat (195 * 4)]);
            ("class.f", SLinear (195 * 4) yd) ]) in Hchildren.
  rewrite !app_assoc in Hchildren.
  destruct (children_signature_split ms _ _ Hchildren) as (front & tail & -> & Hf & Ht).
  exists front, tail. split; [exact Hms|]. split.
  - rewrite <- children_signature_names, Ht. reflexivity.
  - rewrite forward_size_signature, signature_Container, Hf.
    rewrite signature_size_Container. cbv zeta.
    rewrite <- app_assoc. subst stages.
    now rewrite (default_feature_size training bn dr yd B Hdr).
Qed.

(** In the default configuration a batch of [B] flat inputs of
    [2 * 129 * 21] entries comes out of [self.hidden] as [B] rows of
    [y_dim] scores. *)
Lemma default_config_output_size x_dim y_dim bn_size drop_rate eps (r0 : rng)
    training B (x : tensor) (r : rng) :
  (drop_rate <= 1)%Q ->
  size x = [B; 2 * 129 * 21] ->
  exists out,
    fst (fst (DenseNet_forward training
                (fst (DenseNet x_dim y_dim 4 [6; 12; 24; 48; 16] 64 bn_size
                               drop_rate eps r0)) x false r)) = Some out /\
    size out = [B; y_dim].
Proof.
  intros Hdr Hx.
  set (net := fst (DenseNet x_dim y_dim 4 [6; 12; 24; 48; 16] 64 bn_size
                            drop_rate eps r0)).
  assert (E : forward_size training (hidden net) (size x) = Some [B; y_dim]).
  { rewrite forward_size_signature. subst net. rewrite DenseNet_signature.
    rewrite signature_size_Container. cbv zeta.
    replace (snd (spec_stages 4 bn_size drop_rate [6; 12; 24; 48; 16] 1 64))
      with 195 by (vm_compute; reflexivity).
    rewrite Hx.
    now rewrite (default_output_size training bn_size drop_rate y_dim B Hdr). }
  destruct (forward_returns training (hidden net) x r _ E) as (out & Ho & Hs).
  exists out. split; [|exact Hs].
  unfold DenseNet_forward.
  destruct (forward training (hidden net) x r) as [[o h'] r'].
  cbn [fst] in Ho. subst o. reflexivity.
Qed.

(** With the [softmax] flag off, [DenseNet.forward] returns what
    [self.hidden] returned, untouched. *)
Lemma DenseNet_forward_raw_scores training (self : DenseNetT) (x : tensor) (r : rng) :
  fst (fst (DenseNet_forward training self x false r)) =
  fst (fst (forward training (hidden self) x r)).
Proof.
  unfold DenseNet_forward.
  destruct (forward training (hidden self) x r) as [[o h'] r'].
  destruct o; reflexivity.
Qed.

(* ------------------------------------------------------------------ *)
(** ** Frame: what a forward pass leaves alone *)

Lemma Sequential_forward_parameters training (ms : list (string * Module)) :
  Forall (fun nm => forall x r,
            parameters (snd (fst (forward training (snd nm) x r))) =
            parameters (snd nm)) ms ->
  forall x r,
    children_parameters (snd (fst (Sequential_forward training ms x r))) =
    children_parameters ms.
Proof.
  induction 1 as [|[n c] rest Hc _ IHrest]; intros x r; [reflexivity|].
  simpl in *. specialize (Hc x r).
  destruct (forward training c x r) as [[o c'] r1]. simpl in Hc.
  destruct o as [y|]; simpl.
  - specialize (IHrest y r1).
    destruct (Sequential_forward training rest y r1) as [[o' rest'] r2].
    simpl in *. now rewrite Hc, IHrest.
  - now rewrite Hc.
Qed.

(** No module's [forward] writes to a weight or a bias, whatever the input
    and the mode, and whether or not the call raises. *)
Lemma forward_parameters training (m : Module) :
  forall x r, parameters (snd (fst (forward training m x r))) = parameters m.
Proof.
  induction m as [dim| |ic oc k s p w b|n w b rm rv|k s p|k s p|i o w b|cls ms IH]
    using Module_induction; intros x r; try reflexivity.
  - simpl. destruct (conv2d_size ic oc k s p (size x)); reflexivity.
  - simpl. destruct (batch_norm_size training n (size x)); [|reflexivity].
    destruct training; reflexivity.
  - simpl. destruct (pool2d_size k s p (size x)); reflexivity.
  - simpl. destruct (pool2d_size k s p (size x)); reflexivity.
  - simpl. destruct (linear_size i o (size x)); reflexivity.
  - rewrite forward_Container.
    pose proof (Sequential_forward_parameters training ms IH x r) as Hseq.
    destruct (Sequential_forward training ms x r) as [[o ms'] r1].
    simpl in Hseq.
    destruct cls as [|dr| |]; try exact Hseq.
    destruct o as [nf|]; [|exact Hseq].
    destruct (Qlt_bool 0 dr); [|exact Hseq].
    destruct (F_dropout nf dr training r1) as [[nf'|] r2]; exact Hseq.
Qed.

(* ------------------------------------------------------------------ *)
(** ** Evaluation mode *)

Lemma F_dropout_eval (x : tensor) p r :
  F_dropout x p false r =
  (if Qlt_bool p 0 || Qlt_bool 1 p then None else Some x, r).
Proof.
  unfold F_dropout. destruct (Qlt_bool p 0 || Qlt_bool 1 p); reflexivity.
Qed.

(** In evaluation mode a call changes neither the module nor the
    generator, and what it returns does not depend on the generator. *)
Lemma forward_eval (m : Module) :
  forall x r r0,
    forward false m x r = (fst (fst (forward false m x r0)), m, r).
Proof.
  induction m as [dim| |ic oc k s p w b|n w b rm rv|k s p|k s p|i o w b|cls ms IH]
    using Module_induction; intros x r r0; try reflexivity.
  - simpl. destruct (conv2d_size ic oc k s p (size x)); reflexivity.
  - simpl. destruct (batch_norm_size false n (size x)); reflexivity.
  - simpl. destruct (pool2d_size k s p (size x)); reflexivity.
  - simpl. destruct (pool2d_size k s p (size x)); reflexivity.
  - simpl. destruct (linear_size i o (size x)); reflexivity.
  - assert (Hseq : forall x r r0,
      Sequential_forward false ms x r =
      (fst (fst (Sequential_forward false ms x r0)), ms, r)).
    { clear x r r0. induction IH as [|[n c] rest Hc _ IHrest]; intros x r r0.
      - reflexivity.
      - simpl in *. rewrite (Hc x r r0).
        destruct (forward false c x r0) as [[o c'] r1]. simpl.
        destruct o as [y|]; [|reflexivity].
        rewrite (IHrest y r r1).
        destruct (Sequential_forward false rest y r1) as [[o' rest'] r2].
        reflexivity. }
    rewrite !forward_Container. rewrite (Hseq x r r0).
    destruct (Sequential_forward false ms x r0) as [[o ms'] r1]. simpl.
    destruct cls as [|dr| |]; try reflexivity.
    destruct o as [nf|]; [|reflexivity].
    destruct (Qlt_bool 0 dr); [|reflexivity].
    rewrite !F_dropout_eval.
    destruct (Qlt_bool dr 0 || Qlt_bool 1 dr); reflexivity.
Qed.

(* ------------------------------------------------------------------ *)
(** ** The forward pass of the network *)

(** C8. A call of [DenseNet.forward], for every input, both values of the
    [softmax] flag and both modes, returning or raising, leaves every
    parameter tensor of the module tree (convolution weights, normalisation
    weights and biases, linear weight and bias) as it was. *)
Theorem DenseNet_forward_keeps_parameters :
  forall (training : bool) (self : DenseNetT) (x : tensor) (softmax : bool) (r : rng),
    DenseNet_parameters (snd (fst (DenseNet_forward training self x softmax r))) =
    DenseNet_parameters self.
Proof.
  intros training self x softmax r. unfold DenseNet_forward, DenseNet_parameters.
  pose proof (forward_parameters training (hidden self) x r) as H.
  destruct (forward training (hidden self) x r) as [[o h'] r'].
  simpl in H.
  destruct o as [out|]; [destruct softmax|]; exact H.
Qed.

(* ------------------------------------------------------------------ *)
(** ** Without dropout *)

(** A tree without positive dropout probability never reads the generator:
    the returned tensor and the tree afterwards do not depend on it, and it
    comes back unchanged. *)
Lemma forward_dropout_free training (m : Module) :
  dropout_free (signature m) = true ->
  forall x r r0,
    forward training m x r =
    (fst (fst (forward training m x r0)), snd (fst (forward training m x r0)), r).
Proof.
  induction m as [dim| |ic oc k s p w b|n w b rm rv|k s p|k s p|i o w b|cls ms IH]
    using Module_induction; intros Hfree x r r0; try reflexivity.
  - simpl. destruct (conv2d_size ic oc k s p (size x)); reflexivity.
  - simpl. destruct (batch_norm_size training n (size x)); reflexivity.
  - simpl. destruct (pool2d_size k s p (size x)); reflexivity.
  - simpl. destruct (pool2d_size k s p (size x)); reflexivity.
  - simpl. destruct (linear_size i o (size x)); reflexivity.
  - rewrite signature_Container in Hfree.
    change (dropout_free (SContainer cls (children_signature ms)))
      with (match cls with
            | c_DenseLayer drop_rate => negb (Qlt_bool 0 drop_rate)
            | _ => true
            end && all_dropout_free (children_signature ms)) in Hfree.
    apply andb_true_iff in Hfree as [Hcls Hall].
    assert (Hseq : forall x r r0,
      Sequential_forward training ms x r =
      (fst (fst (Sequential_forward training ms x r0)),
       snd (fst (Sequential_forward training ms x r0)), r)).
    { clear x r r0 Hcls.
      induction IH as [|[n c] rest Hc _ IHrest]; intros x r r0; [reflexivity|].
      cbn [children_signature all_dropout_free] in Hall.
      apply andb_true_iff in Hall as [Hc' Hrest].
      cbn [Sequential_forward]. cbn [snd] in Hc.
      rewrite (Hc Hc' x r r0).
      destruct (forward training c x r0) as [[o c'] r1]. cbn [fst snd].
      destruct o as [y|]; [|reflexivity].
      rewrite (IHrest Hrest y r r1).
      destruct (Sequential_forward training rest y r1) as [[o' rest'] r2].
      reflexivity. }
    rewrite !forward_Container. rewrite (Hseq x r r0).
    destruct (Sequential_forward training ms x r0) as [[o ms'] r1]. cbn [fst snd].
    destruct cls as [|dr| |]; try reflexivity.
    destruct o as [nf|]; [|reflexivity].
    apply negb_true_iff in Hcls. rewrite Hcls. reflexivity.
Qed.

Lemma all_dropout_free_app (a b : list (string * Signature)) :
  all_dropout_free (a ++ b) = all_dropout_free a && all_dropout_free b.
Proof.
  induction a as [|[n c] a IH]; [reflexivity|].
  cbn [app all_dropout_free]. now rewrite IH, andb_assoc.
Qed.

Lemma spec_dense_block_dropout_free N nif bn g dr :
  Qlt_bool 0 dr = false ->
  dropout_free (spec_dense_block N nif bn g dr) = true.
Proof.
  intros Hdr. unfold spec_dense_block.
  change (dropout_free (SContainer c_DenseBlock ?l))
    with (true && all_dropout_free l).
  cbn [andb].
  assert (H : forall start,
            all_dropout_free
              (map (fun i => (("denselayer" ++ str (i + 1))%string,
                              spec_dense_layer (nif + i * g) g bn dr))
                   (seq start N)) = true).
  { induction N as [|N IH]; intros start; [reflexivity|].
    cbn [seq map all_dropout_free]. rewrite IH, andb_true_r.
    cbn. now rewrite Hdr. }
  apply H.
Qed.

Lemma spec_stages_dropout_free g bn dr :
  Qlt_bool 0 dr = false ->
  forall cfg k nf, all_dropout_free (fst (spec_stages g bn dr cfg k nf)) = true.
Proof.
  intros Hdr. induction cfg as [|L [|L' cfg'] IH]; intros k nf.
  - reflexivity.
  - cbn [spec_stages fst all_dropout_free].
    now rewrite spec_dense_block_dropout_free.
  - change (spec_stages g bn dr (L :: L' :: cfg') k nf) with
      (let nf1 := nf + L * g in
       let more := spec_stages g bn dr (L' :: cfg') (S k) (nf1 / 2) in
       ((("denseblock" ++ str k)%string, spec_dense_block L nf bn g dr)
        :: (("transition" ++ str k)%string, spec_transition nf1 (nf1 / 2))
        :: fst more, snd more)).
    cbv zeta. cbn [fst all_dropout_free].
    rewrite spec_dense_block_dropout_free, IH by assumption. reflexivity.
Qed.

Lemma spec_network_dropout_free g bn dr cfg nif flat y :
  Qlt_bool 0 dr = false ->
  dropout_free
    (SContainer cSequential
       (spec_stem nif ++ fst (spec_stages g bn dr cfg 1 nif) ++
        spec_head (snd (spec_stages g bn dr cfg 1 nif)) flat y)) = true.
Proof.
  intros Hdr.
  change (dropout_free (SContainer cSequential ?l))
    with (true && all_dropout_free l).
  rewrite !all_dropout_free_app, spec_stages_dropout_free by assumption.
  reflexivity.
Qed.

(** C9. A network constructed with dropout probability 0 and run in
    evaluation mode returns the same tensor on two successive forward passes
    over the same input, whatever the state of the random generator at each
    call: the first pass leaves the network as it was and neither pass reads
    the generator.  With dropout probability 0 the generator is not read in
    training mode either. *)
Theorem DenseNet_forward_deterministic :
  forall (x_dim y_dim growth_rate : nat) (block_config : list nat)
         (num_init_features bn_size : nat) (eps : scalar) (r0 : rng)
         (x : tensor) (softmax : bool) (r1 r2 : rng),
    let net := fst (DenseNet x_dim y_dim growth_rate block_config
                             num_init_features bn_size 0 eps r0) in
    let first := DenseNet_forward false net x softmax r1 in
    let net' := snd (fst first) in
    (net' = net /\
     snd first = r1 /\
     fst (fst (DenseNet_forward false net' x softmax r2)) = fst (fst first)) /\
    (forall training,
       DenseNet_forward training net x softmax r1 =
       (fst (fst (DenseNet_forward training net x softmax r2)),
        snd (fst (DenseNet_forward training net x softmax r2)), r1)).
Proof.
  intros. split.
  - subst first net'. clearbody net. destruct net as [xd yd e h].
    unfold DenseNet_forward. simpl.
    pose proof (forward_eval h x r1 r1) as E1.
    pose proof (forward_eval h x r2 r1) as E2.
    destruct (forward false h x r1) as [[o h'] r'].
    simpl in E1, E2. injection E1 as Eh Er. subst h' r'.
    assert (Hfirst :
      snd (fst (match o with
                | Some out =>
                    if softmax then (ClippedSoftmax e 1 out, mkDenseNet xd yd e h, r1)
                    else (Some out, mkDenseNet xd yd e h, r1)
                | None => (None, mkDenseNet xd yd e h, r1)
                end)) = mkDenseNet xd yd e h).
    { destruct o; [destruct softmax|]; reflexivity. }
    rewrite Hfirst. simpl. rewrite E2.
    destruct o as [out|]; [destruct softmax|]; simpl; auto.
  - intros training. unfold DenseNet_forward.
    assert (Hfree : dropout_free (signature (hidden net)) = true).
    { subst net. rewrite DenseNet_signature. apply spec_network_dropout_free.
      reflexivity. }
    rewrite (forward_dropout_free training (hidden net) Hfree x r1 r2).
    destruct (forward training (hidden net) x r2) as [[o h'] r'].
    cbn [fst snd].
    destruct o as [out|]; [destruct softmax|]; reflexivity.
Qed.

(* ------------------------------------------------------------------ *)
(** ** The final reshape *)

Lemma infer_size_wildcard_row (k n : nat) :
  infer_size [(-1)%Z; Z.of_nat k] n =
  if (0 <? k) && (n mod k =? 0) then Some [n / k; k] else None.
Proof.
  unfold infer_size.
  assert (Hlt : (Z.of_nat k <? -1)%Z = false) by (apply Z.ltb_ge; lia).
  assert (Hne : (Z.of_nat k =? -1)%Z = false) by (apply Z.eqb_neq; lia).
  cbn [existsb count_occ filter map]. rewrite Hlt, Hne, !Z.eqb_refl.
  destruct (Z.eq_dec (-1) (-1)) as [_|C]; [|congruence].
  destruct (Z.eq_dec (Z.of_nat k) (-1)) as [C|_]; [lia|].
  change (-1 <? -1)%Z with false.
  cbn [negb orb map]. unfold prod. cbn [fold_right].
  rewrite Nat2Z.id, Nat.mul_1_r. reflexivity.
Qed.

(** C10. [view.f] is [View((-1, 195 * 4))]: a tensor whose element count is a
    multiple of 780 is reshaped, without error, into [(count / 780, 780)]
    over the same storage, whatever its own sizes were; the call raises
    exactly when the element count is not a multiple of 780.  So a
    configuration whose feature count per sample is a multiple of 780 other
    than 780 itself runs through and changes the batch dimension: with
    [block_config = (1,)] and [num_init_features = 35] one input sample
    comes out as 64 rows of scores. *)
Theorem View_flatten_multiple_of_780 :
  (forall (training : bool) (x : tensor) (r : rng),
     forward training (View [(-1)%Z; Z.of_nat (195 * 4)]) x r =
     (if numel x mod 780 =? 0
      then Some (mkTensor [numel x / 780; 780] (data x))
      else None,
      View [(-1)%Z; Z.of_nat (195 * 4)], r)) /\
  (forall (training : bool) x_dim y_dim eps (r0 : rng),
     forward_size training
       (hidden (fst (DenseNet x_dim y_dim 4 [1] 35 4 0 eps r0)))
       [1; 2 * 129 * 21] = Some [64; y_dim]).
Proof.
  split.
  - intros training x r. cbn [forward]. unfold View_forward.
    rewrite infer_size_wildcard_row.
    change (195 * 4) with 780. change (0 <? 780) with true. cbn [andb].
    destruct (numel x mod 780 =? 0); reflexivity.
  - intros training x_dim y_dim eps r0.
    destruct training; vm_compute; reflexivity.
Qed.

End Theory.

(* ------------------------------------------------------------------ *)
(** ** The theorems at concrete inputs *)

(** A dense layer for two input channels and growth rate 1, in training
    mode, on a batch of two 1x1 images. *)
Lemma DenseLayer_forward_concat_witness :
  exists out,
    fst (fst (forward (F := toy) true (fst (_DenseLayer 2 1 1 0 0%nat))
                (mkTensor [2; 2; 1; 1] (fun i => Z.of_nat i)) 7%nat))
      = Some out /\
    size out = [2; 2 + 1; 1; 1] /\
    (forall n c i j, n < 2 -> c < 2 -> i < 1 -> j < 1 ->
       get out [n; c; i; j]
       = get (mkTensor [2; 2; 1; 1] (fun i => Z.of_nat i)) [n; c; i; j]).
Proof.
  destruct (DenseLayer_forward_concat (F := toy) 2 1 1 0 0%nat)
    as (w1 & w2 & w3 & w4 & _ & Hrun).
  destruct (Hrun true 2 1 1 (mkTensor [2; 2; 1; 1] (fun i => Z.of_nat i)) 7%nat)
    as (out & Hfwd & _ & _ & Hsize & Hleft & _).
  - reflexivity.
  - lia.
  - lia.
  - lia.
  - lia.
  - lia.
  - lia.
  - intros _. simpl. lia.
  - unfold Qle. simpl. lia.
  - exists out. split; [exact Hfwd|]. split; [exact Hsize|exact Hleft].
Defined.

(** A block of two layers with growth rate 1 on two input channels. *)
Lemma DenseBlock_chain_witness :
  exists out,
    fst (fst (forward (F := toy) true (fst (_DenseBlock 2 2 1 1 0 0%nat))
                (mkTensor [2; 2; 1; 1] (fun i => Z.of_nat i)) 7%nat))
      = Some out /\
    size out = [2; 2 + 2 * 1; 1; 1].
Proof.
  destruct (DenseBlock_chain (F := toy) 2 2 1 1 0 0%nat)
    as (layers & E & _ & _ & _ & Hsize).
  rewrite E.
  apply (Hsize true 2 1 1 (mkTensor [2; 2; 1; 1] (fun i => Z.of_nat i)) 7%nat).
  - reflexivity.
  - lia.
  - lia.
  - lia.
  - lia.
  - lia.
  - lia.
  - intros _. simpl. lia.
  - unfold Qle. simpl. lia.
Defined.

(** A transition from four to two channels on 5x4 images. *)
Lemma Transition_structure_and_placement_witness :
  exists out,
    fst (fst (forward (F := toy) false (fst (_Transition 4 2 0%nat))
                (mkTensor [1; 4; 5; 4] (fun i => Z.of_nat i)) 3%nat))
      = Some out /\
    size out = [1; 2; (5 - 1) / 2 + 1; (4 - 1) / 2 + 1].
Proof.
  destruct (Transition_structure_and_placement (F := toy)) as (_ & Hsize & _).
  destruct (Hsize 4 2 0%nat) as (w_norm & w_conv & Hout).
  destruct (Hout false 1 5 4 (mkTensor [1; 4; 5; 4] (fun i => Z.of_nat i)) 3%nat)
    as (out & Hfwd & Hsz & _).
  - reflexivity.
  - lia.
  - lia.
  - lia.
  - lia.
  - lia.
  - discriminate.
  - exists out. split; assumption.
Defined.

(** The default configuration on a batch of three inputs, in training
    mode. *)
Lemma default_config_final_channels_witness :
  exists front tail,
    hidden (fst (DenseNet (F := toy) (2 * 129 * 21) 10 4 [6; 12; 24; 48; 16] 64 4 0
                          0%Z 0%nat))
    = Container cSequential (front ++ tail) /\
    map fst tail = ["view.f"; "class.f"]%string /\
    forward_size true (Container cSequential front) [3; 2 * 129 * 21]
    = Some [3; 195; 4; 1].
Proof.
  destruct (default_config_final_channels (F := toy) (2 * 129 * 21) 10 4 0 0%Z
              0%nat) as (_ & _ & _ & Hsize).
  apply (Hsize true 3). unfold Qle. simpl. lia.
Defined.

(** A training-mode call does write: the running mean of a normalisation
    layer moves, while its weight and bias stay. *)
Lemma training_forward_updates_running_mean :
  let norm := BatchNorm2dM 2 (fun _ => 1%Z) (fun _ => 0%Z)
                           (fun _ => 0%Z) (fun _ => 1%Z) in
  let x := mkTensor [2; 2; 1; 1] (fun i => Z.of_nat (10 + i)) in
  let norm' := snd (fst (forward (F := toy) true norm x 0%nat)) in
  match norm' with
  | BatchNorm2dM _ w b running_mean _ =>
      running_mean 0%nat = 21%Z /\ w 0%nat = 1%Z /\ b 0%nat = 0%Z
  | _ => False
  end /\
  parameters norm' = parameters norm.
Proof. cbv zeta. split; [vm_compute; auto|reflexivity]. Qed.

(** The dense layer of the first example, run: per sample the two input
    channels come back unchanged, followed by the one new channel. *)
Lemma toy_dense_layer_output :
  option_map (fun out => (size out, entries out))
    (fst (fst (forward (F := toy) true (fst (_DenseLayer 2 1 1 0 0%nat))
                 (mkTensor [2; 2; 1; 1] (fun i => Z.of_nat (10 + i))) 7%nat)))
  = Some ([2; 3; 1; 1], [10; 11; 66; 12; 13; 67]%Z).
Proof. vm_compute. reflexivity. Qed.

(* ------------------------------------------------------------------ *)
(** * Further properties of the code *)

Section Further.

Context {scalar rng : Type} {F : Framework scalar rng} {R : Randn scalar rng}.

Local Notation tensor := (tensor scalar).
Local Notation Module := (@Module scalar).

(* ------------------------------------------------------------------ *)
(** ** [View.forward] *)

Lemma prod_cons (a : nat) (l : list nat) : prod (a :: l) = a * prod l.
Proof. reflexivity. Qed.

Lemma wildcard_product (q : nat) (dim : list Z) :
  prod (map (fun d => if (d =? -1)%Z then q else Z.to_nat d) dim) =
  q ^ count_occ Z.eq_dec dim (-1)%Z *
  prod (map Z.to_nat (filter (fun d => negb (d =? -1)%Z) dim)).
Proof.
  induction dim as [|a dim IH]; [reflexivity|].
  cbn [map count_occ filter]. rewrite prod_cons, IH.
  destruct (Z.eq_dec a (-1)) as [->|Hne].
  - change (-1 =? -1)%Z with true. cbn [negb]. rewrite Nat.pow_succ_r'. ring.
  - replace (a =? -1)%Z with false by (symmetry; now apply Z.eqb_neq).
    cbn [negb map]. rewrite prod_cons. ring.
Qed.

Lemma infer_size_prod (dim : list Z) (n : nat) (sz : list nat) :
  infer_size dim n = Some sz -> prod sz = n.
Proof.
  unfold infer_size.
  destruct dim as [|d0 dim0] eqn:Edim; [discriminate|]. rewrite <- Edim. clear Edim.
  destruct (existsb (fun d => (d <? -1)%Z) dim); [discriminate|].
  destruct (count_occ Z.eq_dec dim (-1)%Z) as [|[|c]] eqn:Hc; [| |discriminate].
  - destruct (Nat.eqb_spec (prod (map Z.to_nat dim)) n) as [E|_]; [|discriminate].
    intros H. injection H as <-. exact E.
  - set (newsize := prod (map Z.to_nat (filter (fun d => negb (d =? -1)%Z) dim))).
    destruct (Nat.ltb_spec 0 newsize) as [Hpos|_]; [|discriminate].
    destruct (Nat.eqb_spec (n mod newsize) 0) as [Hmod|_]; [|discriminate].
    cbn [andb]. intros H. injection H as <-.
    rewrite wildcard_product, Hc. fold newsize.
    rewrite Nat.pow_1_r. apply Nat.Div0.div_exact in Hmod. lia.
Qed.

Lemma infer_size_own_sizes (sz : list nat) :
  sz <> [] -> infer_size (map Z.of_nat sz) (prod sz) = Some sz.
Proof.
  intros Hne. unfold infer_size.
  destruct (map Z.of_nat sz) as [|d0 dim0] eqn:Edim;
    [now destruct sz|]. rewrite <- Edim. clear Edim.
  assert (Hex : existsb (fun d => (d <? -1)%Z) (map Z.of_nat sz) = false).
  { clear. induction sz as [|d sz IH]; [reflexivity|]. cbn [map existsb].
    rewrite IH, orb_false_r. apply Z.ltb_ge. lia. }
  assert (Hcount : count_occ Z.eq_dec (map Z.of_nat sz) (-1)%Z = 0).
  { clear. induction sz as [|d sz IH]; [reflexivity|]. cbn [map count_occ].
    destruct (Z.eq_dec (Z.of_nat d) (-1)); [lia|exact IH]. }
  assert (Hback : map Z.to_nat (map Z.of_nat sz) = sz).
  { clear. induction sz as [|d sz IH]; [reflexivity|]. cbn [map].
    now rewrite Nat2Z.id, IH. }
  rewrite Hex, Hcount, Hback, Nat.eqb_refl. reflexivity.
Qed.

(** X1. Whatever the target sizes, a reshape that does not raise returns
    the same storage and the same number of elements. *)
Theorem View_forward_same_elements :
  forall (dim : list Z) (x y : tensor),
    View_forward dim x = Some y ->
    data y = data x /\ numel y = numel x.
Proof.
  intros dim x y. unfold View_forward.
  destruct (infer_size dim (numel x)) as [sz|] eqn:E; [|discriminate].
  intros H. injection H as <-. split; [reflexivity|].
  unfold numel at 1. cbn [size]. now apply infer_size_prod in E.
Qed.

(** X2. Reshaping the result back to the sizes of the original tensor
    returns the original tensor, when that tensor has at least one
    dimension (for a 0-dimensional [x] the call back is [y.view()], which
    raises). *)
Theorem View_forward_round_trip :
  forall (dim : list Z) (x y : tensor),
    size x <> [] ->
    View_forward dim x = Some y ->
    View_forward (map Z.of_nat (size x)) y = Some x.
Proof.
  intros dim x y Hne H.
  assert (Hn : numel y = numel x).
  { revert H. unfold View_forward.
    destruct (infer_size dim (numel x)) as [sz|] eqn:E; [|discriminate].
    intros H. injection H as <-. unfold numel at 1. cbn [size].
    now apply infer_size_prod in E. }
  assert (Hd : data y = data x).
  { revert H. unfold View_forward.
    destruct (infer_size dim (numel x)); [|discriminate].
    intros H. now injection H as <-. }
  unfold View_forward. rewrite Hn. unfold numel.
  rewrite infer_size_own_sizes, Hd by assumption. now destruct x.
Qed.

(* ------------------------------------------------------------------ *)
(** ** What forward and the initialisation pass leave in place *)

Lemma Sequential_forward_signature training (ms : list (string * Module)) :
  Forall (fun nm => forall x r,
            signature (snd (fst (forward training (snd nm) x r))) =
            signature (snd nm)) ms ->
  forall x r,
    children_signature (snd (fst (Sequential_forward training ms x r))) =
    children_signature ms.
Proof.
  induction 1 as [|[n c] rest Hc _ IHrest]; intros x r; [reflexivity|].
  cbn [Sequential_forward]. cbn [snd] in Hc. specialize (Hc x r).
  destruct (forward training c x r) as [[o c'] r1]. cbn [fst snd] in Hc.
  destruct o as [y|].
  - specialize (IHrest y r1).
    destruct (Sequential_forward training rest y r1) as [[o' rest'] r2].
    cbn [fst snd children_signature] in *. now rewrite Hc, IHrest.
  - cbn [fst snd children_signature]. now rewrite Hc.
Qed.

(** X3. In either mode, returning or raising, a call of [forward] leaves
    the structure of the module tree as it was: the same classes, names,
    constructor arguments and order of children. *)
Theorem forward_keeps_structure :
  forall (training : bool) (m : Module) (x : tensor) (r : rng),
    signature (snd (fst (forward training m x r))) = signature m.
Proof.
  intros training m.
  induction m as [dim| |ic oc k s p w b|n w b rm rv|k s p|k s p|i o w b|cls ms IH]
    using Module_induction; intros x r; try reflexivity.
  - cbn [forward]. destruct (conv2d_size ic oc k s p (size x)); reflexivity.
  - cbn [forward]. destruct (batch_norm_size training n (size x)); [|reflexivity].
    destruct training; reflexivity.
  - cbn [forward]. destruct (pool2d_size k s p (size x)); reflexivity.
  - cbn [forward]. destruct (pool2d_size k s p (size x)); reflexivity.
  - cbn [forward]. destruct (linear_size i o (size x)); reflexivity.
  - rewrite forward_Container.
    pose proof (Sequential_forward_signature training ms IH x r) as Hseq.
    destruct (Sequential_forward training ms x r) as [[o ms'] r1].
    cbn [fst snd] in Hseq.
    assert (Hc : signature (Container cls ms') = signature (Container cls ms)).
    { rewrite !signature_Container. now rewrite Hseq. }
    destruct cls as [|dr| |]; try exact Hc.
    destruct o as [nf|]; [|exact Hc].
    destruct (Qlt_bool 0 dr); [|exact Hc].
    destruct (F_dropout nf dr training r1) as [[nf'|] r2]; exact Hc.
Qed.

Lemma init_modules_buffers (m : Module) :
  forall r : rng, buffers (fst (init_modules m r)) = buffers m.
Proof.
  induction m as [dim| |ic oc k s p w b|n w b rm rv|k s p|k s p|i o w b|cls ms IH]
    using Module_induction; intros r; try reflexivity.
  rewrite init_modules_Container. cbn [fst].
  change (children_buffers (fst (init_children ms r)) = children_buffers ms).
  revert r. induction IH as [|[n c] rest Hc _ IHrest]; intros r; [reflexivity|].
  rewrite init_children_cons. cbn [fst children_buffers].
  cbn [snd] in Hc. now rewrite Hc, IHrest.
Qed.

(** X4. The initialisation pass writes to weights and biases only: the
    structure of the tree and the running statistics of every normalisation
    layer are as before, so the sizes the tree accepts and returns are
    too. *)
Theorem init_pass_keeps_structure_and_buffers :
  forall (m : Module) (r : rng),
    signature (fst (init_modules m r)) = signature m /\
    buffers (fst (init_modules m r)) = buffers m /\
    forall training sz,
      forward_size training (fst (init_modules m r)) sz =
      forward_size training m sz.
Proof.
  intros m r. split; [apply init_modules_signature|].
  split; [apply init_modules_buffers|].
  intros training sz.
  now rewrite !forward_size_signature, init_modules_signature.
Qed.

(* ------------------------------------------------------------------ *)
(** ** The dense layer at its edges *)

Lemma batch_norm_size_mismatch (training : bool) (C : nat) (sz : list nat) :
  (forall B H W, sz <> [B; C; H; W]) -> batch_norm_size training C sz = None.
Proof.
  intros Hne. unfold batch_norm_size.
  destruct sz as [|B [|C' [|H [|W [|? ?]]]]]; try reflexivity.
  destruct (Nat.eqb_spec C' C) as [->|_]; [|reflexivity].
  exfalso. now apply (Hne B H W).
Qed.

(** X5. A dense layer built for [C] input channels raises on every input
    that is not 4-D with exactly [C] channels, in either mode, and the call
    leaves the layer (running statistics included) and the generator as
    they were. *)
Theorem DenseLayer_rejects_wrong_input :
  forall (C growth_rate bn_size : nat) (drop_rate : Q) (r0 : rng)
         (training : bool) (x : tensor) (r : rng),
    (forall B H W, size x <> [B; C; H; W]) ->
    forward training (fst (_DenseLayer C growth_rate bn_size drop_rate r0)) x r =
    (None, fst (_DenseLayer C growth_rate bn_size drop_rate r0), r).
Proof.
  intros C g bn dr r0 training x r Hne.
  destruct (_DenseLayer_children C g bn dr r0) as (w1 & w2 & w3 & w4 & ->).
  rewrite forward_Container. cbn [Sequential_forward forward].
  rewrite (batch_norm_size_mismatch training C (size x) Hne). reflexivity.
Qed.

Lemma Qlt_bool_true_of_lt (a b : Q) : (a < b)%Q -> Qlt_bool a b = true.
Proof.
  intros H. unfold Qlt_bool. apply negb_true_iff.
  destruct (Qle_bool b a) eqn:E; [|reflexivity].
  apply Qle_bool_iff in E. exfalso. exact (Qlt_not_le _ _ H E).
Qed.

(** X6. A dense layer whose [drop_rate] exceeds 1 raises on every input, in
    evaluation mode as well as in training mode: [drop_rate > 0] sends the
    new features to [F.dropout], which rejects the probability before it
    looks at the mode. *)
Theorem DenseLayer_drop_rate_above_one_raises :
  forall (C growth_rate bn_size : nat) (drop_rate : Q) (r0 : rng)
         (training : bool) (x : tensor) (r : rng),
    (1 < drop_rate)%Q ->
    fst (fst (forward training
                (fst (_DenseLayer C growth_rate bn_size drop_rate r0)) x r))
    = None.
Proof.
  intros C g bn dr r0 training x r Hdr.
  destruct (_DenseLayer_children C g bn dr r0) as (w1 & w2 & w3 & w4 & ->).
  rewrite forward_Container.
  destruct (Sequential_forward training _ x r) as [[o ms'] r1].
  destruct o as [nf|]; [|reflexivity].
  assert (Hpos : Qlt_bool 0 dr = true).
  { apply Qlt_bool_true_of_lt. apply Qlt_trans with 1%Q; [reflexivity|exact Hdr]. }
  rewrite Hpos. unfold F_dropout.
  rewrite (Qlt_bool_true_of_lt 1 dr Hdr), orb_true_r. reflexivity.
Qed.

Lemma _DenseLayer_same_children C g bn dr dr' (r0 : rng) :
  fst (_DenseLayer C g bn dr r0) =
  Container (c_DenseLayer dr) (children (fst (_DenseLayer C g bn dr' r0))).
Proof. reflexivity. Qed.

(** X7. Dropout is inactive in evaluation mode (for a probability up to 1)
    and, in both modes, for a probability that is zero or negative: the
    layer then returns what the same layer with [drop_rate = 0] returns and
    hands the generator back as it got it. *)
Theorem DenseLayer_dropout_inactive :
  forall (C growth_rate bn_size : nat) (drop_rate : Q) (r0 : rng)
         (training : bool) (x : tensor) (r : rng),
    (training = false /\ (drop_rate <= 1)%Q) \/ (drop_rate <= 0)%Q ->
    fst (fst (forward training
                (fst (_DenseLayer C growth_rate bn_size drop_rate r0)) x r))
    = fst (fst (forward training
                  (fst (_DenseLayer C growth_rate bn_size 0 r0)) x r)) /\
    snd (forward training
           (fst (_DenseLayer C growth_rate bn_size drop_rate r0)) x r) = r.
Proof.
  intros C g bn dr r0 training x r Hcase.
  remember (children (fst (_DenseLayer C g bn 0 r0))) as ms eqn:Ems.
  assert (Edr : fst (_DenseLayer C g bn dr r0) = Container (c_DenseLayer dr) ms)
    by (rewrite Ems; reflexivity).
  assert (E0 : fst (_DenseLayer C g bn 0 r0) = Container (c_DenseLayer 0) ms)
    by (rewrite Ems; reflexivity).
  assert (Hzero : forward training (Container (c_DenseLayer 0) ms) x r =
                  (fst (fst (forward training (Container (c_DenseLayer 0) ms) x r)),
                   snd (fst (forward training (Container (c_DenseLayer 0) ms) x r)),
                   r)).
  { apply forward_dropout_free. rewrite <- E0. reflexivity. }
  rewrite Edr, E0. clear Edr E0 Ems.
  rewrite !forward_Container in *.
  destruct (Sequential_forward training ms x r) as [[o ms'] r1].
  change (Qlt_bool 0 0) with false in *.
  assert (Hr : r1 = r).
  { destruct o as [nf|]; cbn [fst snd] in Hzero; now injection Hzero. }
  subst r1.
  destruct o as [nf|]; [|split; reflexivity].
  destruct (Qlt_bool 0 dr) eqn:Epos; [|split; reflexivity].
  destruct Hcase as [[-> Hle]|Hle].
  - rewrite F_dropout_eval.
    rewrite (Qlt_bool_false_of_le dr 1 Hle), (Qlt_bool_asym _ _ Epos).
    split; reflexivity.
  - rewrite (Qlt_bool_false_of_le dr 0 Hle) in Epos. discriminate.
Qed.

(* ------------------------------------------------------------------ *)
(** ** The dense block passes its input through *)

Lemma dense_layer_output (C g bn : nat) (dr : Q) (r0 : rng) (training : bool)
    (B H W : nat) (x : tensor) (r : rng) :
  size x = [B; C; H; W] ->
  0 < H -> 0 < W ->
  (training = true -> B * H * W <> 1) ->
  (dr <= 1)%Q ->
  exists out,
    fst (fst (forward training (fst (_DenseLayer C g bn dr r0)) x r)) = Some out /\
    size out = [B; C + g; H; W] /\
    (forall n c i j, n < B -> c < C -> i < H -> j < W ->
       get out [n; c; i; j] = get x [n; c; i; j]).
Proof.
  intros Hx HH HW Ht Hdr.
  destruct (_DenseLayer_forward_value C g bn dr r0) as (w1 & w2 & w3 & w4 & Hval).
  specialize (Hval training B H W x r Hx HH HW Ht Hdr). cbv zeta in Hval.
  match type of Hval with
  | _ = torch_cat x ?nf 1 => set (new_features := nf) in *
  end.
  assert (Hnf : size new_features = [B; g; H; W]).
  { subst new_features. destruct (Qlt_bool 0 dr && training); reflexivity. }
  destruct (torch_cat_channels x new_features B C g H W Hx Hnf)
    as (out & Hcat & Hout & Hleft & _).
  exists out. rewrite Hval. auto.
Qed.

Lemma dense_layers_pass_through (training : bool) (nif bn g : nat) (dr : Q)
    (B H W : nat) :
  0 < H -> 0 < W ->
  (training = true -> B * H * W <> 1) ->
  (dr <= 1)%Q ->
  forall (layers : list (string * Module)) (start : nat) (x : tensor) (r : rng),
    size x = [B; nif + start * g; H; W] ->
    (forall i, i < length layers ->
       exists r_i : rng,
         nth_error layers i =
         Some (("denselayer" ++ str (start + i + 1))%string,
               fst (_DenseLayer (nif + (start + i) * g) g bn dr r_i))) ->
    exists out,
      fst (fst (Sequential_forward training layers x r)) = Some out /\
      size out = [B; nif + (start + length layers) * g; H; W] /\
      (forall n c i j, n < B -> c < nif + start * g -> i < H -> j < W ->
         get out [n; c; i; j] = get x [n; c; i; j]).
Proof.
  intros HH HW Ht Hdr.
  induction layers as [|[name l] rest IH]; intros start x r Hx Hlayers.
  - exists x. cbn [Sequential_forward fst length]. rewrite Nat.add_0_r. auto.
  - destruct (Hlayers 0 ltac:(cbn; lia)) as (r0 & E0).
    cbn [nth_error] in E0. rewrite Nat.add_0_r in E0.
    remember (fst (_DenseLayer (nif + start * g) g bn dr r0)) as layer eqn:El.
    injection E0 as _ ->.
    destruct (dense_layer_output (nif + start * g) g bn dr r0 training B H W x r
                Hx HH HW Ht Hdr) as (out1 & Hfwd & Hsz1 & Hpre1).
    rewrite <- El in Hfwd.
    cbn [Sequential_forward].
    destruct (forward training layer x r) as [[o l'] r1].
    cbn [fst] in Hfwd. subst o.
    assert (Hsz1' : size out1 = [B; nif + S start * g; H; W]).
    { rewrite Hsz1. do 2 f_equal. lia. }
    destruct (IH (S start) out1 r1 Hsz1') as (out & Hseq & Hsz & Hpre).
    { intros i Hi. destruct (Hlayers (S i) ltac:(cbn; lia)) as (r_i & E).
      exists r_i. cbn [nth_error] in E. rewrite E.
      now replace (S start + i) with (start + S i) by lia. }
    destruct (Sequential_forward training rest out1 r1) as [[o' rest'] r2].
    cbn [fst] in Hseq. subst o'.
    exists out. cbn [fst length]. split; [reflexivity|]. split.
    + rewrite Hsz. do 2 f_equal. f_equal. lia.
    + intros n c i j Hn Hc Hi Hj.
      rewrite Hpre by (try assumption; lia). now apply Hpre1.
Qed.

(** X8. A dense block never drops what it is given: on an accepted input
    with [num_input_features] channels (a non-empty batch and positive
    channel count, growth rate and bottleneck factor), the first
    [num_input_features] channels of the block's output are the input,
    entry for entry, however many layers the block has. *)
Theorem DenseBlock_passes_input_through :
  forall (num_layers num_input_features bn_size growth_rate : nat) (drop_rate : Q)
         (r0 : rng) (training : bool) (B H W : nat) (x : tensor) (r : rng),
    size x = [B; num_input_features; H; W] ->
    0 < B -> 0 < num_input_features -> 0 < H -> 0 < W ->
    0 < growth_rate -> 0 < bn_size ->
    (training = true -> B * H * W <> 1) ->
    (drop_rate <= 1)%Q ->
    exists out,
      fst (fst (forward training
                  (fst (_DenseBlock num_layers num_input_features bn_size
                                    growth_rate drop_rate r0)) x r)) = Some out /\
      size out = [B; num_input_features + num_layers * growth_rate; H; W] /\
      (forall n c i j, n < B -> c < num_input_features -> i < H -> j < W ->
         get out [n; c; i; j] = get x [n; c; i; j]).
Proof.
  intros N nif bn g dr r0 training B H W x r Hx _ _ HH HW _ _ Ht Hdr.
  destruct (_DenseBlock_loop_spec nif bn g dr N 0 [] r0)
    as (layers & Hfst & Hlen & Hnth).
  { intros name []. }
  assert (Hblock : fst (_DenseBlock N nif bn g dr r0) = Container c_DenseBlock layers).
  { unfold _DenseBlock, bind, ret. cbn [fst]. now rewrite Hfst. }
  rewrite Hblock, forward_Container.
  destruct (dense_layers_pass_through training nif bn g dr B H W HH HW Ht Hdr
              layers 0 x r) as (out & Hseq & Hsz & Hpre).
  { now rewrite Nat.mul_0_l, Nat.add_0_r. }
  { intros i Hi. rewrite Hlen in Hi. exact (Hnth i Hi). }
  destruct (Sequential_forward training layers x r) as [[o ms'] r1].
  cbn [fst] in Hseq. subst o.
  exists out. cbn [fst]. split; [reflexivity|]. split.
  - rewrite Hsz, Hlen. reflexivity.
  - intros n c i j Hn Hc Hi Hj. apply Hpre; try assumption.
    now rewrite Nat.mul_0_l, Nat.add_0_r.
Qed.

(* ------------------------------------------------------------------ *)
(** ** Sizes through an arbitrary configuration *)

Lemma conv_out_pointwise_eq (n : nat) :
  conv_out n 1 1 0 = if 0 <? n then Some n else None.
Proof.
  destruct (Nat.ltb_spec 0 n) as [Hn|Hn]; [now apply conv_out_pointwise|].
  assert (n = 0) by lia. subst n. reflexivity.
Qed.

Lemma conv_out_same_padding_eq (n : nat) :
  conv_out n 3 1 1 = if 0 <? n then Some n else None.
Proof.
  destruct (Nat.ltb_spec 0 n) as [Hn|Hn]; [now apply conv_out_same_padding|].
  assert (n = 0) by lia. subst n. reflexivity.
Qed.

Lemma pool_out_halving_eq (n : nat) :
  pool_out n 3 2 1 = if 0 <? n then Some (halve n) else None.
Proof.
  destruct (Nat.ltb_spec 0 n) as [Hn|Hn]; [now apply pool_out_halving|].
  assert (n = 0) by lia. subst n. reflexivity.
Qed.

Lemma pool_out_window2_eq (n : nat) :
  pool_out n 2 1 0 = if 2 <=? n then Some (n - 1) else None.
Proof.
  unfold pool_out, conv_out.
  change (2 =? 0) with false. change (2 <? 2 * 0) with false.
  change (1 =? 0) with false. cbn [orb].
  destruct (Nat.leb_spec 2 n) as [Hn|Hn].
  - destruct (Nat.ltb_spec (n + 2 * 0) 2) as [C|_]; [lia|].
    rewrite Nat.div_1_r. f_equal. lia.
  - destruct (Nat.ltb_spec (n + 2 * 0) 2) as [_|C]; [reflexivity|lia].
Qed.

Lemma halve_pos (n : nat) : 0 < halve n.
Proof. unfold halve. lia. Qed.

Lemma iter_halve_pos (k n : nat) : 0 < n -> 0 < Nat.iter k halve n.
Proof.
  intros Hn. destruct k as [|k]; [exact Hn|].
  change (Nat.iter (S k) halve n) with (halve (Nat.iter k halve n)).
  apply halve_pos.
Qed.

Lemma iter_halve_shift (k n : nat) :
  Nat.iter k halve (halve n) = Nat.iter (S k) halve n.
Proof.
  induction k as [|k IH]; [reflexivity|].
  change (Nat.iter (S k) halve (halve n))
    with (halve (Nat.iter k halve (halve n))).
  now rewrite IH.
Qed.

(** The width 21 left by the stem is used up after five transitions. *)
Lemma iter_halve_width (k : nat) : 5 <= k -> Nat.iter k halve 21 = 1.
Proof.
  intros Hk. replace k with ((k - 5) + 5) by lia.
  rewrite Nat.iter_add. change (Nat.iter 5 halve 21) with 1.
  induction (k - 5) as [|j IH]; [reflexivity|].
  change (Nat.iter (S j) halve 1) with (halve (Nat.iter j halve 1)).
  now rewrite IH.
Qed.

Lemma batch_norm_size_only training n sz :
  returns_only (batch_norm_size training n sz) sz.
Proof.
  unfold batch_norm_size.
  destruct sz as [|B [|C [|H [|W [|? ?]]]]]; try exact I.
  destruct ((C =? n) && negb (training && (B * H * W =? 1))); [reflexivity|exact I].
Qed.

Lemma spec_dense_layer_size_only training C g bn dr B H W :
  returns_only (signature_size training (spec_dense_layer C g bn dr) [B; C; H; W])
               [B; C + g; H; W].
Proof.
  unfold spec_dense_layer. rewrite signature_size_Container.
  cbn [signatures_size signature_size].
  pose proof (batch_norm_size_only training C [B; C; H; W]) as H1.
  destruct (batch_norm_size training C [B; C; H; W]) as [s1|]; [|exact I].
  unfold returns_only in H1. subst s1.
  cbn [conv2d_size fst snd]. rewrite Nat.eqb_refl, !conv_out_pointwise_eq.
  destruct (0 <? H); [|exact I]. destruct (0 <? W); [|exact I].
  pose proof (batch_norm_size_only training (bn * g) [B; bn * g; H; W]) as H2.
  destruct (batch_norm_size training (bn * g) [B; bn * g; H; W]) as [s2|]; [|exact I].
  unfold returns_only in H2. subst s2.
  cbn [conv2d_size fst snd]. rewrite Nat.eqb_refl, !conv_out_same_padding_eq.
  destruct (0 <? H); [|exact I]. destruct (0 <? W); [|exact I].
  cbv zeta.
  destruct (Qlt_bool 0 dr && (Qlt_bool dr 0 || Qlt_bool 1 dr)); [exact I|].
  rewrite cat_size_channels. reflexivity.
Qed.

Lemma spec_dense_block_size_only training N nif bn g dr B H W :
  returns_only (signature_size training (spec_dense_block N nif bn g dr)
                               [B; nif; H; W])
               [B; nif + N * g; H; W].
Proof.
  unfold spec_dense_block. rewrite signature_size_Container. cbv zeta.
  assert (Hgen : forall start,
    returns_only
      (signatures_size training
         (map (fun i => (("denselayer" ++ str (i + 1))%string,
                         spec_dense_layer (nif + i * g) g bn dr))
              (seq start N))
         [B; nif + start * g; H; W])
      [B; nif + (start + N) * g; H; W]).
  { induction N as [|N IH]; intros start.
    - cbn. now rewrite Nat.add_0_r.
    - cbn [seq map signatures_size].
      pose proof (spec_dense_layer_size_only training (nif + start * g) g bn dr B H W)
        as Hl.
      destruct (signature_size training (spec_dense_layer (nif + start * g) g bn dr)
                               [B; nif + start * g; H; W]) as [s|]; [|exact I].
      unfold returns_only in Hl. subst s.
      replace (nif + start * g + g) with (nif + S start * g) by lia.
      replace (start + S N) with (S start + N) by lia. apply IH. }
  specialize (Hgen 0). rewrite Nat.mul_0_l, Nat.add_0_r in Hgen.
  cbn [Nat.add] in Hgen.
  destruct (signatures_size training _ [B; nif; H; W]); exact Hgen.
Qed.

Lemma spec_transition_size_only training a b B H W :
  returns_only (signature_size training (spec_transition a b) [B; a; H; W])
               [B; b; halve H; halve W].
Proof.
  unfold spec_transition. rewrite signature_size_Container. cbv zeta.
  cbn [signatures_size signature_size].
  pose proof (batch_norm_size_only training a [B; a; H; W]) as H1.
  destruct (batch_norm_size training a [B; a; H; W]) as [s1|]; [|exact I].
  unfold returns_only in H1. subst s1.
  cbn [conv2d_size fst snd]. rewrite Nat.eqb_refl, !conv_out_pointwise_eq.
  destruct (0 <? H) eqn:EH; [|exact I]. destruct (0 <? W) eqn:EW; [|exact I].
  cbn [pool2d_size fst snd]. rewrite !pool_out_halving_eq, EH, EW. reflexivity.
Qed.

Lemma spec_stages_size_only training g bn dr B :
  forall cfg k nf H W,
    returns_only
      (signatures_size training (fst (spec_stages g bn dr cfg k nf)) [B; nf; H; W])
      [B; snd (spec_stages g bn dr cfg k nf);
       Nat.iter (length cfg - 1) halve H; Nat.iter (length cfg - 1) halve W].
Proof.
  induction cfg as [|L [|L' cfg'] IH]; intros k nf H W.
  - reflexivity.
  - cbn [spec_stages fst snd signatures_size length Nat.sub Nat.iter nat_rect].
    pose proof (spec_dense_block_size_only training L nf bn g dr B H W) as Hb.
    destruct (signature_size training (spec_dense_block L nf bn g dr) [B; nf; H; W])
      as [s|]; [|exact I].
    unfold returns_only in Hb. subst s. reflexivity.
  - change (spec_stages g bn dr (L :: L' :: cfg') k nf) with
      (let nf1 := nf + L * g in
       let more := spec_stages g bn dr (L' :: cfg') (S k) (nf1 / 2) in
       ((("denseblock" ++ str k)%string, spec_dense_block L nf bn g dr)
        :: (("transition" ++ str k)%string, spec_transition nf1 (nf1 / 2))
        :: fst more, snd more)).
    cbv zeta. cbn [fst snd signatures_size].
    pose proof (spec_dense_block_size_only training L nf bn g dr B H W) as Hb.
    destruct (signature_size training (spec_dense_block L nf bn g dr) [B; nf; H; W])
      as [s|]; [|exact I].
    unfold returns_only in Hb. subst s.
    pose proof (spec_transition_size_only training (nf + L * g) ((nf + L * g) / 2)
                  B H W) as Ht.
    destruct (signature_size training
                (spec_transition (nf + L * g) ((nf + L * g) / 2))
                [B; nf + L * g; H; W]) as [s|]; [|exact I].
    unfold returns_only in Ht. subst s.
    specialize (IH (S k) ((nf + L * g) / 2) (halve H) (halve W)).
    destruct (signatures_size training _ [B; (nf + L * g) / 2; halve H; halve W])
      as [s|]; [|exact I].
    unfold returns_only in IH |- *. rewrite IH.
    cbn [length Nat.sub]. rewrite Nat.sub_0_r, !iter_halve_shift. reflexivity.
Qed.

Lemma spec_stem_size_only training nif sz :
  returns_only (signatures_size training (spec_stem nif) sz)
               [prod sz / (2 * 129 * 21); nif; 65; 21].
Proof.
  unfold spec_stem. cbn [signatures_size signature_size].
  change [-1; 2; 129; 21]%Z with ((-1)%Z :: map Z.of_nat [2; 129; 21]).
  rewrite infer_size_wildcard_lead.
  change (prod [2; 129; 21]) with (2 * 129 * 21).
  destruct ((0 <? 2 * 129 * 21) && (prod sz mod (2 * 129 * 21) =? 0)); [|exact I].
  cbv beta iota.
  change (conv2d_size 2 nif (3, 3) (1, 1) (1, 1)
            [prod sz / (2 * 129 * 21); 2; 129; 21])
    with (Some [prod sz / (2 * 129 * 21); nif; 129; 21]).
  cbv beta iota.
  match goal with
  | |- context [batch_norm_size ?t ?n ?s] =>
      pose proof (batch_norm_size_only t n s) as H1;
      destruct (batch_norm_size t n s) as [s1|]; [|exact I]
  end.
  unfold returns_only in H1. subst s1. reflexivity.
Qed.

(** X9. A network built from six or more blocks can never complete a
    forward pass, whatever the other construction arguments, the input, the
    flag and the mode: five transitions shrink the width 21 of the stem's
    output to 1, which is less than the window of [pool.f]. *)
Theorem six_blocks_never_run :
  forall x_dim y_dim growth_rate block_config num_init_features bn_size
         drop_rate eps (r0 : rng) (training : bool) (x : tensor)
         (softmax : bool) (r : rng),
    6 <= length block_config ->
    fst (fst (DenseNet_forward training
                (fst (DenseNet x_dim y_dim growth_rate block_config
                               num_init_features bn_size drop_rate eps r0))
                x softmax r)) = None.
Proof.
  intros xd yd g cfg nif bn dr e r0 training x softmax r Hlen.
  set (net := fst (DenseNet xd yd g cfg nif bn dr e r0)).
  assert (Hsize : forward_size training (hidden net) (size x) = None).
  { rewrite forward_size_signature. subst net. rewrite DenseNet_signature.
    rewrite signature_size_Container. cbv zeta.
    rewrite signatures_size_app.
    pose proof (spec_stem_size_only training nif (size x)) as Hstem.
    destruct (signatures_size training (spec_stem nif) (size x)) as [s|];
      [|reflexivity].
    unfold returns_only in Hstem. subst s.
    rewrite signatures_size_app.
    pose proof (spec_stages_size_only training g bn dr
                  (prod (size x) / (2 * 129 * 21)) cfg 1 nif 65 21) as Hst.
    destruct (signatures_size training (fst (spec_stages g bn dr cfg 1 nif)) _)
      as [s|]; [|reflexivity].
    unfold returns_only in Hst. subst s.
    rewrite (iter_halve_width (length cfg - 1)) by lia.
    unfold spec_head. cbn [signatures_size signature_size].
    match goal with
    | |- context [batch_norm_size ?t ?n ?s] =>
        pose proof (batch_norm_size_only t n s) as Hn;
        destruct (batch_norm_size t n s) as [s'|]; [|reflexivity]
    end.
    unfold returns_only in Hn. subst s'.
    cbn [pool2d_size fst snd]. rewrite !pool_out_window2_eq.
    change (2 <=? 1) with false.
    destruct (2 <=? Nat.iter (length cfg - 1) halve 65); reflexivity. }
  pose proof (forward_size_spec training (hidden net) x r) as Hspec.
  rewrite Hsize in Hspec. unfold DenseNet_forward.
  destruct (forward training (hidden net) x r) as [[o h'] r'].
  cbn [fst] in Hspec. destruct o; [discriminate|reflexivity].
Qed.

Lemma batch_guard_of_two (B H W : nat) : 2 <= B -> 0 < H -> 0 < W -> B * H * W <> 1.
Proof. intros HB HH HW. nia. Qed.

Lemma spec_stages_size training g bn dr B :
  (training = true -> 2 <= B) -> (dr <= 1)%Q ->
  forall cfg k nf H W,
    0 < H -> 0 < W ->
    signatures_size training (fst (spec_stages g bn dr cfg k nf)) [B; nf; H; W] =
    Some [B; snd (spec_stages g bn dr cfg k nf);
          Nat.iter (length cfg - 1) halve H; Nat.iter (length cfg - 1) halve W].
Proof.
  intros HB Hdr.
  assert (Hguard : forall H W, 0 < H -> 0 < W -> training = true -> B * H * W <> 1).
  { intros H W HH HW Ht. apply batch_guard_of_two; auto. }
  induction cfg as [|L [|L' cfg'] IH]; intros k nf H W HH HW.
  - reflexivity.
  - cbn [spec_stages fst snd signatures_size length Nat.sub Nat.iter nat_rect].
    rewrite spec_dense_block_size by auto. reflexivity.
  - change (spec_stages g bn dr (L :: L' :: cfg') k nf) with
      (let nf1 := nf + L * g in
       let more := spec_stages g bn dr (L' :: cfg') (S k) (nf1 / 2) in
       ((("denseblock" ++ str k)%string, spec_dense_block L nf bn g dr)
        :: (("transition" ++ str k)%string, spec_transition nf1 (nf1 / 2))
        :: fst more, snd more)).
    cbv zeta. cbn [fst snd signatures_size].
    rewrite spec_dense_block_size by auto.
    rewrite spec_transition_size by auto.
    change ((H - 1) / 2 + 1) with (halve H).
    change ((W - 1) / 2 + 1) with (halve W).
    rewrite IH by apply halve_pos.
    cbn [length Nat.sub]. rewrite Nat.sub_0_r, !iter_halve_shift. reflexivity.
Qed.

Lemma spec_stem_size training nif B :
  signatures_size training (spec_stem nif) [B; 2 * 129 * 21] = Some [B; nif; 65; 21].
Proof.
  unfold spec_stem. cbn [signatures_size signature_size].
  replace (prod [B; 2 * 129 * 21]) with (B * prod [2; 129; 21])
    by (unfold prod; cbn [fold_right]; ring).
  change [-1; 2; 129; 21]%Z with ((-1)%Z :: map Z.of_nat [2; 129; 21]).
  rewrite infer_size_batch by (apply Nat.ltb_lt; reflexivity).
  cbn [conv2d_size fst snd]. rewrite Nat.eqb_refl.
  rewrite !conv_out_same_padding by (apply Nat.ltb_lt; reflexivity).
  rewrite batch_norm_size_ok
    by (intros _; apply batch_guard; apply Nat.leb_le; reflexivity).
  reflexivity.
Qed.

(** The size computation of [self.hidden] on [B] flat inputs, for every
    configuration. *)
Lemma any_config_size training g bn dr cfg nif y B :
  (training = true -> 2 <= B) -> (dr <= 1)%Q ->
  let C := snd (spec_stages g bn dr cfg 1 nif) in
  let Hf := Nat.iter (length cfg - 1) halve 65 in
  let Wf := Nat.iter (length cfg - 1) halve 21 in
  let count := prod [B; C; Hf - 1; Wf - 1] in
  signatures_size training
    (spec_stem nif ++ fst (spec_stages g bn dr cfg 1 nif) ++ spec_head C (195 * 4) y)
    [B; 2 * 129 * 21] =
  if (2 <=? Hf) && (2 <=? Wf) && (count mod 780 =? 0)
  then Some [count / 780; y] else None.
Proof.
  intros HB Hdr C Hf Wf count.
  rewrite signatures_size_app, spec_stem_size.
  rewrite signatures_size_app.
  rewrite (spec_stages_size training g bn dr B HB Hdr cfg 1 nif 65 21)
    by (apply Nat.ltb_lt; reflexivity).
  fold C Hf Wf.
  unfold spec_head. cbn [signatures_size signature_size].
  rewrite batch_norm_size_ok.
  2:{ intros Ht. apply batch_guard_of_two; [auto| |]; apply iter_halve_pos;
      apply Nat.ltb_lt; reflexivity. }
  cbn [pool2d_size fst snd]. rewrite !pool_out_window2_eq.
  destruct (2 <=? Hf); [|reflexivity]. destruct (2 <=? Wf); [|reflexivity].
  cbn [andb]. fold count.
  rewrite infer_size_wildcard_row.
  change (195 * 4) with 780. change (0 <? 780) with true. cbn [andb].
  destruct (count mod 780 =? 0); [|reflexivity].
  unfold linear_size. cbn [rev app]. now rewrite Nat.eqb_refl.
Qed.

(** X10. For every configuration with positive counts (growth rate,
    bottleneck factor, initial features, labels, and at least one layer in
    every block, so that no convolution is left without channels), a
    forward pass on [B >= 1] flat inputs of 2 x 129 x 21 entries (in
    training mode: at least two of them) returns exactly when the feature
    map that reaches [pool.f] is at least 2 x 2 and the number of entries
    after [pool.f] is a multiple of 780; the result then has that number
    divided by 780 rows of [y_dim] scores.  The channel count there is the
    [num_features] the constructor has tracked; height and width are 65 and
    21 halved once per transition. *)
Theorem forward_returns_exactly_when :
  forall x_dim y_dim growth_rate block_config num_init_features bn_size
         drop_rate eps (r0 : rng) (training : bool) (B : nat) (x : tensor)
         (r : rng),
    size x = [B; 2 * 129 * 21] ->
    1 <= B ->
    (training = true -> 2 <= B) ->
    0 < growth_rate -> 0 < bn_size -> 0 < num_init_features -> 0 < y_dim ->
    Forall (fun num_layers => 0 < num_layers) block_config ->
    (drop_rate <= 1)%Q ->
    let C := snd (spec_stages growth_rate bn_size drop_rate block_config 1
                              num_init_features) in
    let Hf := Nat.iter (length block_config - 1) halve 65 in
    let Wf := Nat.iter (length block_config - 1) halve 21 in
    let count := prod [B; C; Hf - 1; Wf - 1] in
    match fst (fst (DenseNet_forward training
                      (fst (DenseNet x_dim y_dim growth_rate block_config
                                     num_init_features bn_size drop_rate eps r0))
                      x false r)) with
    | Some out =>
        2 <= Hf /\ 2 <= Wf /\ count mod 780 = 0 /\ size out = [count / 780; y_dim]
    | None => Hf < 2 \/ Wf < 2 \/ count mod 780 <> 0
    end.
Proof.
  intros xd yd g cfg nif bn dr e r0 training B x r Hx _ HB _ _ _ _ _ Hdr
         C Hf Wf count.
  set (net := fst (DenseNet xd yd g cfg nif bn dr e r0)).
  assert (Hsize : forward_size training (hidden net) (size x) =
                  if (2 <=? Hf) && (2 <=? Wf) && (count mod 780 =? 0)
                  then Some [count / 780; yd] else None).
  { rewrite forward_size_signature. subst net. rewrite DenseNet_signature.
    rewrite signature_size_Container. cbv zeta. rewrite Hx.
    apply (any_config_size training g bn dr cfg nif yd B HB Hdr). }
  pose proof (forward_size_spec training (hidden net) x r) as Hspec.
  rewrite Hsize in Hspec. unfold DenseNet_forward.
  destruct (forward training (hidden net) x r) as [[o h'] r'].
  cbn [fst] in Hspec |- *.
  destruct (Nat.leb_spec 2 Hf) as [H1|H1];
    destruct (Nat.leb_spec 2 Wf) as [H2|H2];
    destruct (Nat.eqb_spec (count mod 780) 0) as [H3|H3];
    cbn [andb] in Hspec;
    destruct o as [out|]; cbn [option_map fst] in Hspec |- *;
    try discriminate; try (injection Hspec as Hs); auto.
Qed.

(* ------------------------------------------------------------------ *)
(** ** The reshape at the entrance *)

Lemma signature_View_inv (m : Module) (dim : list Z) :
  signature m = SView dim -> m = View dim.
Proof. destruct m; try discriminate. cbn. now intros [= ->]. Qed.

(** The first child of [self.hidden] is the reshape [view.i]. *)
Lemma DenseNet_hidden_starts_with_view x y g cfg nif bn dr e (r0 : rng) :
  exists rest,
    hidden (fst (DenseNet x y g cfg nif bn dr e r0)) =
    Container cSequential (("view.i", View [-1; 2; 129; 21]%Z) :: rest).
Proof.
  destruct (signature_Container_inv _ _ _ (DenseNet_signature x y g cfg nif bn dr e r0))
    as (ms & Hms & Hsig).
  destruct ms as [|[n c] rest]; [discriminate|].
  cbn [spec_stem app children_signature] in Hsig.
  injection Hsig as -> Hc _. apply signature_View_inv in Hc. subst c.
  exists rest. exact Hms.
Qed.

Lemma infer_size_stem (n : nat) :
  infer_size [-1; 2; 129; 21]%Z n =
  if n mod (2 * 129 * 21) =? 0 then Some [n / (2 * 129 * 21); 2; 129; 21] else None.
Proof.
  change [-1; 2; 129; 21]%Z with ((-1)%Z :: map Z.of_nat [2; 129; 21]).
  rewrite infer_size_wildcard_lead.
  change (prod [2; 129; 21]) with (2 * 129 * 21).
  change (0 <? 2 * 129 * 21) with true. reflexivity.
Qed.

(** X11. Whatever the configuration, an input whose element count is not a
    multiple of 2 x 129 x 21 makes [DenseNet.forward] raise at [view.i],
    before any layer has run: the network (running statistics included) and
    the generator are as before the call. *)
Theorem forward_rejects_at_the_stem :
  forall x_dim y_dim growth_rate block_config num_init_features bn_size
         drop_rate eps (r0 : rng) (training : bool) (x : tensor)
         (softmax : bool) (r : rng),
    numel x mod (2 * 129 * 21) <> 0 ->
    let net := fst (DenseNet x_dim y_dim growth_rate block_config
                             num_init_features bn_size drop_rate eps r0) in
    DenseNet_forward training net x softmax r = (None, net, r).
Proof.
  intros xd yd g cfg nif bn dr e r0 training x softmax r Hmod net.
  destruct (DenseNet_hidden_starts_with_view xd yd g cfg nif bn dr e r0)
    as (rest & Hhidden).
  fold net in Hhidden. unfold DenseNet_forward. rewrite Hhidden.
  rewrite forward_Container. cbn [Sequential_forward forward].
  unfold View_forward. rewrite infer_size_stem.
  destruct (Nat.eqb_spec (numel x mod (2 * 129 * 21)) 0) as [E|_]; [contradiction|].
  rewrite <- Hhidden. now destruct net.
Qed.

(** The size computation of the default [self.hidden], on any input
    size. *)
Lemma default_hidden_size training x_dim y_dim bn_size drop_rate eps (r0 : rng)
    (sz : list nat) :
  (drop_rate <= 1)%Q ->
  forward_size training
    (hidden (fst (DenseNet x_dim y_dim 4 [6; 12; 24; 48; 16] 64 bn_size
                           drop_rate eps r0))) sz =
  if prod sz mod (2 * 129 * 21) =? 0
  then Some [prod sz / (2 * 129 * 21); y_dim] else None.
Proof.
  intros Hdr. set (K := 2 * 129 * 21).
  rewrite forward_size_signature, DenseNet_signature.
  rewrite signature_size_Container. cbv zeta.
  replace (snd (spec_stages 4 bn_size drop_rate [6; 12; 24; 48; 16] 1 64))
    with 195 by (vm_compute; reflexivity).
  pose proof (default_output_size training bn_size drop_rate y_dim (prod sz / K) Hdr)
    as Hq.
  unfold spec_stem in Hq |- *. cbn [app signatures_size signature_size] in Hq |- *.
  rewrite infer_size_stem. fold K.
  destruct (Nat.eqb_spec (prod sz mod K) 0) as [E|_]; [|reflexivity].
  rewrite <- Hq.
  replace (prod [prod sz / K; 2 * 129 * 21]) with (prod sz / K * prod [2; 129; 21])
    by (unfold prod; cbn [fold_right]; ring).
  change [-1; 2; 129; 21]%Z with ((-1)%Z :: map Z.of_nat [2; 129; 21]).
  rewrite infer_size_batch by (apply Nat.ltb_lt; reflexivity).
  reflexivity.
Qed.

(** X12. When the default network returns, the element count of its
    input is a multiple of 2 x 129 x 21 and the result has one row of
    [y_dim] scores per 2 x 129 x 21 entries.  It does return, in either
    mode, on every batch of [B >= 1] flat inputs of 2 x 129 x 21 entries; in
    training mode a single input is enough. *)
Theorem default_forward_rows :
  forall x_dim y_dim bn_size drop_rate eps (r0 : rng) (training : bool)
         (x : tensor) (r : rng),
    (drop_rate <= 1)%Q ->
    let net := fst (DenseNet x_dim y_dim 4 [6; 12; 24; 48; 16] 64 bn_size
                             drop_rate eps r0) in
    (forall out,
       fst (fst (DenseNet_forward training net x false r)) = Some out ->
       numel x mod (2 * 129 * 21) = 0 /\
       size out = [numel x / (2 * 129 * 21); y_dim]) /\
    (forall B,
       size x = [B; 2 * 129 * 21] ->
       1 <= B -> 0 < bn_size -> 0 < y_dim ->
       exists out,
         fst (fst (DenseNet_forward training net x false r)) = Some out /\
         size out = [B; y_dim]).
Proof.
  intros xd yd bn dr e r0 training x r Hdr net.
  pose proof (default_hidden_size training xd yd bn dr e r0 (size x) Hdr) as Hsize.
  fold net in Hsize. fold (numel x) in Hsize.
  pose proof (forward_size_spec training (hidden net) x r) as Hspec.
  rewrite Hsize in Hspec. unfold DenseNet_forward.
  destruct (forward training (hidden net) x r) as [[o h'] r'].
  cbn [fst] in Hspec |- *. split.
  - intros out Hout.
    destruct o as [out'|]; [|discriminate]. injection Hout as ->.
    destruct (Nat.eqb_spec (numel x mod (2 * 129 * 21)) 0) as [E|E];
      cbn [option_map] in Hspec; [|discriminate].
    injection Hspec as Hs. split; [exact E|exact Hs].
  - intros B Hx _ _ _.
    assert (Hn : numel x = B * (2 * 129 * 21)).
    { unfold numel. rewrite Hx. unfold prod. cbn [fold_right]. lia. }
    rewrite Hn, Nat.Div0.mod_mul, Nat.div_mul in Hspec by discriminate.
    change (0 =? 0) with true in Hspec. cbv iota in Hspec.
    destruct o as [out|]; [|discriminate].
    cbn [option_map] in Hspec. injection Hspec as Hs.
    exists out. split; [reflexivity|exact Hs].
Qed.

(* ------------------------------------------------------------------ *)
(** ** Nothing is overwritten during assembly *)

Lemma spec_stages_length g bn dr :
  forall cfg k nf, length (fst (spec_stages g bn dr cfg k nf)) = 2 * length cfg - 1.
Proof.
  induction cfg as [|L [|L' cfg'] IH]; intros k nf.
  - reflexivity.
  - reflexivity.
  - change (spec_stages g bn dr (L :: L' :: cfg') k nf) with
      (let nf1 := nf + L * g in
       let more := spec_stages g bn dr (L' :: cfg') (S k) (nf1 / 2) in
       ((("denseblock" ++ str k)%string, spec_dense_block L nf bn g dr)
        :: (("transition" ++ str k)%string, spec_transition nf1 (nf1 / 2))
        :: fst more, snd more)).
    cbv zeta. cbn [fst length]. rewrite IH. cbn [length]. lia.
Qed.

Lemma stage_name_form (n : nat) :
  forall (k count : nat) (name : string),
    In name (flat_map (fun j => if j <? n
                                then [("denseblock" ++ str j)%string;
                                      ("transition" ++ str j)%string]
                                else [("denseblock" ++ str j)%string])
                      (seq k count)) ->
    exists j, k <= j /\
      (name = ("denseblock" ++ str j)%string \/
       name = ("transition" ++ str j)%string).
Proof.
  intros k count. revert k.
  induction count as [|count IH]; intros k name Hin; [destruct Hin|].
  cbn [seq flat_map] in Hin. apply in_app_or in Hin. destruct Hin as [Hin|Hin].
  - exists k. split; [lia|].
    destruct (k <? n); cbn in Hin; intuition.
  - destruct (IH (S k) name Hin) as (j & Hj & Hname).
    exists j. split; [lia|exact Hname].
Qed.

Lemma stage_names_NoDup (n : nat) :
  forall count k,
    NoDup (flat_map (fun j => if j <? n
                              then [("denseblock" ++ str j)%string;
                                    ("transition" ++ str j)%string]
                              else [("denseblock" ++ str j)%string])
                    (seq k count)).
Proof.
  induction count as [|count IH]; intros k; [constructor|].
  cbn [seq flat_map].
  assert (Hfresh : forall name,
            name = ("denseblock" ++ str k)%string \/
            name = ("transition" ++ str k)%string ->
            ~ In name (flat_map (fun j => if j <? n
                                          then [("denseblock" ++ str j)%string;
                                                ("transition" ++ str j)%string]
                                          else [("denseblock" ++ str j)%string])
                                (seq (S k) count))).
  { intros name Hname Hin.
    destruct (stage_name_form n (S k) count name Hin) as (j & Hj & Hform).
    destruct Hname as [-> | ->]; destruct Hform as [E|E]; cbn in E;
      try discriminate; injection E as E; apply str_inj in E; lia. }
  destruct (k <? n); cbn [app].
  - constructor.
    + intros [E|Hin]; [cbn in E; discriminate|].
      revert Hin. apply Hfresh. now left.
    + constructor; [apply Hfresh; now right|apply IH].
  - constructor; [apply Hfresh; now left|apply IH].
Qed.

(** X13. [DenseNet.__init__] never replaces a module it has registered:
    the names under [self.hidden] are pairwise distinct, and there are
    5 + (2 x len(block_config) - 1) + 5 of them (10 for an empty
    [block_config]). *)
Theorem DenseNet_registers_every_module :
  forall x_dim y_dim growth_rate block_config num_init_features bn_size
         drop_rate eps (r0 : rng),
    let hs := children (hidden (fst (DenseNet x_dim y_dim growth_rate block_config
                                              num_init_features bn_size
                                              drop_rate eps r0))) in
    NoDup (map fst hs) /\
    length hs = 5 + (2 * length block_config - 1) + 5.
Proof.
  intros xd yd g cfg nif bn dr e r0 hs.
  destruct (signature_Container_inv _ _ _ (DenseNet_signature xd yd g cfg nif bn dr e r0))
    as (ms & Hms & Hsig).
  assert (Hhs : hs = ms) by (subst hs; now rewrite Hms).
  rewrite Hhs. clear Hhs hs. split.
  - rewrite <- children_signature_names, Hsig, !map_app, spec_stages_names.
    change (map fst (spec_stem nif)) with stem_names.
    change (map fst (spec_head (snd (spec_stages g bn dr cfg 1 nif)) (195 * 4) yd))
      with head_names.
    set (stage_names := flat_map _ (seq 1 (length cfg))).
    assert (Hform : forall name, In name stage_names ->
              exists j, name = ("denseblock" ++ str j)%string \/
                        name = ("transition" ++ str j)%string).
    { intros name Hin.
      destruct (stage_name_form _ _ _ _ Hin) as (j & _ & Hj). now exists j. }
    assert (Hstages : NoDup stage_names) by apply stage_names_NoDup.
    assert (Hhead : NoDup head_names).
    { unfold head_names. repeat constructor; cbn; intuition discriminate. }
    assert (Hstem : NoDup stem_names).
    { unfold stem_names. repeat constructor; cbn; intuition discriminate. }
    assert (Hmid : NoDup (stage_names ++ head_names)).
    { apply NoDup_app; [exact Hstages|exact Hhead|].
      intros name Hin Hh. destruct (Hform name Hin) as (j & [-> | ->]);
        cbn in Hh; intuition discriminate. }
    apply NoDup_app; [exact Hstem|exact Hmid|].
    intros name Hs Hin. apply in_app_or in Hin. destruct Hin as [Hin|Hin].
    + destruct (Hform name Hin) as (j & [-> | ->]); cbn in Hs; intuition discriminate.
    + cbn in Hs, Hin.
      repeat (destruct Hs as [<-|Hs]; [intuition discriminate|]). destruct Hs.
  - assert (Hlen : length ms = length (children_signature ms)).
    { clear. induction ms as [|[n c] ms IH]; [reflexivity|].
      cbn [children_signature length]. now rewrite IH. }
    rewrite Hlen, Hsig, !length_app, spec_stages_length. reflexivity.
Qed.

(* ------------------------------------------------------------------ *)
(** ** [DenseNet.test] *)

Lemma last_cons {A : Type} (l : list A) :
  forall (a d : A), last (a :: l) d = last l a.
Proof.
  induction l as [|b l IH]; intros a d; [reflexivity|].
  change (last (a :: b :: l) d) with (last (b :: l) d).
  now rewrite (IH b d), (IH b a).
Qed.

(** The loop of [test] steps through the children as
    [nn.Sequential.forward] does and prints the size of every tensor it
    gets back. *)
Lemma test_loop_spec training :
  forall (hs : list (string * Module)) (xs : tensor) (r : rng)
         (printed : list (list nat)),
  exists trace,
    test_loop training hs xs r printed =
    (printed ++ trace,
     match fst (fst (Sequential_forward training hs xs r)) with
     | Some _ => true
     | None => false
     end,
     snd (fst (Sequential_forward training hs xs r)),
     snd (Sequential_forward training hs xs r)) /\
    match fst (fst (Sequential_forward training hs xs r)) with
    | Some out => length trace = length hs /\ last trace (size xs) = size out
    | None => length trace < length hs
    end.
Proof.
  induction hs as [|[n h] rest IH]; intros xs r printed.
  - exists []. cbn [test_loop Sequential_forward fst snd length last].
    rewrite app_nil_r. auto.
  - cbn [test_loop Sequential_forward].
    destruct (forward training h xs r) as [[o h'] r1].
    destruct o as [xs'|].
    + destruct (IH xs' r1 (printed ++ [size xs'])) as (trace & E & Hm).
      rewrite E.
      destruct (Sequential_forward training rest xs' r1) as [[o' rest'] r2].
      cbn [fst snd] in *. exists (size xs' :: trace). split.
      * now rewrite <- app_assoc.
      * destruct o' as [out|]; cbn [length].
        -- destruct Hm as [Hl Hlast]. split; [lia|].
           now rewrite last_cons.
        -- lia.
    + exists []. cbn [fst snd length]. rewrite app_nil_r. split; [reflexivity|lia].
Qed.

Lemma DenseNet_hidden_is_sequential x y g cfg nif bn dr e (r0 : rng) :
  exists hs, hidden (fst (DenseNet x y g cfg nif bn dr e r0)) = Container cSequential hs.
Proof.
  destruct (signature_Container_inv _ _ _ (DenseNet_signature x y g cfg nif bn dr e r0))
    as (ms & Hms & _).
  now exists ms.
Qed.

(** X14. [test] draws a batch of 10 random inputs and then does what
    [forward] does on it: it leaves the network and the generator in the
    state in which [forward(xs)] leaves them, and it raises exactly when
    [forward(xs)] raises.  Its first line of output is the size
    [(10, x_dim)]; when it does not raise it prints one more line per child
    of [self.hidden], the last one being the size of what [forward(xs)]
    returns. *)
Theorem test_follows_forward :
  forall x_dim y_dim growth_rate block_config num_init_features bn_size
         drop_rate eps (r0 : rng) (training : bool) (r : rng),
    let net := fst (DenseNet x_dim y_dim growth_rate block_config
                             num_init_features bn_size drop_rate eps r0) in
    let xs := fst (torch_randn [10; x_dim] r) in
    let r1 := snd (torch_randn [10; x_dim] r) in
    let t := DenseNet_test training net r in
    let f := DenseNet_forward training net xs false r1 in
    let printed := fst (fst (fst t)) in
    let returned := snd (fst (fst t)) in
    snd (fst t) = snd (fst f) /\
    snd t = snd f /\
    hd [] printed = [10; x_dim] /\
    match fst (fst f) with
    | Some out =>
        returned = true /\
        length printed = 1 + length (children (hidden net)) /\
        last printed [] = size out
    | None =>
        returned = false /\ length printed <= length (children (hidden net))
    end.
Proof.
  intros xd yd g cfg nif bn dr e r0 training r net xs r1 t f printed returned.
  destruct (DenseNet_hidden_is_sequential xd yd g cfg nif bn dr e r0) as (hs & Hh).
  fold net in Hh.
  assert (Ht : exists trace,
            t = ([size xs] ++ trace,
                 match fst (fst (Sequential_forward training hs xs r1)) with
                 | Some _ => true
                 | None => false
                 end,
                 mkDenseNet (x_dim net) (y_dim net) (eps net)
                   (Container cSequential
                      (snd (fst (Sequential_forward training hs xs r1)))),
                 snd (Sequential_forward training hs xs r1)) /\
            match fst (fst (Sequential_forward training hs xs r1)) with
            | Some out => length trace = length hs /\ last trace (size xs) = size out
            | None => length trace < length hs
            end).
  { destruct (test_loop_spec training hs xs r1 [size xs]) as (trace & E & Hm).
    exists trace. split; [|exact Hm].
    subst t. unfold DenseNet_test. rewrite Hh.
    change (fst (torch_randn [10; x_dim net] r)) with xs.
    change (snd (torch_randn [10; x_dim net] r)) with r1.
    cbv zeta. rewrite E. reflexivity. }
  destruct Ht as (trace & Et & Hm).
  assert (Ef : f = (fst (fst (Sequential_forward training hs xs r1)),
                    mkDenseNet (x_dim net) (y_dim net) (eps net)
                      (Container cSequential
                         (snd (fst (Sequential_forward training hs xs r1)))),
                    snd (Sequential_forward training hs xs r1))).
  { subst f. unfold DenseNet_forward. rewrite Hh, forward_Container.
    destruct (Sequential_forward training hs xs r1) as [[o hs'] r2].
    destruct o; reflexivity. }
  subst printed returned. rewrite Et, Ef. cbn [fst snd hd app].
  rewrite Hh. cbn [children].
  split; [reflexivity|]. split; [reflexivity|]. split; [reflexivity|].
  destruct (fst (fst (Sequential_forward training hs xs r1))) as [out|].
  - destruct Hm as [Hl Hlast]. split; [reflexivity|]. split.
    + cbn [length]. now rewrite Hl.
    + now rewrite last_cons.
  - split; [reflexivity|]. cbn [length]. lia.
Qed.

(** X15. [test] runs the layers in the mode the network is in, so in
    training mode it moves running statistics; but on no network and in no
    mode does it change a parameter, whether it raises or not. *)
Theorem test_keeps_parameters :
  forall (training : bool) (self : DenseNetT) (r : rng),
    DenseNet_parameters (snd (fst (DenseNet_test training self r))) =
    DenseNet_parameters self.
Proof.
  intros training [xd yd e h] r. unfold DenseNet_test, DenseNet_parameters.
  cbn [hidden x_dim y_dim eps].
  destruct h as [dim| |ic oc k s p w b|n w b rm rv|k s p|k s p|i o w b|cls hs];
    try reflexivity.
  set (xs := fst (torch_randn [10; xd] r)).
  set (r1 := snd (torch_randn [10; xd] r)).
  destruct (test_loop_spec training hs xs r1 [size xs]) as (trace & E & _).
  cbv zeta. rewrite E. cbn [fst snd hidden].
  pose proof (forward_parameters training (Container cSequential hs) xs r1) as Hp.
  rewrite forward_Container in Hp.
  destruct (Sequential_forward training hs xs r1) as [[o hs'] r2].
  cbn [fst snd] in Hp |- *. exact Hp.
Qed.

(** [view.i] rejects the drawn input: the loop of [test] stops before it
    has printed anything. *)
Lemma test_loop_view_rejects training (n : string) (rest : list (string * Module))
    (xs : tensor) (r : rng) (printed : list (list nat)) :
  numel xs mod (2 * 129 * 21) <> 0 ->
  test_loop training ((n, View [-1; 2; 129; 21]%Z) :: rest) xs r printed =
  (printed, false, (n, View [-1; 2; 129; 21]%Z) :: rest, r).
Proof.
  intros Hmod. cbn [test_loop forward]. unfold View_forward.
  rewrite infer_size_stem.
  destruct (Nat.eqb_spec (numel xs mod (2 * 129 * 21)) 0) as [E|_];
    [contradiction|reflexivity].
Qed.

Lemma numel_torch_randn (a b : nat) (r : rng) :
  numel (fst (torch_randn [a; b] r)) = a * b.
Proof.
  unfold torch_randn, numel, prod. cbn [fst size fold_right]. lia.
Qed.

(** X16. Whatever the configuration, when [10 * x_dim] is not a multiple
    of 2 x 129 x 21 [test] prints the one line [(10, x_dim)] and raises at
    [view.i]; the network is as before. *)
Theorem test_raises_on_other_input_sizes :
  forall x_dim y_dim growth_rate block_config num_init_features bn_size
         drop_rate eps (r0 : rng) (training : bool) (r : rng),
    (10 * x_dim) mod (2 * 129 * 21) <> 0 ->
    let net := fst (DenseNet x_dim y_dim growth_rate block_config
                             num_init_features bn_size drop_rate eps r0) in
    DenseNet_test training net r =
    ([[10; x_dim]], false, net, snd (torch_randn [10; x_dim] r)).
Proof.
  intros xd yd g cfg nif bn dr e r0 training r Hmod net.
  destruct (DenseNet_hidden_starts_with_view xd yd g cfg nif bn dr e r0)
    as (rest & Hh).
  fold net in Hh. unfold DenseNet_test. rewrite Hh.
  change (x_dim net) with xd.
  cbv zeta. rewrite test_loop_view_rejects
    by (now rewrite numel_torch_randn).
  rewrite <- Hh.
  assert (Hx : x_dim net = xd) by reflexivity.
  clearbody net. destruct net as [x y e' h]. cbn [x_dim y_dim eps hidden] in *.
  now subst x.
Qed.

(** X17. On the default configuration [test] runs to its end exactly when
    [10 * x_dim] is a multiple of 2 x 129 x 21.  It then prints 20 sizes,
    the last being [(10 * x_dim / (2 x 129 x 21), y_dim)]: with
    [x_dim = 2 x 129 x 21] that is [(10, y_dim)]. *)
Theorem test_on_default_configuration :
  forall x_dim y_dim bn_size drop_rate eps (r0 : rng) (training : bool) (r : rng),
    (drop_rate <= 1)%Q ->
    let t := DenseNet_test training
               (fst (DenseNet x_dim y_dim 4 [6; 12; 24; 48; 16] 64 bn_size
                              drop_rate eps r0)) r in
    let printed := fst (fst (fst t)) in
    if snd (fst (fst t))
    then (10 * x_dim) mod (2 * 129 * 21) = 0 /\
         length printed = 20 /\
         last printed [] = [10 * x_dim / (2 * 129 * 21); y_dim]
    else (10 * x_dim) mod (2 * 129 * 21) <> 0 /\ printed = [[10; x_dim]].
Proof.
  intros xd yd bn dr e r0 training r Hdr t printed.
  set (net := fst (DenseNet xd yd 4 [6; 12; 24; 48; 16] 64 bn dr e r0)) in *.
  destruct (Nat.eq_dec ((10 * xd) mod (2 * 129 * 21)) 0) as [Hmod|Hmod].
  - destruct (signature_Container_inv _ _ _
                (DenseNet_signature xd yd 4 [6; 12; 24; 48; 16] 64 bn dr e r0))
      as (hs & Hh & Hsig).
    fold net in Hh.
    assert (Hcount : length hs = 19).
    { assert (Hlen : length hs = length (children_signature hs)).
      { clear. induction hs as [|[n c] hs IH]; [reflexivity|].
        cbn [children_signature length]. now rewrite IH. }
      rewrite Hlen, Hsig, !length_app, spec_stages_length. reflexivity. }
    set (xs := fst (torch_randn [10; xd] r)).
    set (r1 := snd (torch_randn [10; xd] r)).
    assert (Hxs : prod (size xs) = 10 * xd).
    { subst xs. unfold torch_randn. cbn [fst size]. unfold prod.
      cbn [fold_right]. lia. }
    pose proof (default_hidden_size training xd yd bn dr e r0 (size xs) Hdr) as Hsz.
    fold net in Hsz. rewrite Hh, Hxs in Hsz.
    rewrite Hmod in Hsz. change (0 =? 0) with true in Hsz. cbv iota in Hsz.
    pose proof (forward_size_spec training (Container cSequential hs) xs r1) as Hspec.
    rewrite Hsz, forward_Container in Hspec.
    destruct (test_loop_spec training hs xs r1 [size xs]) as (trace & E & Hm).
    assert (Et : t = ([size xs] ++ trace,
                      match fst (fst (Sequential_forward training hs xs r1)) with
                      | Some _ => true
                      | None => false
                      end,
                      mkDenseNet (x_dim net) (y_dim net) (eps net)
                        (Container cSequential
                           (snd (fst (Sequential_forward training hs xs r1)))),
                      snd (Sequential_forward training hs xs r1))).
    { subst t. unfold DenseNet_test. rewrite Hh.
      change (fst (torch_randn [10; x_dim net] r)) with xs.
      change (snd (torch_randn [10; x_dim net] r)) with r1.
      cbv zeta. rewrite E. reflexivity. }
    subst printed. rewrite Et. cbn [fst snd].
    destruct (Sequential_forward training hs xs r1) as [[o hs'] r2].
    cbn [fst snd] in Hspec, Hm |- *.
    destruct o as [out|]; [|discriminate].
    cbn [option_map] in Hspec. injection Hspec as Hout.
    destruct Hm as [Hl Hlast].
    split; [exact Hmod|]. split.
    + cbn [app length]. now rewrite Hl, Hcount.
    + cbn [app]. now rewrite last_cons, Hlast.
  - destruct (DenseNet_hidden_starts_with_view xd yd 4 [6; 12; 24; 48; 16] 64
                bn dr e r0) as (rest & Hh).
    fold net in Hh. subst printed t. unfold DenseNet_test. rewrite Hh.
    change (x_dim net) with xd.
    cbv zeta. rewrite test_loop_view_rejects
      by (now rewrite numel_torch_randn).
    cbn [fst snd]. auto.
Qed.

(* ------------------------------------------------------------------ *)
(** ** Evaluation mode *)

(** X18. In evaluation mode a forward pass is a pure function of the
    network and the input, for every network and every dropout
    probability: the network (running statistics included) and the random
    generator are afterwards as they were, and what is returned, or that the
    call raises, does not depend on the generator. *)
Theorem DenseNet_forward_eval_is_pure :
  forall (self : DenseNetT) (x : tensor) (softmax : bool) (r r' : rng),
    DenseNet_forward false self x softmax r =
    (fst (fst (DenseNet_forward false self x softmax r')), self, r).
Proof.
  intros [xd yd e h] x softmax r r'. unfold DenseNet_forward.
  cbn [hidden x_dim y_dim eps].
  rewrite (forward_eval h x r r'), (forward_eval h x r' r').
  destruct (fst (fst (forward false h x r'))) as [out|]; [|reflexivity].
  destruct softmax; reflexivity.
Qed.

(** X19. In evaluation mode [test] leaves a constructed network as it
    was and reads the generator only to draw its random input. *)
Theorem test_eval_keeps_network :
  forall x_dim y_dim growth_rate block_config num_init_features bn_size
         drop_rate eps (r0 : rng) (r : rng),
    let net := fst (DenseNet x_dim y_dim growth_rate block_config
                             num_init_features bn_size drop_rate eps r0) in
    snd (fst (DenseNet_test false net r)) = net /\
    snd (DenseNet_test false net r) = snd (torch_randn [10; x_dim] r).
Proof.
  intros xd yd g cfg nif bn dr e r0 r net.
  destruct (DenseNet_hidden_is_sequential xd yd g cfg nif bn dr e r0) as (hs & Hh).
  fold net in Hh. unfold DenseNet_test. rewrite Hh.
  change (x_dim net) with xd.
  set (xs := fst (torch_randn [10; xd] r)).
  set (r1 := snd (torch_randn [10; xd] r)).
  destruct (test_loop_spec false hs xs r1 [size xs]) as (trace & E & _).
  cbv zeta. rewrite E. cbn [fst snd].
  pose proof (forward_eval (Container cSequential hs) xs r1 r1) as Hev.
  rewrite forward_Container in Hev.
  destruct (Sequential_forward false hs xs r1) as [[o hs'] r2].
  cbn [fst snd] in Hev |- *.
  injection Hev as Hhs Hr. subst hs' r2. split; [|reflexivity].
  rewrite <- Hh.
  assert (Hx : x_dim net = xd) by reflexivity.
  clearbody net. destruct net as [x y e' h]. cbn [x_dim y_dim eps hidden] in *.
  now subst x.
Qed.

End Further.

(* ------------------------------------------------------------------ *)
(** ** The further properties at concrete inputs *)

(** Six entries viewed as three rows of two. *)
Lemma View_forward_same_elements_witness :
  View_forward [-1; 2]%Z (mkTensor [2; 3] (fun i => Z.of_nat i))
  = Some (mkTensor [3; 2] (fun i => Z.of_nat i)) /\
  data (mkTensor [3; 2] (fun i => Z.of_nat i))
  = data (mkTensor [2; 3] (fun i => Z.of_nat i)) /\
  numel (mkTensor [3; 2] (fun i => Z.of_nat i))
  = numel (mkTensor [2; 3] (fun i => Z.of_nat i)).
Proof.
  split.
  - reflexivity.
  - apply (View_forward_same_elements [-1; 2]%Z). reflexivity.
Defined.

(** ... and viewed back as two rows of three. *)
Lemma View_forward_round_trip_witness :
  View_forward (map Z.of_nat (size (mkTensor [2; 3] (fun i => Z.of_nat i))))
    (mkTensor [3; 2] (fun i => Z.of_nat i))
  = Some (mkTensor [2; 3] (fun i => Z.of_nat i)).
Proof.
  apply (View_forward_round_trip [-1; 2]%Z).
  - discriminate.
  - reflexivity.
Defined.

(** A layer for two channels on an input with three. *)
Lemma DenseLayer_rejects_wrong_input_witness :
  forward (F := toy) true (fst (_DenseLayer 2 1 1 0 0%nat))
    (mkTensor [2; 3; 1; 1] (fun i => Z.of_nat i)) 7%nat
  = (None, fst (_DenseLayer 2 1 1 0 0%nat), 7%nat).
Proof.
  apply (DenseLayer_rejects_wrong_input (F := toy) 2 1 1 0 0%nat true
           (mkTensor [2; 3; 1; 1] (fun i => Z.of_nat i)) 7%nat).
  intros B H W E. simpl in E. congruence.
Defined.

(** [drop_rate = 2], in evaluation mode. *)
Lemma DenseLayer_drop_rate_above_one_raises_witness :
  fst (fst (forward (F := toy) false (fst (_DenseLayer 2 1 1 2 0%nat))
              (mkTensor [2; 2; 1; 1] (fun i => Z.of_nat i)) 7%nat))
  = None.
Proof.
  apply (DenseLayer_drop_rate_above_one_raises (F := toy) 2 1 1 2 0%nat false
           (mkTensor [2; 2; 1; 1] (fun i => Z.of_nat i)) 7%nat).
  unfold Qlt. simpl. lia.
Defined.

(** [drop_rate = 1/2], in evaluation mode. *)
Lemma DenseLayer_dropout_inactive_witness :
  fst (fst (forward (F := toy) false (fst (_DenseLayer 2 1 1 (1 # 2) 0%nat))
              (mkTensor [2; 2; 1; 1] (fun i => Z.of_nat i)) 7%nat))
  = fst (fst (forward (F := toy) false (fst (_DenseLayer 2 1 1 0 0%nat))
                (mkTensor [2; 2; 1; 1] (fun i => Z.of_nat i)) 7%nat)) /\
  snd (forward (F := toy) false (fst (_DenseLayer 2 1 1 (1 # 2) 0%nat))
         (mkTensor [2; 2; 1; 1] (fun i => Z.of_nat i)) 7%nat) = 7%nat.
Proof.
  apply (DenseLayer_dropout_inactive (F := toy) 2 1 1 (1 # 2) 0%nat false
           (mkTensor [2; 2; 1; 1] (fun i => Z.of_nat i)) 7%nat).
  left. split; [reflexivity|]. unfold Qle. simpl. lia.
Defined.

(** A block of three layers with growth rate 1 on two input channels, in
    training mode. *)
Lemma DenseBlock_passes_input_through_witness :
  exists out,
    fst (fst (forward (F := toy) true (fst (_DenseBlock 3 2 1 1 0 0%nat))
                (mkTensor [2; 2; 1; 2] (fun i => Z.of_nat i)) 7%nat))
      = Some out /\
    size out = [2; 2 + 3 * 1; 1; 2] /\
    (forall n c i j, n < 2 -> c < 2 -> i < 1 -> j < 2 ->
       get out [n; c; i; j]
       = get (mkTensor [2; 2; 1; 2] (fun i => Z.of_nat i)) [n; c; i; j]).
Proof.
  apply (DenseBlock_passes_input_through (F := toy) 3 2 1 1 0 0%nat true 2 1 2
           (mkTensor [2; 2; 1; 2] (fun i => Z.of_nat i)) 7%nat).
  - reflexivity.
  - lia.
  - lia.
  - lia.
  - lia.
  - lia.
  - lia.
  - intros _. simpl. lia.
  - unfold Qle. simpl. lia.
Defined.

(** Six blocks of one layer each. *)
Lemma six_blocks_never_run_witness :
  fst (fst (DenseNet_forward (F := toy) false
              (fst (DenseNet (2 * 129 * 21) 3 1 [1; 1; 1; 1; 1; 1] 2 1 0 0%Z 0%nat))
              (mkTensor [1; 2 * 129 * 21] (fun i => Z.of_nat i)) false 7%nat))
  = None.
Proof.
  apply (six_blocks_never_run (F := toy) (2 * 129 * 21) 3 1 [1; 1; 1; 1; 1; 1]
           2 1 0 0%Z 0%nat false
           (mkTensor [1; 2 * 129 * 21] (fun i => Z.of_nat i)) false 7%nat).
  simpl. lia.
Defined.

(** Two blocks: the map that reaches [pool.f] is 33 x 11. *)
Lemma forward_returns_exactly_when_witness :
  let C := snd (spec_stages 1 1 0 [1; 1] 1 2) in
  let Hf := Nat.iter (length [1; 1] - 1) halve 65 in
  let Wf := Nat.iter (length [1; 1] - 1) halve 21 in
  let count := prod [2; C; Hf - 1; Wf - 1] in
  match fst (fst (DenseNet_forward (F := toy) true
                    (fst (DenseNet (2 * 129 * 21) 3 1 [1; 1] 2 1 0 0%Z 0%nat))
                    (mkTensor [2; 2 * 129 * 21] (fun i => Z.of_nat i))
                    false 7%nat)) with
  | Some out =>
      2 <= Hf /\ 2 <= Wf /\ count mod 780 = 0 /\ size out = [count / 780; 3]
  | None => Hf < 2 \/ Wf < 2 \/ count mod 780 <> 0
  end.
Proof.
  apply (forward_returns_exactly_when (F := toy) (2 * 129 * 21) 3 1 [1; 1] 2 1 0
           0%Z 0%nat true 2
           (mkTensor [2; 2 * 129 * 21] (fun i => Z.of_nat i)) 7%nat).
  - reflexivity.
  - lia.
  - intros _. lia.
  - lia.
  - lia.
  - lia.
  - lia.
  - repeat constructor.
  - unfold Qle. simpl. lia.
Defined.

(** Three entries are not a multiple of 2 x 129 x 21. *)
Lemma forward_rejects_at_the_stem_witness :
  DenseNet_forward (F := toy) true
    (fst (DenseNet 3 3 1 [1; 1] 2 1 0 0%Z 0%nat))
    (mkTensor [1; 3] (fun i => Z.of_nat i)) true 7%nat
  = (None, fst (DenseNet 3 3 1 [1; 1] 2 1 0 0%Z 0%nat), 7%nat).
Proof.
  apply (forward_rejects_at_the_stem (F := toy) 3 3 1 [1; 1] 2 1 0 0%Z 0%nat
           true (mkTensor [1; 3] (fun i => Z.of_nat i)) true 7%nat).
  vm_compute. discriminate.
Defined.

(** The default configuration with [drop_rate = 1/2], in training mode, on
    a single input. *)
Lemma default_forward_rows_witness :
  exists out,
    fst (fst (DenseNet_forward (F := toy) true
                (fst (DenseNet (2 * 129 * 21) 10 4 [6; 12; 24; 48; 16] 64 4
                               (1 # 2) 0%Z 0%nat))
                (mkTensor [1; 2 * 129 * 21] (fun i => Z.of_nat i))
                false 7%nat)) = Some out /\
    size out = [1; 10].
Proof.
  destruct (default_forward_rows (F := toy) (2 * 129 * 21) 10 4 (1 # 2) 0%Z
              0%nat true (mkTensor [1; 2 * 129 * 21] (fun i => Z.of_nat i))
              7%nat) as [_ Hrun].
  - unfold Qle. simpl. lia.
  - apply (Hrun 1).
    + reflexivity.
    + lia.
    + lia.
    + lia.
Defined.

(** [x_dim = 7]: seventy entries are drawn, and [view.i] rejects them. *)
Lemma test_raises_on_other_input_sizes_witness :
  DenseNet_test (F := toy) (R := toy_randn) true
    (fst (DenseNet 7 3 1 [1; 1] 2 1 0 0%Z 0%nat)) 5%nat
  = ([[10; 7]], false, fst (DenseNet 7 3 1 [1; 1] 2 1 0 0%Z 0%nat),
     snd (torch_randn (R := toy_randn) [10; 7] 5%nat)).
Proof.
  apply (test_raises_on_other_input_sizes (F := toy) (R := toy_randn) 7 3 1
           [1; 1] 2 1 0 0%Z 0%nat true 5%nat).
  vm_compute. discriminate.
Defined.

(** The default configuration with [x_dim = 2 x 129 x 21]. *)
Lemma test_on_default_configuration_witness :
  let t := DenseNet_test (F := toy) (R := toy_randn) true
             (fst (DenseNet (2 * 129 * 21) 10 4 [6; 12; 24; 48; 16] 64 4 0
                            0%Z 0%nat)) 5%nat in
  let printed := fst (fst (fst t)) in
  if snd (fst (fst t))
  then (10 * (2 * 129 * 21)) mod (2 * 129 * 21) = 0 /\
       length printed = 20 /\
       last printed [] = [10 * (2 * 129 * 21) / (2 * 129 * 21); 10]
  else (10 * (2 * 129 * 21)) mod (2 * 129 * 21) <> 0 /\
       printed = [[10; 2 * 129 * 21]].
Proof.
  apply (test_on_default_configuration (F := toy) (R := toy_randn)
           (2 * 129 * 21) 10 4 0 0%Z 0%nat true 5%nat).
  unfold Qle. simpl. lia.
Defined.
